(** * param_constraints.py: the pairwise parameter-constraint sweep

    A shallow embedding of [src/param_fitting/param_constraints.py].
    Numbers are IEEE-754 binary64 values (Rocq's primitive [float], the
    [float64] of numpy and of JAX once [jax_enable_x64] is set); Python
    exceptions are an explicit error result; numpy and JAX arrays are
    lists together with their shape.  What the script takes from
    external libraries (numpy, JAX, diffrax, pickle) and from modules it
    only imports is a parameter: a field of [NumLib], or a variable of
    the section that uses it. *)

From Stdlib Require Import ZArith Lia Floats Strings.Byte.
From stdpp Require Import base option list gmap strings.

Set Warnings "-inexact-float".

(** * Part I: the embedding *)

(** ** Python exceptions and fallible computations *)

Inductive exn :=
| IndexError   (* an index outside an axis, or too many indices *)
| KeyError     (* a missing dictionary key *)
| ZeroDivisionError  (* a Python float divided by zero *)
| ShapeError   (* operands whose shapes do not broadcast together *)
| FileNotFoundError  (* no file at the path, or no directory to put it in *)
| UnpicklingError    (* bytes that are no pickle of an array *)
| ValueError.        (* min() or max() of an empty sequence *)

Inductive result (A : Type) :=
| Ok (a : A)
| Raise (e : exn).
Arguments Ok {A} a.
Arguments Raise {A} e.

#[global] Instance result_ret : MRet result := fun _ a => Ok a.
#[global] Instance result_bind : MBind result := fun _ _ f m =>
  match m with Ok a => f a | Raise e => Raise e end.

Definition of_option {A} (e : exn) (o : option A) : result A :=
  match o with Some a => Ok a | None => Raise e end.

Definition is_ok {A} (r : result A) : bool :=
  match r with Ok _ => true | Raise _ => false end.

(** [for i in xs: st = body(i, st)], stopping at the first exception. *)
Fixpoint for_each {S : Type} (xs : list nat) (body : nat -> S -> result S)
    (st : S) : result S :=
  match xs with
  | [] => Ok st
  | i :: xs' => st' ← body i st; for_each xs' body st'
  end.

(** [for i in range(0, n)] *)
Definition for_range {S : Type} (n : nat) (body : nat -> S -> result S)
    (st : S) : result S :=
  for_each (seq 0 n) body st.

(** ** Arrays *)

(** [pd.read_csv(...).values]: a two-dimensional float64 array, kept as
    its list of rows.  [t[i, j]] raises IndexError outside either axis. *)
Abbreviation table := (list (list float)).

Definition cell (t : table) (i j : nat) : result float :=
  row ← of_option IndexError (t !! i);
  of_option IndexError (row !! j).

(** [t[:, j]]: column [j] of a two-dimensional array. *)
Definition column (t : table) (j : nat) : result (list float) :=
  of_option IndexError (mapM (fun row : list float => row !! j) t).

(** [v[k]] on a one-dimensional array, for a non-negative [k]. *)
Definition item (v : list float) (k : nat) : result float :=
  of_option IndexError (v !! k).

(** A numpy or JAX array of one or two axes.  A two-axis array records
    its number of columns, which its rows cannot tell when there are
    none. *)
Inductive ndarray :=
| Arr1 (xs : list float)
| Arr2 (ncols : nat) (rows : list (list float)).

Inductive shape :=
| Sh1 (n : nat)
| Sh2 (n c : nat).

Definition shape_of (a : ndarray) : shape :=
  match a with
  | Arr1 xs => Sh1 (length xs)
  | Arr2 c rows => Sh2 (length rows) c
  end.

(** [a.shape[0]] *)
Definition shape0 (a : ndarray) : nat :=
  match shape_of a with Sh1 n => n | Sh2 n _ => n end.

(** [jnp.array(rows)] of a Python list of equally long lists of floats:
    two axes, except that the empty list gives the one-axis array of
    shape (0,). *)
Definition jnp_array (rows : list (list float)) : ndarray :=
  match rows with
  | [] => Arr1 []
  | r :: _ => Arr2 (length r) rows
  end.

(** [np.ones(shape)], [np.zeros(shape)] *)
Definition np_full (v : float) (sh : shape) : ndarray :=
  match sh with
  | Sh1 n => Arr1 (replicate n v)
  | Sh2 n c => Arr2 c (replicate n (replicate c v))
  end.
Definition np_ones : shape -> ndarray := np_full 1%float.
Definition np_zeros : shape -> ndarray := np_full 0%float.

(** Broadcasting of one axis: equal sizes, or one of them 1. *)
Definition bdim (a b : nat) : result nat :=
  if decide (a = b) then Ok a
  else if decide (a = 1) then Ok b
  else if decide (b = 1) then Ok a
  else Raise ShapeError.

(** An axis of size 1 repeated to size [n]; any other axis left alone. *)
Definition stretch {A} (n : nat) (xs : list A) : list A :=
  match xs with
  | [x] => replicate n x
  | _ => xs
  end.

Definition as_rows (a : ndarray) : nat * nat * list (list float) :=
  match a with
  | Arr1 xs => (1, length xs, [xs])
  | Arr2 c rows => (length rows, c, rows)
  end.

(** [jnp.multiply(a, b)], also written [a * b]: the elementwise product
    of two arrays after broadcasting. *)
Definition jnp_multiply (a b : ndarray) : result ndarray :=
  let '(ra, ca, rowsa) := as_rows a in
  let '(rb, cb, rowsb) := as_rows b in
  r ← bdim ra rb;
  c ← bdim ca cb;
  let rows :=
    zip_with (fun xs ys => zip_with PrimFloat.mul (stretch c xs) (stretch c ys))
      (stretch r rowsa) (stretch r rowsb) in
  match a, b with
  | Arr1 _, Arr1 _ => Ok (Arr1 (concat rows))
  | _, _ => Ok (Arr2 c rows)
  end.

(** [a[:, j]] on a JAX array, for a non-negative [j].  A one-axis array
    has one index too many, and an axis without entries cannot be
    indexed: IndexError.  Otherwise JAX clamps a read past the last
    column to the last column. *)
Definition slice_col (a : ndarray) (j : nat) : result (list float) :=
  match a with
  | Arr1 _ => Raise IndexError
  | Arr2 c rows =>
    if decide (c = 0) then Raise IndexError
    else column rows (j `min` (c - 1))
  end.

(** [a.at[:, j].set(v)] on a JAX array: a new array, column [j] replaced
    by the one-axis array [v] (of one entry per row, or of a single
    entry).  IndexError as for a read; otherwise JAX drops an update
    past the last column. *)
Definition at_col_set (a : ndarray) (j : nat) (v : list float) : result ndarray :=
  match a with
  | Arr1 _ => Raise IndexError
  | Arr2 c rows =>
    if decide (c = 0) then Raise IndexError
    else
      n ← bdim (length rows) (length v);
      if decide (n = length rows) then
        Ok (Arr2 c (zip_with (fun row x => <[j := x]> row) rows (stretch n v)))
      else Raise ShapeError
  end.

(** [v.at[k].set(x)] on a one-axis JAX array: a new array; an update
    outside the axis is dropped. *)
Definition at_set (v : list float) (k : nat) (x : float) : list float :=
  <[k := x]> v.

(** [a[i, j] = x] on a numpy array, in place: IndexError outside an axis. *)
Definition set_cell (a : table) (i j : nat) (x : float) : result table :=
  row ← of_option IndexError (a !! i);
  if decide (j < length row) then Ok (<[i := <[j := x]> row]> a)
  else Raise IndexError.

(** ** External numerical functions *)

(** The numpy and JAX functions the script calls on floats, whose values
    the embedding does not compute. *)
Class NumLib := {
  np_log10 : float -> float;
  (* np.logspace(start, stop, num) *)
  np_logspace : float -> float -> nat -> list float;
  (* ndarray.mean() of a one-axis array *)
  np_mean : list float -> float;
  jnp_log : float -> float;
  (* jnp.linspace(start, stop, num) *)
  jnp_linspace : float -> float -> nat -> list float
}.

(** Their documented contract, as far as the script relies on it: [num]
    samples are returned. *)
Class NumLibSpec `{NumLib} : Prop := {
  np_logspace_length a b n : length (np_logspace a b n) = n;
  jnp_linspace_length a b n : length (jnp_linspace a b n) = n
}.

(** ** The experimental data loader (main, lines 121-141) *)

Definition cutoff_growthrate : float := 0.3%float.

(** [int(i / 5)].  Python divides the integers as floats and truncates;
    for a row index below 2^53 the rounded quotient stays inside
    [i // 5, i // 5 + 1), so the truncation is the floor quotient. *)
Definition block_of_row (i : nat) : nat := i / 5.

(** [dataset[i, 0] > cutoff_growthrate] *)
Definition above_cutoff (x : float) : bool := PrimFloat.ltb cutoff_growthrate x.

(** The accumulators [read_setups] and [read_measurements]. *)
Record readings := {
  read_setups : list (list float);
  read_measurements : list (list float)
}.

(** One iteration of the loop of lines 128-139. *)
Definition load_row (dataset : table) (par_xs : list float) (i : nat)
    (st : readings) : result readings :=
  d0 ← cell dataset i 0;
  if above_cutoff d0 then
    par_x ← item par_xs (block_of_row i);
    d3 ← cell dataset i 3;
    let h := (d3 * 1000)%float in
    let read_setups' := read_setups st ++ [[par_x; h]] in
    l ← cell dataset i 0;
    phi_r ← cell dataset i 2;
    Ok {| read_setups := read_setups';
          read_measurements := read_measurements st ++ [[l; phi_r]] |}
  else Ok st.

Definition load_rows (dataset : table) (par_xs : list float) : result readings :=
  for_range (length dataset) (load_row dataset par_xs)
    {| read_setups := []; read_measurements := [] |}.

(** The nutrient qualities, line 125. *)
Definition par_xs `{NumLib} : list float :=
  np_logspace (np_log10 0.08%float) (np_log10 0.5%float) 6.

(** Lines 121-141: the tables [setups] and [exp_measurements]. *)
Definition load_experimental_data `{NumLib} (dataset : table)
    : result (ndarray * ndarray) :=
  r ← load_rows dataset par_xs;
  Ok (jnp_array (read_setups r), jnp_array (read_measurements r)).

(** The rows the loop keeps, by index, in the order it meets them. *)
Definition retained (dataset : table) (i : nat) : bool :=
  match cell dataset i 0 with
  | Ok d0 => above_cutoff d0
  | Raise _ => false
  end.

Definition retained_rows (dataset : table) : list nat :=
  filter (fun i => retained dataset i = true) (seq 0 (length dataset)).

(** What the loop appends for a kept row [i]. *)
Definition setup_of (dataset : table) (par_xs : list float) (i : nat)
    (s : list float) : Prop :=
  exists par_x d3,
    par_xs !! block_of_row i = Some par_x /\
    cell dataset i 3 = Ok d3 /\
    s = [par_x; (d3 * 1000)%float].

Definition measurement_of (dataset : table) (i : nat) (m : list float) : Prop :=
  exists l phi_r,
    cell dataset i 0 = Ok l /\ cell dataset i 2 = Ok phi_r /\ m = [l; phi_r].

(** ** The measurement errors (main, lines 144-158) *)

Record error_readings := {
  read_unscaled_errors : list (list float);
  read_replicates : list (list float)
}.

(** One iteration of the loop of lines 148-153. *)
Definition load_error_row (dataset error_dataset : table) (i : nat)
    (st : error_readings) : result error_readings :=
  d0 ← cell dataset i 0;
  if above_cutoff d0 then
    e0 ← cell error_dataset i 0;
    e2 ← cell error_dataset i 2;
    let read_unscaled_errors' := read_unscaled_errors st ++ [[e0; e2]] in
    r4 ← cell error_dataset i 4;
    r5 ← cell error_dataset i 5;
    Ok {| read_unscaled_errors := read_unscaled_errors';
          read_replicates := read_replicates st ++ [[r4; r5]] |}
  else Ok st.

Definition load_error_rows (dataset error_dataset : table) : result error_readings :=
  for_range (length dataset) (load_error_row dataset error_dataset)
    {| read_unscaled_errors := []; read_replicates := [] |}.

(** Lines 144-158: [exp_errors].  The scaling by replicate numbers of
    line 156 is commented out in the source; line 158 is what runs. *)
Definition load_exp_errors `{NumLib} (dataset error_dataset : table)
    : result ndarray :=
  r ← load_error_rows dataset error_dataset;
  let unscaled_errors := jnp_array (read_unscaled_errors r) in
  let replicates := jnp_array (read_replicates r) in
  col0 ← column error_dataset 0;
  col2 ← column error_dataset 2;
  jnp_multiply (np_ones (shape_of unscaled_errors))
    (Arr2 2 [[np_mean col0; np_mean col2]]).

(** ** The state vector constructor (main, lines 162-165) *)

(** Arrays are Python objects: a store maps each object's identity to
    its contents, and every array operation of the script allocates its
    result as a new object. *)
Abbreviation loc := positive.
Abbreviation heap := (gmap loc ndarray).

Definition prog (A : Type) : Type := heap -> result (A * heap).

#[global] Instance prog_ret : MRet prog := fun _ a h => Ok (a, h).
#[global] Instance prog_bind : MBind prog := fun _ _ f m h =>
  match m h with Ok (a, h') => f a h' | Raise e => Raise e end.

Definition lift {A} (r : result A) : prog A := fun h =>
  match r with Ok a => Ok (a, h) | Raise e => Raise e end.

(** A new object, at an identity no live object has. *)
Definition new (a : ndarray) : prog loc := fun h =>
  let l := fresh (dom h) in Ok (l, <[l := a]> h).

(** The contents of an object. *)
Definition get (l : loc) : prog ndarray := fun h =>
  match h !! l with Some a => Ok (a, h) | None => Raise KeyError end.

(** [len(v)] *)
Definition len (a : ndarray) : nat := shape0 a.

Definition obj_shape0 (l : loc) : prog nat := a ← get l; mret (shape0 a).
Definition obj_len (l : loc) : prog nat := a ← get l; mret (len a).
Definition obj_ones (sh : shape) : prog loc := new (np_ones sh).
Definition obj_multiply (la lb : loc) : prog loc :=
  a ← get la; b ← get lb; r ← lift (jnp_multiply a b); new r.
Definition obj_slice_col (la : loc) (j : nat) : prog loc :=
  a ← get la; v ← lift (slice_col a j); new (Arr1 v).
Definition obj_at_col_set (la : loc) (j : nat) (lv : loc) : prog loc :=
  a ← get la; v ← get lv;
  match v with
  | Arr1 xs => r ← lift (at_col_set a j xs); new r
  | Arr2 _ _ => lift (Raise ShapeError)
  end.

(** Lines 163-165, given the objects [setups] and [x0_default]. *)
Definition construct_x0s (setups x0_default : loc) : prog loc :=
  n ← obj_shape0 setups;
  k ← obj_len x0_default;
  ones ← obj_ones (Sh2 n k);
  x0s_unswapped ← obj_multiply ones x0_default;
  s_values ← obj_slice_col setups 0;
  x0s_swapped_s_values ← obj_at_col_set x0s_unswapped 7 s_values;
  h_values ← obj_slice_col setups 1;
  obj_at_col_set x0s_swapped_s_values 8 h_values.

(** ** The batch steady-state integrator (main, lines 167-191) *)

(** diffrax's solvers and step size controllers, as far as the script
    imports them. *)
Inductive ode_solver := Dopri5.

(** Dopri5 is Dormand and Prince's explicit Runge-Kutta method of order
    5 with an embedded method of order 4. *)
Definition solver_order (s : ode_solver) : nat := match s with Dopri5 => 5 end.
Definition solver_explicit (s : ode_solver) : bool := match s with Dopri5 => true end.

Inductive stepsize_controller_t :=
| PIDController (rtol atol : float).

Definition adaptive (c : stepsize_controller_t) : bool :=
  match c with PIDController _ _ => true end.

Inductive terminating_event :=
| SteadyStateEvent (rtol atol : float).

(** The keyword arguments of a call of [diffeqsolve]. *)
Record diffeqsolve_call := {
  call_solver : ode_solver;
  call_t0 : Z;
  call_t1 : Z;
  call_dt0 : float;
  call_max_steps : option nat;
  call_discrete_terminating_event : option terminating_event;
  call_stepsize_controller : stepsize_controller_t
}.

Definition tf : Z * Z := (0, 48)%Z.
Definition dt_max : float := 0.1%float.
Definition rtol : float := 1e-6%float.
Definition atol : float := 1e-6%float.
Definition solver : ode_solver := Dopri5.
Definition stepsize_controller : stepsize_controller_t := PIDController rtol atol.
Definition steady_state_stop : terminating_event :=
  SteadyStateEvent 0.001%float 0.001%float.

(** The call inside [diffeqsolve_forx0], lines 186-191. *)
Definition diffeqsolve_forx0 : diffeqsolve_call := {|
  call_solver := solver;
  call_t0 := fst tf;
  call_t1 := snd tf;
  call_dt0 := 0.1%float;
  call_max_steps := None;
  call_discrete_terminating_event := Some steady_state_stop;
  call_stepsize_controller := stepsize_controller
|}.

(** ** The grid sweep driver (main, lines 205-222) *)

(** [par[k]] on the parameter dictionary. *)
Definition par_get (par : gmap string float) (k : string) : result float :=
  of_option KeyError (par !! k).

(** [x / y] on Python floats: ZeroDivisionError when [y] is zero of
    either sign, the binary64 quotient otherwise. *)
Definition py_div (x y : float) : result float :=
  if PrimFloat.eqb y 0 then Raise ZeroDivisionError else Ok (x / y)%float.

(** Line 207: the entries of the list are evaluated from left to right. *)
Definition parvec_default `{NumLib} (par : gmap string float) : result (list float) :=
  a_r ← par_get par "a_r";
  a_a ← par_get par "a_a";
  ratio ← py_div a_r a_a;
  K_e ← par_get par "K_e";
  nu_max ← par_get par "nu_max";
  kcm ← par_get par "kcm";
  Ok (map jnp_log [ratio; K_e; nu_max; kcm]).

(** [jnp.linspace(jnp.log(0.1), jnp.log(30), 51) + jnp.log(centre)] *)
Definition log_range `{NumLib} (centre : float) : list float :=
  map (fun x => (x + jnp_log centre)%float)
    (jnp_linspace (jnp_log 0.1%float) (jnp_log 30%float) 51).

(** Lines 210-211 *)
Definition K_range `{NumLib} (par : gmap string float) : result (list float) :=
  K_e ← par_get par "K_e"; Ok (log_range K_e).
Definition kcm_range `{NumLib} (par : gmap string float) : result (list float) :=
  kcm ← par_get par "kcm"; Ok (log_range kcm).

(** [a[i, j]] and [a[i, j] = x] on a two-axis numpy array. *)
Definition nd_cell (a : ndarray) (i j : nat) : result float :=
  match a with
  | Arr1 _ => Raise IndexError
  | Arr2 c rows => if decide (j < c) then cell rows i j else Raise IndexError
  end.

Definition nd_set_cell (a : ndarray) (i j : nat) (x : float) : result ndarray :=
  match a with
  | Arr1 _ => Raise IndexError
  | Arr2 c rows =>
    if decide (j < c) then rows' ← set_cell rows i j x; Ok (Arr2 c rows')
    else Raise IndexError
  end.

(** The candidate vector at grid point (K, k): entries 1 and 3 of the
    baseline overwritten. *)
Definition grid_parvec (parvec_default : list float) (K k : float) : list float :=
  at_set (at_set parvec_default 1 K) 3 k.

(** The result surface under construction, and what was printed. *)
Record sweep_state := {
  loglikes : ndarray;
  stdout : list (nat * nat)
}.

Section Sweep.

(** The objective function [minus_sos], which may raise. *)
Context (minus_sos : list float -> result float).
Context (parvec_default K_range kcm_range : list float).

(** Lines 221-222 *)
Definition sweep_cell (i j : nat) (st : sweep_state) : result sweep_state :=
  K ← item K_range i;
  k ← item kcm_range j;
  v ← minus_sos (grid_parvec parvec_default K k);
  loglikes' ← nd_set_cell (loglikes st) i j v;
  Ok {| loglikes := loglikes'; stdout := stdout st ++ [(i, j)] |}.

(** Lines 217-222 *)
Definition grid_sweep : result sweep_state :=
  for_range (length K_range)
    (fun i => for_range (length kcm_range) (sweep_cell i))
    {| loglikes := np_zeros (Sh2 (length K_range) (length kcm_range));
       stdout := [] |}.

(** The surface has one row for each axis-1 value and one column for
    each axis-2 value. *)
Definition surface_shaped (st : sweep_state) : Prop :=
  exists rows,
    loglikes st = Arr2 (length kcm_range) rows /\
    length rows = length K_range /\
    Forall (fun row => length row = length kcm_range) rows.

(** Cell (i, j) of the surface holds the objective at grid point (i, j). *)
Definition cell_filled (st : sweep_state) (i j : nat) : Prop :=
  exists K k v,
    K_range !! i = Some K /\ kcm_range !! j = Some k /\
    minus_sos (grid_parvec parvec_default K k) = Ok v /\
    nd_cell (loglikes st) i j = Ok v.

End Sweep.

(** ** Persistence of the result surface (main, lines 214-231) *)

(** The files under the working directory: the directories that exist,
    and the bytes of each regular file by its path.  Access rights and
    other kinds of directory entries are left out. *)
Abbreviation files := (gmap string (list Byte.byte)).

Record file_system := {
  dirs : gset string;
  contents : files
}.

Definition pickle_dir : string := "fit_outcomes".
Definition pickle_file_name : string := "fit_outcomes/param_constraints.pkl".

Section Persistence.

(** [pickle.dumps] and [pickle.loads] on arrays. *)
Context (pickle_dumps : ndarray -> list Byte.byte).
Context (pickle_loads : list Byte.byte -> result ndarray).

(** Lines 223-226: open for writing, dump, close.  Opening creates the
    file or empties it, and needs its directory to exist. *)
Definition dump_loglikes (a : ndarray) (fs : file_system) : result file_system :=
  if decide (pickle_dir ∈ dirs fs) then
    Ok {| dirs := dirs fs;
          contents := <[pickle_file_name := pickle_dumps a]> (contents fs) |}
  else Raise FileNotFoundError.

(** Lines 228-231: open for reading, load, close. *)
Definition load_loglikes (fs : file_system) : result ndarray :=
  if decide (pickle_dir ∈ dirs fs) then
    bytes ← of_option FileNotFoundError (contents fs !! pickle_file_name);
    pickle_loads bytes
  else Raise FileNotFoundError.

(** Lines 207-231, for either value of the flag [simulate]: the result
    surface handed to the plot, and the file system afterwards.  The
    file is opened only once the whole sweep has run. *)
Definition obtain_loglikes `{NumLib} (simulate : bool)
    (minus_sos : list float -> result float) (par : gmap string float)
    (fs : file_system) : result (ndarray * file_system) :=
  pv ← parvec_default par;
  Kr ← K_range par;
  kr ← kcm_range par;
  if simulate then
    st ← grid_sweep minus_sos pv Kr kr;
    fs' ← dump_loglikes (loglikes st) fs;
    Ok (loglikes st, fs')
  else
    a ← load_loglikes fs;
    Ok (a, fs).

End Persistence.

(** Line 214 *)
Definition simulate : bool := true.

(** Every row of a two-axis array has as many entries as the array has
    columns. *)
Definition well_shaped (a : ndarray) : Prop :=
  match a with
  | Arr1 _ => True
  | Arr2 c rows => Forall (fun row => length row = c) rows
  end.

(** An array numpy can hold: every row of a two-axis array has as many
    entries as the array has columns, and every axis is shorter than
    2^63. *)
Definition representable (a : ndarray) : Prop :=
  match a with
  | Arr1 xs => (Z.of_nat (length xs) < 2 ^ 63)%Z
  | Arr2 c rows =>
    (Z.of_nat (length rows) < 2 ^ 63)%Z /\ (Z.of_nat c < 2 ^ 63)%Z /\
    Forall (fun row => length row = c) rows
  end.

(** The contract of pickle on arrays: loading what was dumped gives the
    array back. *)
Definition pickle_round_trip (pickle_dumps : ndarray -> list Byte.byte)
    (pickle_loads : list Byte.byte -> result ndarray) : Prop :=
  forall a, representable a -> pickle_loads (pickle_dumps a) = Ok a.

(** ** Concrete inputs *)

(** An instance of the numerical library for running the embedding on
    concrete inputs: samples are spaced linearly, and the logarithms and
    powers are replaced by the identity. *)
Definition float_of_nat (n : nat) : float :=
  PrimFloat.of_uint63 (Uint63.of_Z (Z.of_nat n)).

Definition sample_linspace (a b : float) (n : nat) : list float :=
  map (fun k => (a + float_of_nat k * ((b - a) / float_of_nat (n - 1)))%float)
    (seq 0 n).

Definition sample_mean (xs : list float) : float :=
  (foldl PrimFloat.add 0 xs / float_of_nat (length xs))%float.

Definition sample_numlib : NumLib := {|
  np_log10 := fun x => x;
  np_logspace := sample_linspace;
  np_mean := sample_mean;
  jnp_log := fun x => x;
  jnp_linspace := sample_linspace
|}.

(** Three rows of (growth rate, unused, ribosome fraction, inducer in
    uM); the second grows too slowly, the third exactly at the cutoff. *)
Definition sample_dataset : table :=
  [ [0.5; 0; 0.25; 2];
    [0.125; 0; 0.5; 4];
    [0.3; 0; 0.5; 8];
    [1; 0; 0.125; 0] ]%float.

(** Thirty-one rows, all growing fast enough. *)
Definition long_dataset : table := replicate 31 [0.5; 0; 0.25; 2]%float.

(** Thirty such rows: six blocks of five. *)
Definition full_dataset : table := replicate 30 [0.5; 0; 0.25; 2]%float.

(** An error table for [sample_dataset]: standard deviations in columns
    0 and 2, replicate numbers in columns 4 and 5. *)
Definition sample_error_dataset : table :=
  [ [0.5; 0; 0.25; 0; 3; 3];
    [0.25; 0; 0.125; 0; 3; 2];
    [0.125; 0; 0.5; 0; 2; 2];
    [0.125; 0; 0.125; 0; 4; 3] ]%float.

(** Two setups, a default state vector of ten entries, and a store
    holding both. *)
Definition sample_setups : ndarray :=
  Arr2 2 [ [0.25; 2000]; [0.5; 0] ]%float.

Definition sample_x0_default : list float :=
  [10; 11; 12; 13; 14; 15; 16; 17; 18; 19]%float.

Definition sample_heap : heap :=
  <[1%positive := sample_setups]> (<[2%positive := Arr1 sample_x0_default]> ∅).

(** A parameter dictionary with the five entries the sweep reads, and an
    objective that adds up the candidate vector. *)
Definition sample_par : gmap string float :=
  <["a_r" := 4%float]> (<["a_a" := 2%float]> (<["K_e" := 8%float]>
    (<["nu_max" := 16%float]> (<["kcm" := 32%float]> ∅)))).

Definition sample_minus_sos (parvec : list float) : result float :=
  Ok (foldl PrimFloat.add 0%float parvec).

(** A file system with the output directory and nothing in it. *)
Definition sample_fs : file_system :=
  {| dirs := {[ pickle_dir ]}; contents := ∅ |}.

(** The setups the loader emits for [sample_dataset], and a store
    holding them and the default state vector. *)
Definition sample_loaded_setups : ndarray :=
  Arr2 2 [ [0.08; 2000]; [0.08; 0] ]%float.

Definition sample_loaded_heap : heap :=
  <[1%positive := sample_loaded_setups]>
    (<[2%positive := Arr1 sample_x0_default]> ∅).

(** ** A byte-exact serializer of float64 arrays *)

(** An instance of pickle's contract: the shape as 8-byte little-endian
    integers and the entries as their IEEE-754 binary64 bit patterns, 8
    bytes each, little-endian, in row-major order. *)

(** The binary64 bit pattern of a value: sign, 11 exponent bits, 52
    fraction bits. *)
Definition sign_bit (s : bool) : Z := if s then 2 ^ 63 else 0.

Definition bits_of_SF (x : spec_float) : Z :=
  match x with
  | S754_zero s => sign_bit s
  | S754_infinity s => sign_bit s + 2047 * 2 ^ 52
  | S754_nan => 2047 * 2 ^ 52 + 2 ^ 51
  | S754_finite s m e =>
    sign_bit s +
    (if (2 ^ 52 <=? Z.pos m)%Z then (e + 1075) * 2 ^ 52 + (Z.pos m - 2 ^ 52)
     else Z.pos m)
  end%Z.

Definition SF_of_bits (z : Z) : spec_float :=
  let s := (2 ^ 63 <=? z)%Z in
  let E := ((z / 2 ^ 52) mod 2048)%Z in
  let F := (z mod 2 ^ 52)%Z in
  if (E =? 0)%Z then
    if (F =? 0)%Z then S754_zero s else S754_finite s (Z.to_pos F) (-1074)
  else if (E =? 2047)%Z then
    if (F =? 0)%Z then S754_infinity s else S754_nan
  else S754_finite s (Z.to_pos (F + 2 ^ 52)) (E - 1075).

Definition float_bits (x : float) : Z := bits_of_SF (Prim2SF x).
Definition float_of_bits (z : Z) : float := SF2Prim (SF_of_bits z).

(** Little-endian bytes of a non-negative integer, and back. *)
Definition byte_of_Z (z : Z) : Byte.byte :=
  match Byte.of_N (Z.to_N z) with Some b => b | None => Byte.x00 end.
Definition Z_of_byte (b : Byte.byte) : Z := Z.of_N (Byte.to_N b).

Fixpoint le_bytes (n : nat) (z : Z) : list Byte.byte :=
  match n with
  | 0 => []
  | S n' => byte_of_Z (z mod 256) :: le_bytes n' (z / 256)
  end.

Fixpoint le_value (bs : list Byte.byte) : Z :=
  match bs with
  | [] => 0
  | b :: bs' => Z_of_byte b + 256 * le_value bs'
  end.

Definition encode_floats (xs : list float) : list Byte.byte :=
  concat (map (fun x => le_bytes 8 (float_bits x)) xs).

Fixpoint decode_floats (n : nat) (bs : list Byte.byte) : option (list float) :=
  match n with
  | 0 => match bs with [] => Some [] | _ => None end
  | S n' =>
    if decide (8 <= length bs) then
      xs ← decode_floats n' (drop 8 bs);
      Some (float_of_bits (le_value (take 8 bs)) :: xs)
    else None
  end.

(** [n] rows of [c] entries out of a flat list. *)
Fixpoint reshape (n c : nat) (xs : list float) : list (list float) :=
  match n with
  | 0 => []
  | S n' => take c xs :: reshape n' c (drop c xs)
  end.

Definition codec_dumps (a : ndarray) : list Byte.byte :=
  match a with
  | Arr1 xs =>
    Byte.x01 :: le_bytes 8 (Z.of_nat (length xs)) ++ encode_floats xs
  | Arr2 c rows =>
    Byte.x02 :: le_bytes 8 (Z.of_nat (length rows)) ++ le_bytes 8 (Z.of_nat c)
             ++ encode_floats (concat rows)
  end.

Definition codec_loads (bs : list Byte.byte) : result ndarray :=
  match bs with
  | Byte.x01 :: bs1 =>
    let n := Z.to_nat (le_value (take 8 bs1)) in
    xs ← of_option UnpicklingError (decode_floats n (drop 8 bs1));
    Ok (Arr1 xs)
  | Byte.x02 :: bs1 =>
    let n := Z.to_nat (le_value (take 8 bs1)) in
    let c := Z.to_nat (le_value (take 8 (drop 8 bs1))) in
    xs ← of_option UnpicklingError (decode_floats (n * c) (drop 16 bs1));
    Ok (Arr2 c (reshape n c xs))
  | _ => Raise UnpicklingError
  end.

(** ** The heat map (plot_heatmap, lines 38-99) *)

(** Python's [min] and [max] of a sequence of floats: the first entry,
    replaced by each later entry that compares strictly below (above)
    the current one; ValueError on an empty sequence. *)
Definition py_min (xs : list float) : result float :=
  match xs with
  | [] => Raise ValueError
  | x :: rest =>
    Ok (foldl (fun cur y => if PrimFloat.ltb y cur then y else cur) x rest)
  end.

Definition py_max (xs : list float) : result float :=
  match xs with
  | [] => Raise ValueError
  | x :: rest =>
    Ok (foldl (fun cur y => if PrimFloat.ltb cur y then y else cur) x rest)
  end.

(** [v[-1]] *)
Definition item_last (v : list float) : result float :=
  of_option IndexError (last v).

(** [-a] and [a.ravel()] on an array. *)
Definition negate (a : ndarray) : ndarray :=
  match a with
  | Arr1 xs => Arr1 (map PrimFloat.opp xs)
  | Arr2 c rows => Arr2 c (map (map PrimFloat.opp) rows)
  end.

Definition ravel (a : ndarray) : list float :=
  match a with
  | Arr1 xs => xs
  | Arr2 _ rows => concat rows
  end.

(** What the function hands to bokeh: the arguments it computes. *)
Record heatmap := {
  x_axis_label : string;
  y_axis_label : string;
  x_range : float * float;
  y_range : float * float;
  colour_low : float;
  colour_high : float;
  image : ndarray;
  image_x : float;
  image_y : float;
  image_dw : float;
  image_dh : float;
  x_ticks : list float;
  y_ticks : list float
}.

(** The three ticks of an axis, lines 87-88: the first entry, the entry at
    [int(len(r) / 2)] and the last one. *)
Definition axis_ticks (r : list float) : result (list float) :=
  first ← item r 0;
  middle ← item r (length r / 2);
  final ← item_last r;
  Ok [first; middle; final].

Section Plot.

(** [np.exp] *)
Context (np_exp : float -> float).

Definition plot_heatmap (loglikes : ndarray) (par_names : list string)
    (par_x_range_jnp par_y_range_jnp : list float) : result heatmap :=
  let par_x_range := map np_exp par_x_range_jnp in
  let par_y_range := map np_exp par_y_range_jnp in
  let minus_loglikes := negate loglikes in
  xlabel ← of_option IndexError (par_names !! 0);
  ylabel ← of_option IndexError (par_names !! 1);
  xmin ← py_min par_x_range;
  xmax ← py_max par_x_range;
  ymin ← py_min par_y_range;
  ymax ← py_max par_y_range;
  low ← py_min (ravel minus_loglikes);
  high ← py_max (ravel minus_loglikes);
  xticks ← axis_ticks par_x_range;
  yticks ← axis_ticks par_y_range;
  Ok {| x_axis_label := xlabel;
        y_axis_label := ylabel;
        x_range := (xmin, xmax);
        y_range := (ymin, ymax);
        colour_low := low;
        colour_high := high;
        image := minus_loglikes;
        image_x := xmin;
        image_y := ymin;
        image_dw := (xmax - xmin)%float;
        image_dh := (ymax - ymin)%float;
        x_ticks := xticks;
        y_ticks := yticks |}.

(** Line 235: the call in [main], on the surface and the two axes. *)
Definition plot_surface (loglikes : ndarray) (K_range kcm_range : list float)
    : result heatmap :=
  plot_heatmap loglikes ["K_e=K_nu"; "kcm"] K_range kcm_range.

End Plot.

(** ** Samples spaced evenly on a log scale *)

(** A positive finite binary64 value m * 2^e, as the integer
    m * 2^(e + 1074): every such value is a multiple of 2^-1074, the
    least positive one.  Any other value is given 0. *)
Definition scaled (x : float) : Z :=
  match Prim2SF x with
  | S754_finite false m e => Z.pos m * 2 ^ (e + 1074)
  | _ => 0
  end.

(** A positive value between 2^-1000 and 2^1000. *)
Definition in_range (x : float) : Prop :=
  (2 ^ 74 <= scaled x <= 2 ^ 2074)%Z.

(** [x] is [a] up to a relative error of [d] * 2^-40. *)
Definition close_to (d : nat) (x a : float) : Prop :=
  (scaled a * (2 ^ 40 - Z.of_nat d) <= scaled x * 2 ^ 40
   <= scaled a * (2 ^ 40 + Z.of_nat d))%Z.

(** [n] samples spaced evenly on a log scale from [a] to [b]: sample [k]
    is positive and finite, and its power [n - 1] is the product of
    [n - 1 - k] factors [a] and [k] factors [b], up to a relative error
    of [(n - 1) * 2^-40].  Both sides are exact integers, the scalings
    by 2^1074 cancelling. *)
Definition log_spaced (a b : float) (n : nat) (xs : list float) : Prop :=
  length xs = n /\
  forall k x, xs !! k = Some x ->
    let d := n - 1 in
    let target := (scaled a ^ Z.of_nat (d - k) * scaled b ^ Z.of_nat k)%Z in
    (0 < scaled x)%Z /\
    (target * (2 ^ 40 - Z.of_nat d) <= scaled x ^ Z.of_nat d * 2 ^ 40
     <= target * (2 ^ 40 + Z.of_nat d))%Z.

(** What numpy documents of [logspace] and [log10], with room for their
    rounding: for positive [a] and [b], the samples of
    [np.logspace(np.log10(a), np.log10(b), n)] are spaced evenly on a
    log scale from [a] to [b]. *)
Class LogspaceSpec `{NumLib} : Prop := {
  np_logspace_log10 a b n :
    in_range a -> in_range b -> (1 < Z.of_nat n <= 2 ^ 20)%Z ->
    log_spaced a b n (np_logspace (np_log10 a) (np_log10 b) n)
}.

(** A reference implementation that meets this contract, in exact
    integer arithmetic.  [iroot d t] is the integer part of the [d]-th
    root of [t], found bit by bit. *)
Fixpoint iroot_bits (d t : Z) (i : nat) (r : Z) : Z :=
  match i with
  | 0 => r
  | S i' =>
    let r' := (r + 2 ^ Z.of_nat i')%Z in
    iroot_bits d t i' (if (r' ^ d <=? t)%Z then r' else r)
  end.

Definition iroot (d t : Z) : Z :=
  iroot_bits d t (Z.to_nat (Z.log2 t + 1)) 0.

(** Sample [k] of [d + 1] samples from [a] to [b]: the [d]-th root of
    a^(d-k) * b^k, computed with 64 guard bits and cut to 53 bits. *)
Definition geometric_sample (a b : float) (d k : nat) : float :=
  match Prim2SF a, Prim2SF b with
  | S754_finite false ma ea, S754_finite false mb eb =>
    let e0 := Z.min ea eb in
    let ia := (Z.pos ma * 2 ^ (ea - e0))%Z in
    let ib := (Z.pos mb * 2 ^ (eb - e0))%Z in
    let t := (ia ^ Z.of_nat (d - k) * ib ^ Z.of_nat k * (2 ^ 64) ^ Z.of_nat d)%Z in
    let r := iroot (Z.of_nat d) t in
    let s := (Z.log2 r - 52)%Z in
    SF2Prim (S754_finite false (Z.to_pos (r / 2 ^ s)) (s + e0 - 64))
  | _, _ => nan
  end.

Definition geometric_space (a b : float) (n : nat) : list float :=
  map (geometric_sample a b (n - 1)) (seq 0 n).

(** The logarithm is left symbolic: the spacing takes its two ends as
    they are. *)
Definition reference_numlib : NumLib := {|
  np_log10 := fun x => x;
  np_logspace := geometric_space;
  np_mean := sample_mean;
  jnp_log := fun x => x;
  jnp_linspace := sample_linspace
|}.

(** Twelve rows: the third block grows too slowly, and so does row 6. *)
Definition block_dataset : table :=
  [ [0.5; 0; 0.25; 2]; [0.5; 0; 0.25; 2]; [0.5; 0; 0.25; 2];
    [0.5; 0; 0.25; 2]; [0.5; 0; 0.25; 2];
    [0.75; 0; 0.25; 4]; [0.125; 0; 0.25; 4]; [0.75; 0; 0.25; 4];
    [0.75; 0; 0.25; 4]; [0.75; 0; 0.25; 4];
    [0.25; 0; 0.25; 8]; [0.25; 0; 0.25; 8] ]%float.
(** * Part II: properties *)

(** ** Binary64 arithmetic *)

Lemma digits2_pos_shift52 (m : positive) :
  Zpos (digits2_pos (Pos.mul 4503599627370496 m)) = (Zpos (digits2_pos m) + 52)%Z.
Proof. lazy beta iota zeta fix delta [Pos.mul digits2_pos]. lia. Qed.

Lemma Prim2SF_one : Prim2SF 1 = S754_finite false 4503599627370496 (-52).
Proof. reflexivity. Qed.

Lemma shr_1_52 (m : positive) :
  @SpecFloat.iter_pos shr_record shr_1 52 {| shr_m := Z.pos (4503599627370496 * m); shr_r := false; shr_s := false |}
  = {| shr_m := Z.pos m; shr_r := false; shr_s := false |}.
Proof. reflexivity. Qed.

(** Multiplying by 1.0 is exact, on every binary64 value. *)
Lemma SF64mul_1_l (x : spec_float) :
  valid_binary x = true -> SF64mul (Prim2SF 1) x = x.
Proof.
  rewrite Prim2SF_one. unfold SF64mul.
  destruct x as [s|s| |s m e]; try reflexivity.
  cbn [SpecFloat.valid_binary SFmul xorb].
  unfold bounded, canonical_mantissa. intros H.
  apply andb_prop in H. destruct H as [Hc He].
  apply Z.eqb_eq in Hc.
  unfold binary_round_aux, shr_fexp, Zdigits2.
  rewrite digits2_pos_shift52.
  replace (Z.pos (digits2_pos m) + 52 + (-52 + e))%Z
    with (Z.pos (digits2_pos m) + e)%Z by lia.
  rewrite Hc. replace (e - (-52 + e))%Z with 52%Z by lia.
  cbn [shr_record_of_loc shr]. rewrite shr_1_52.
  cbn [shr_m loc_of_shr_record round_nearest_even shr_record_of_loc].
  replace (-52 + e + 52)%Z with e by lia.
  rewrite Hc, Z.sub_diag. cbn [shr shr_m].
  rewrite He. reflexivity.
Qed.

Lemma float_mul_1_l (x : float) : (1 * x)%float = x.
Proof.
  apply Prim2SF_inj. rewrite mul_spec. apply SF64mul_1_l, Prim2SF_valid.
Qed.

(** ** Loops and lookups *)

Lemma bind_ok {A B} (m : result A) (f : A -> result B) b :
  m ≫= f = Ok b -> exists a, m = Ok a /\ f a = Ok b.
Proof. destruct m as [a|e]; simpl; [eauto|done]. Qed.

Lemma for_each_app {S} (xs ys : list nat) (body : nat -> S -> result S) st :
  for_each (xs ++ ys) body st = (st' ← for_each xs body st; for_each ys body st').
Proof.
  revert st; induction xs as [|i xs IH]; intros st; simpl; [done|].
  destruct (body i st); simpl; auto.
Qed.

Lemma cell_ok_lt (t : table) i j x : cell t i j = Ok x -> i < length t.
Proof.
  unfold cell. destruct (t !! i) eqn:E; simpl; [|done].
  intros _. by eapply lookup_lt_Some.
Qed.

Lemma cell_ok_row (t : table) i j x :
  cell t i j = Ok x <-> exists row, t !! i = Some row /\ row !! j = Some x.
Proof.
  unfold cell. destruct (t !! i) as [row|]; simpl.
  - destruct (row !! j) as [y|] eqn:E; simpl.
    + split; [intros [= ->]; eauto | intros (? & [= <-] & ?); congruence].
    + split; [done | intros (? & [= <-] & ?); congruence].
  - split; [done | intros (? & ? & _); done].
Qed.

(** ** The loader loop *)

Section LoaderLoop.
Context (dataset : table) (pxs : list float).

Lemma load_row_keep i st st' :
  retained dataset i = true ->
  load_row dataset pxs i st = Ok st' ->
  exists s m, setup_of dataset pxs i s /\ measurement_of dataset i m /\
    read_setups st' = read_setups st ++ [s] /\
    read_measurements st' = read_measurements st ++ [m].
Proof.
  unfold retained, load_row, setup_of, measurement_of, item.
  destruct (cell dataset i 0) as [d0|] eqn:E0; simpl; [|done].
  intros ->.
  destruct (pxs !! block_of_row i) as [px|] eqn:Ep; simpl; [|done].
  destruct (cell dataset i 3) as [d3|] eqn:E3; simpl; [|done].
  destruct (cell dataset i 2) as [d2|] eqn:E2; simpl; [|done].
  intros [= <-]. simpl.
  exists [px; (d3 * 1000)%float], [d0; d2].
  split; [by exists px, d3|]. split; [by exists d0, d2|]. done.
Qed.

Lemma load_row_skip i st st' :
  retained dataset i <> true ->
  load_row dataset pxs i st = Ok st' -> st' = st.
Proof.
  unfold retained, load_row.
  destruct (cell dataset i 0) as [d0|]; simpl; [|done].
  destruct (above_cutoff d0); [done|]. by intros _ [= ->].
Qed.

(** Every exception of the loop body is an IndexError. *)
Lemma load_row_raise i st e :
  load_row dataset pxs i st = Raise e -> e = IndexError.
Proof.
  unfold load_row, cell, item.
  repeat (match goal with
          | |- context [of_option _ ?o] => destruct o; simpl
          | |- context [if ?b then _ else _] => destruct b; simpl
          end); congruence.
Qed.

(** The loop over any list of row indices: what it has appended by the
    time it returns. *)
Lemma for_each_load_rows xs st st' :
  for_each xs (load_row dataset pxs) st = Ok st' ->
  exists ss ms,
    Forall2 (setup_of dataset pxs) (filter (fun i => retained dataset i = true) xs) ss /\
    Forall2 (measurement_of dataset) (filter (fun i => retained dataset i = true) xs) ms /\
    read_setups st' = read_setups st ++ ss /\
    read_measurements st' = read_measurements st ++ ms.
Proof.
  revert st; induction xs as [|i xs IH]; intros st; simpl.
  - intros [= <-]. exists [], []. rewrite !app_nil_r. by repeat constructor.
  - intros Hrun. apply bind_ok in Hrun as (st1 & E1 & Hrest).
    destruct (IH _ Hrest) as (ss & ms & Hs & Hm & Es & Em).
    rewrite filter_cons. destruct (decide (retained dataset i = true)) as [Hk|Hk].
    + destruct (load_row_keep _ _ _ Hk E1) as (s & m & Hs1 & Hm1 & Es1 & Em1).
      exists (s :: ss), (m :: ms). rewrite Es, Em, Es1, Em1, <- !app_assoc.
      by repeat constructor.
    + exists ss, ms. by rewrite (load_row_skip _ _ _ Hk E1) in *.
Qed.

Lemma for_each_load_rows_raise xs st e :
  for_each xs (load_row dataset pxs) st = Raise e -> e = IndexError.
Proof.
  revert st; induction xs as [|i xs IH]; intros st; simpl; [done|].
  destruct (load_row dataset pxs i st) as [st1|e1] eqn:E1; simpl.
  - apply IH.
  - intros [= <-]. by eapply load_row_raise.
Qed.

(** The loop returns when every row it meets has its growth rate, and
    every row it keeps has its other two columns and a nutrient quality
    to look up. *)
Lemma for_each_load_rows_ok xs st :
  (forall i, i ∈ xs -> is_ok (cell dataset i 0) = true) ->
  (forall i, i ∈ xs -> retained dataset i = true ->
     block_of_row i < length pxs /\
     is_ok (cell dataset i 2) = true /\ is_ok (cell dataset i 3) = true) ->
  is_ok (for_each xs (load_row dataset pxs) st) = true.
Proof.
  revert st; induction xs as [|i xs IH]; intros st H0 Hk; simpl; [done|].
  assert (exists st1, load_row dataset pxs i st = Ok st1) as [st1 ->].
  { specialize (H0 i ltac:(constructor)). specialize (Hk i ltac:(constructor)).
    unfold load_row, retained, item in *.
    destruct (cell dataset i 0) as [d0|]; simpl in *; [|done].
    destruct (above_cutoff d0); [|eauto].
    destruct (Hk eq_refl) as (Hb & H2 & H3).
    apply lookup_lt_is_Some_2 in Hb as [px ->]. simpl.
    destruct (cell dataset i 3); simpl in *; [|done].
    destruct (cell dataset i 2); simpl in *; [|done]. eauto. }
  simpl. apply IH; intros; [apply H0|apply Hk]; by try constructor.
Qed.

End LoaderLoop.

Lemma elem_of_retained_rows dataset i :
  i ∈ retained_rows dataset <->
  exists d0, cell dataset i 0 = Ok d0 /\ PrimFloat.ltb 0.3%float d0 = true.
Proof.
  unfold retained_rows. rewrite list_elem_of_filter, elem_of_seq. unfold retained.
  split.
  - intros [Hr _]. destruct (cell dataset i 0) as [d0|]; [eauto|done].
  - intros (d0 & E & Hd). rewrite E. split; [done|].
    apply cell_ok_lt in E. lia.
Qed.

Lemma NoDup_retained_rows dataset : NoDup (retained_rows dataset).
Proof. apply NoDup_filter, NoDup_seq. Qed.

Lemma length_retained_rows dataset : length (retained_rows dataset) <= length dataset.
Proof.
  unfold retained_rows. etrans; [apply length_filter|]. by rewrite length_seq.
Qed.

Lemma load_rows_spec dataset pxs r :
  load_rows dataset pxs = Ok r ->
  Forall2 (setup_of dataset pxs) (retained_rows dataset) (read_setups r) /\
  Forall2 (measurement_of dataset) (retained_rows dataset) (read_measurements r).
Proof.
  intros Hrun. apply for_each_load_rows in Hrun as (ss & ms & Hs & Hm & -> & ->).
  done.
Qed.

Lemma shape0_jnp_array rows : shape0 (jnp_array rows) = length rows.
Proof. by destruct rows. Qed.

(** ** Binary64 values *)

Lemma digits2_pos_size (m : positive) : digits2_pos m = Pos.size m.
Proof. induction m as [m IH|m IH|]; simpl; by rewrite ?IH. Qed.

Lemma digits2_pos_bounds (m : positive) :
  (2 ^ (Z.pos (digits2_pos m) - 1) <= Z.pos m < 2 ^ Z.pos (digits2_pos m))%Z.
Proof.
  rewrite digits2_pos_size. split.
  - pose proof (Pos.size_le m) as Hle.
    assert (Z.pos (2 ^ Pos.size m) <= Z.pos m~0)%Z as Hle' by exact Hle.
    rewrite Pos2Z.inj_pow in Hle'.
    replace (Z.pos (Pos.size m)) with (Z.succ (Z.pos (Pos.size m) - 1)) in Hle' by lia.
    rewrite Z.pow_succ_r in Hle' by lia. lia.
  - pose proof (Pos.size_gt m) as Hgt.
    assert (Z.pos m < Z.pos (2 ^ Pos.size m))%Z as Hgt' by exact Hgt.
    by rewrite Pos2Z.inj_pow in Hgt'.
Qed.

(** What validity says of a finite binary64 value: a normal one has a
    mantissa of 53 bits, a subnormal one the least exponent. *)
Lemma valid_binary_finite s m e :
  valid_binary (S754_finite s m e) = true ->
  (-1074 <= e <= 971)%Z /\ (Z.pos m < 2 ^ 53)%Z /\
  ((Z.pos m < 2 ^ 52)%Z -> e = (-1074)%Z).
Proof.
  cbn [SpecFloat.valid_binary]. unfold bounded, canonical_mantissa, fexp, emin.
  intros [Hc He]%andb_prop. apply Z.eqb_eq in Hc. apply Z.leb_le in He.
  change emax with 1024%Z in *. change prec with 53%Z in *.
  pose proof (digits2_pos_bounds m) as [Hlo Hhi].
  set (d := Z.pos (digits2_pos m)) in *.
  assert (0 < d)%Z as Hd by (unfold d; lia).
  assert (d <= 53)%Z as Hd53 by lia.
  split; [lia|]. split.
  - eapply Z.lt_le_trans; [exact Hhi|]. apply Z.pow_le_mono_r; lia.
  - intros Hsub. destruct (decide (d = 53%Z)) as [Hd'|Hd']; [|lia].
    rewrite Hd' in Hlo. change (2 ^ (53 - 1))%Z with (2 ^ 52)%Z in Hlo. lia.
Qed.

(** A value with a positive scaled integer is positive and finite. *)
Lemma scaled_pos_inv (x : float) :
  (0 < scaled x)%Z ->
  exists m e,
    Prim2SF x = S754_finite false m e /\
    scaled x = (Z.pos m * 2 ^ (e + 1074))%Z /\
    (-1074 <= e <= 971)%Z /\ (Z.pos m < 2 ^ 53)%Z /\
    ((Z.pos m < 2 ^ 52)%Z -> e = (-1074)%Z).
Proof.
  unfold scaled. pose proof (Prim2SF_valid x) as Hv.
  destruct (Prim2SF x) as [s|s| |[] m e]; try (intros; lia).
  intros _. exists m, e.
  apply valid_binary_finite in Hv as (He & Hm & Hsub).
  split_and!; first [done | lia | exact Hsub].
Qed.

(** The order of positive values is that of their scaled integers. *)
Lemma ltb_scaled (x y : float) :
  (0 < scaled x)%Z -> (scaled x < scaled y)%Z -> PrimFloat.ltb x y = true.
Proof.
  intros Hx Hlt.
  destruct (scaled_pos_inv x Hx) as (m1 & e1 & E1 & S1 & He1 & Hm1 & Hn1).
  destruct (scaled_pos_inv y ltac:(lia)) as (m2 & e2 & E2 & S2 & He2 & Hm2 & Hn2).
  rewrite ltb_spec, E1, E2. unfold SFltb. cbn [SFcompare].
  rewrite S1, S2 in Hlt.
  destruct (Z.compare_spec e1 e2) as [->|He|He]; [|done|].
  - change (Pos.compare_cont Eq m1 m2) with (Pos.compare m1 m2).
    destruct (Pos.compare_spec m1 m2) as [->|Hm|Hm]; [lia|done|].
    assert (0 < 2 ^ (e2 + 1074))%Z by (apply Z.pow_pos_nonneg; lia). nia.
  - (* the exponent of [x] is larger: it is normal, and above [y] *)
    exfalso.
    assert (2 ^ 52 <= Z.pos m1)%Z as Hnorm by lia.
    assert (2 ^ (e1 + 1074) = 2 ^ (e1 - e2) * 2 ^ (e2 + 1074))%Z as Hsplit.
    { rewrite <- Z.pow_add_r by lia. f_equal. lia. }
    assert (2 * 1 <= 2 ^ (e1 - e2))%Z as Hstep.
    { replace (e1 - e2)%Z with (Z.succ (e1 - e2 - 1)) by lia.
      rewrite Z.pow_succ_r by lia.
      assert (0 < 2 ^ (e1 - e2 - 1))%Z by (apply Z.pow_pos_nonneg; lia). lia. }
    assert (0 < 2 ^ (e2 + 1074))%Z by (apply Z.pow_pos_nonneg; lia).
    rewrite Hsplit in Hlt.
    change (2 ^ 52)%Z with 4503599627370496%Z in *.
    change (2 ^ 53)%Z with 9007199254740992%Z in *.
    nia.
Qed.

(** ** The experimental data loader *)

#[global] Instance sample_numlib_spec : @NumLibSpec sample_numlib.
Proof.
  split; intros a b n; simpl; unfold sample_linspace;
    by rewrite length_map, length_seq.
Qed.

Lemma load_experimental_data_ok `{NumLib} dataset setups meas :
  load_experimental_data dataset = Ok (setups, meas) ->
  exists r, load_rows dataset par_xs = Ok r /\
    setups = jnp_array (read_setups r) /\ meas = jnp_array (read_measurements r).
Proof.
  unfold load_experimental_data. intros Hrun.
  apply bind_ok in Hrun as (r & Hr & [= <- <-]). eauto.
Qed.

(** C2: when the loader returns, the setups and the measurements it
    emits are, in order, one pair for each row of [retained_rows], and a
    row is among those exactly when its growth rate (column 0) is
    strictly above the cutoff 0.3; so at most as many pairs as rows. *)
Theorem loader_retains_rows_above_cutoff `{NumLib} (dataset : table)
    (setups meas : ndarray) :
  load_experimental_data dataset = Ok (setups, meas) ->
  exists ss ms,
    setups = jnp_array ss /\ meas = jnp_array ms /\
    Forall2 (setup_of dataset par_xs) (retained_rows dataset) ss /\
    Forall2 (measurement_of dataset) (retained_rows dataset) ms /\
    NoDup (retained_rows dataset) /\
    (forall i, i ∈ retained_rows dataset <->
       exists d0, cell dataset i 0 = Ok d0 /\ PrimFloat.ltb 0.3%float d0 = true) /\
    shape0 setups = length (retained_rows dataset) /\
    shape0 meas = length (retained_rows dataset) /\
    length (retained_rows dataset) <= length dataset.
Proof.
  intros Hrun. apply load_experimental_data_ok in Hrun as (r & Hr & -> & ->).
  apply load_rows_spec in Hr as [Hs Hm].
  exists (read_setups r), (read_measurements r).
  rewrite !shape0_jnp_array.
  split_and!; try done.
  - apply NoDup_retained_rows.
  - apply elem_of_retained_rows.
  - symmetry. by eapply Forall2_length.
  - symmetry. by eapply Forall2_length.
  - apply length_retained_rows.
Qed.

Lemma loader_retains_rows_above_cutoff_witness :
  exists setups meas,
    load_experimental_data (H := sample_numlib) sample_dataset = Ok (setups, meas) /\
    retained_rows sample_dataset = [0; 3] /\
    shape0 setups = 2 /\
    exists ss ms,
      setups = jnp_array ss /\ meas = jnp_array ms /\
      Forall2 (setup_of sample_dataset (par_xs (H := sample_numlib)))
        (retained_rows sample_dataset) ss /\
      Forall2 (measurement_of sample_dataset) (retained_rows sample_dataset) ms /\
      NoDup (retained_rows sample_dataset) /\
      (forall i, i ∈ retained_rows sample_dataset <->
         exists d0, cell sample_dataset i 0 = Ok d0 /\
                    PrimFloat.ltb 0.3%float d0 = true) /\
      shape0 setups = length (retained_rows sample_dataset) /\
      shape0 meas = length (retained_rows sample_dataset) /\
      length (retained_rows sample_dataset) <= length sample_dataset.
Proof.
  eexists _, _. split; [vm_compute; reflexivity|].
  split; [vm_compute; reflexivity|]. split; [reflexivity|].
  apply (loader_retains_rows_above_cutoff (H := sample_numlib) sample_dataset).
  vm_compute; reflexivity.
Defined.

Lemma load_experimental_data_raise `{NumLib} dataset e :
  load_experimental_data dataset = Raise e -> e = IndexError.
Proof.
  unfold load_experimental_data, load_rows, for_range.
  destruct (for_each _ _ _) as [r|e'] eqn:E; simpl; [done|].
  intros [= <-]. by eapply for_each_load_rows_raise.
Qed.

(** A retained row has been given a nutrient quality whenever the loader
    returned. *)
Lemma load_rows_block_lt dataset pxs r i :
  load_rows dataset pxs = Ok r -> i ∈ retained_rows dataset ->
  block_of_row i < length pxs.
Proof.
  intros Hr Hi. apply load_rows_spec in Hr as [Hs _].
  apply list_elem_of_lookup in Hi as [k Hk].
  destruct (Forall2_lookup_l _ _ _ _ _ Hs Hk) as (s & _ & px & d3 & Hpx & _).
  by eapply lookup_lt_Some.
Qed.

Lemma cell_is_ok (t : table) i j :
  (forall row, row ∈ t -> j < length row) -> i < length t ->
  is_ok (cell t i j) = true.
Proof.
  intros Hrow Hi. apply lookup_lt_is_Some_2 in Hi as [row Hrow'].
  unfold cell. rewrite Hrow'. simpl.
  destruct (lookup_lt_is_Some_2 row j) as [x ->]; [|done].
  apply Hrow. by eapply list_elem_of_lookup_2.
Qed.

(** C10: the nutrient-quality sequence has exactly 6 entries and is read
    at [i / 5], so a retained row of index 30 or more makes the loader
    raise IndexError; when the loader returns, every retained row has an
    index below 30; and on a table of at least four columns the loader
    returns as soon as every retained row has an index below 30. *)
Theorem nutrient_lookup_in_bounds_iff `{NumLib} `{!NumLibSpec} (dataset : table) :
  length par_xs = 6 /\
  (forall i, i ∈ retained_rows dataset -> 30 <= i ->
     load_experimental_data dataset = Raise IndexError) /\
  (is_ok (load_experimental_data dataset) = true ->
     forall i, i ∈ retained_rows dataset -> i < 30) /\
  ((forall row, row ∈ dataset -> 4 <= length row) ->
   (forall i, i ∈ retained_rows dataset -> i < 30) ->
   is_ok (load_experimental_data dataset) = true).
Proof.
  assert (length par_xs = 6) as Hlen by apply np_logspace_length.
  assert (forall r i, load_rows dataset par_xs = Ok r ->
            i ∈ retained_rows dataset -> i < 30) as Hlt.
  { intros r i Hr Hi. pose proof (load_rows_block_lt _ _ _ _ Hr Hi) as Hb.
    rewrite Hlen in Hb. unfold block_of_row in Hb.
    pose proof (Nat.div_mod_eq i 5). pose proof (Nat.mod_upper_bound i 5). lia. }
  split_and!; [done|..].
  - intros i Hi Hge.
    destruct (load_experimental_data dataset) as [[s m]|e] eqn:E.
    + apply load_experimental_data_ok in E as (r & Hr & _).
      specialize (Hlt _ _ Hr Hi). lia.
    + by rewrite (load_experimental_data_raise _ _ E).
  - unfold load_experimental_data.
    destruct (load_rows dataset par_xs) as [r|e] eqn:E; simpl; [|done].
    intros _ i Hi. by eapply Hlt.
  - intros Hcols Hsmall. unfold load_experimental_data.
    assert (is_ok (load_rows dataset par_xs) = true) as Hok.
    { apply for_each_load_rows_ok.
      - intros i Hi%elem_of_seq. apply cell_is_ok; [|lia].
        intros row Hrow%Hcols. lia.
      - intros i Hi%elem_of_seq Hr.
        assert (i ∈ retained_rows dataset) as Hi'.
        { unfold retained_rows. rewrite list_elem_of_filter, elem_of_seq. done. }
        split_and!.
        + rewrite Hlen. unfold block_of_row.
          apply Nat.Div0.div_lt_upper_bound. specialize (Hsmall _ Hi'). lia.
        + apply cell_is_ok; [|lia]. intros row Hrow%Hcols. lia.
        + apply cell_is_ok; [|lia]. intros row Hrow%Hcols. lia. }
    by destruct (load_rows dataset par_xs).
Qed.

Lemma retained_rows_lt dataset i : i ∈ retained_rows dataset -> i < length dataset.
Proof.
  unfold retained_rows. rewrite list_elem_of_filter, elem_of_seq. lia.
Qed.

Lemma nutrient_lookup_in_bounds_iff_witness :
  30 ∈ retained_rows long_dataset /\
  load_experimental_data (H := sample_numlib) long_dataset = Raise IndexError /\
  is_ok (load_experimental_data (H := sample_numlib) full_dataset) = true.
Proof.
  pose proof (nutrient_lookup_in_bounds_iff (H := sample_numlib) long_dataset)
    as (_ & Hfail & _).
  pose proof (nutrient_lookup_in_bounds_iff (H := sample_numlib) full_dataset)
    as (_ & _ & _ & Hok).
  assert (30 ∈ retained_rows long_dataset) as H30.
  { apply elem_of_retained_rows. eexists. split; vm_compute; reflexivity. }
  split_and!; [done|by apply (Hfail 30)|].
  apply Hok.
  - intros row [-> _]%elem_of_replicate. simpl. lia.
  - intros i Hi%retained_rows_lt. unfold full_dataset in Hi.
    by rewrite length_replicate in Hi.
Defined.


(** ** Samples spaced evenly on a log scale *)

Lemma Zpow_lt_inv (a b d : Z) :
  (0 <= a)%Z -> (0 <= b)%Z -> (0 < d)%Z -> (a ^ d < b ^ d)%Z -> (a < b)%Z.
Proof.
  intros Ha Hb Hd Hlt. destruct (Z_lt_le_dec a b) as [|Hle]; [done|].
  pose proof (Z.pow_le_mono_l b a d ltac:(lia)). lia.
Qed.

Lemma Zpow_le_inv (a b d : Z) :
  (0 <= a)%Z -> (0 <= b)%Z -> (0 < d)%Z -> (a ^ d <= b ^ d)%Z -> (a <= b)%Z.
Proof.
  intros Ha Hb Hd Hle. destruct (Z_le_gt_dec a b) as [|Hgt]; [done|].
  pose proof (Z.pow_lt_mono_l b a d ltac:(lia) ltac:(lia)). lia.
Qed.

Lemma Zpow_pred (z d : Z) : (0 < d)%Z -> (z ^ d = z * z ^ (d - 1))%Z.
Proof.
  intros Hd. replace d with (Z.succ (d - 1)) at 1 by lia.
  rewrite Z.pow_succ_r; lia.
Qed.

(** A value whose [d]-th power is close to that of [a] is close to [a]. *)
Lemma root_close (a x c d : Z) :
  (0 < a)%Z -> (0 <= x)%Z -> (0 < d < c)%Z ->
  (a ^ d * (c - d) <= x ^ d * c <= a ^ d * (c + d))%Z ->
  (a * (c - d) <= x * c <= a * (c + d))%Z.
Proof.
  intros Ha Hx Hd [Hlo Hhi].
  assert (0 < c ^ (d - 1))%Z as Hc1 by (apply Z.pow_pos_nonneg; lia).
  assert (c ^ d = c * c ^ (d - 1))%Z as Hcd by (apply Zpow_pred; lia).
  assert (0 < a ^ d)%Z as Had by (apply Z.pow_pos_nonneg; lia).
  assert (0 <= x ^ d)%Z as Hxd by (apply Z.pow_nonneg; lia).
  assert (0 <= x * c)%Z by (apply Z.mul_nonneg_nonneg; lia).
  assert (0 <= a * (c + d))%Z by (apply Z.mul_nonneg_nonneg; lia).
  split.
  - destruct (Z_le_gt_dec (a * (c - d)) (x * c)) as [|Hgt]; [done|]. exfalso.
    pose proof (Z.pow_lt_mono_l (x * c) (a * (c - d)) d ltac:(lia) ltac:(lia)) as Hpow.
    rewrite !Z.pow_mul_l, Hcd in Hpow.
    assert ((c - d) ^ d <= (c - d) * c ^ (d - 1))%Z as Hcut.
    { rewrite (Zpow_pred (c - d) d) by lia.
      apply Z.mul_le_mono_nonneg_l; [lia|].
      apply Z.pow_le_mono_l. lia. }
    assert (a ^ d * (c - d) ^ d <= a ^ d * ((c - d) * c ^ (d - 1)))%Z
      by (apply Z.mul_le_mono_nonneg_l; lia).
    assert (a ^ d * (c - d) * c ^ (d - 1) <= x ^ d * c * c ^ (d - 1))%Z
      by (apply Z.mul_le_mono_nonneg_r; lia).
    lia.
  - destruct (Z_le_gt_dec (x * c) (a * (c + d))) as [|Hgt]; [done|]. exfalso.
    pose proof (Z.pow_lt_mono_l (a * (c + d)) (x * c) d ltac:(lia) ltac:(lia)) as Hpow.
    rewrite !Z.pow_mul_l, Hcd in Hpow.
    assert ((c + d) * c ^ (d - 1) <= (c + d) ^ d)%Z as Hcut.
    { rewrite (Zpow_pred (c + d) d) by lia.
      apply Z.mul_le_mono_nonneg_l; [lia|].
      apply Z.pow_le_mono_l. lia. }
    assert (a ^ d * ((c + d) * c ^ (d - 1)) <= a ^ d * (c + d) ^ d)%Z
      by (apply Z.mul_le_mono_nonneg_l; lia).
    assert (x ^ d * c * c ^ (d - 1) <= a ^ d * (c + d) * c ^ (d - 1))%Z
      by (apply Z.mul_le_mono_nonneg_r; lia).
    lia.
Qed.

Section LogSpaced.
Context (a b : float) (n : nat) (xs : list float).
Context (Hspaced : log_spaced a b n xs).
Context (Hn : (1 < Z.of_nat n <= 2 ^ 20)%Z).
Context (Ha : (0 < scaled a)%Z) (Hb : (0 < scaled b)%Z).

(** The first sample is close to [a], the last one to [b]. *)
Lemma log_spaced_first x : xs !! 0 = Some x -> close_to (n - 1) x a.
Proof.
  intros Hx. destruct Hspaced as [_ Hall].
  destruct (Hall 0 x Hx) as [Hpos Hnear]. cbv zeta in Hnear.
  rewrite Nat.sub_0_r in Hnear. change (Z.of_nat 0) with 0%Z in Hnear.
  rewrite Z.pow_0_r, Z.mul_1_r in Hnear.
  unfold close_to. apply (root_close _ _ _ (Z.of_nat (n - 1))); [done|lia| |done].
  change (2 ^ 40)%Z with 1099511627776%Z. change (2 ^ 20)%Z with 1048576%Z in Hn. lia.
Qed.

Lemma log_spaced_last x : xs !! (n - 1) = Some x -> close_to (n - 1) x b.
Proof.
  intros Hx. destruct Hspaced as [_ Hall].
  destruct (Hall (n - 1) x Hx) as [Hpos Hnear]. cbv zeta in Hnear.
  rewrite Nat.sub_diag in Hnear. change (Z.of_nat 0) with 0%Z in Hnear.
  rewrite Z.pow_0_r, Z.mul_1_l in Hnear.
  unfold close_to. apply (root_close _ _ _ (Z.of_nat (n - 1))); [done|lia| |done].
  change (2 ^ 40)%Z with 1099511627776%Z. change (2 ^ 20)%Z with 1048576%Z in Hn. lia.
Qed.

(** From [a] to a [b] at least twice as large, the samples ascend. *)
Lemma log_spaced_ascending k x y :
  (2 * scaled a <= scaled b)%Z ->
  xs !! k = Some x -> xs !! S k = Some y -> PrimFloat.ltb x y = true.
Proof.
  intros Hab Hx Hy. destruct Hspaced as [Hlen Hall].
  pose proof (lookup_lt_Some _ _ _ Hy) as Hk. rewrite Hlen in Hk.
  destruct (Hall k x Hx) as [Hxpos [_ Hxhi]].
  destruct (Hall (S k) y Hy) as [Hypos [Hylo _]].
  cbv zeta in Hxhi, Hylo.
  set (d := n - 1) in *. set (c := (2 ^ 40)%Z) in *.
  set (A := scaled a) in *. set (B := scaled b) in *.
  replace (d - k) with (S (d - S k)) in Hxhi by lia.
  rewrite Nat2Z.inj_succ, Z.pow_succ_r in Hxhi, Hylo by lia.
  set (M := (A ^ Z.of_nat (d - S k) * B ^ Z.of_nat k)%Z) in *.
  assert (0 < M)%Z as HM.
  { apply Z.mul_pos_pos; apply Z.pow_pos_nonneg; lia. }
  assert (A * A ^ Z.of_nat (d - S k) * B ^ Z.of_nat k = A * M)%Z as HU
    by (unfold M; lia).
  assert (A ^ Z.of_nat (d - S k) * (B * B ^ Z.of_nat k) = B * M)%Z as HV
    by (unfold M; lia).
  rewrite HU in Hxhi. rewrite HV in Hylo.
  assert (2 * (A * M) <= B * M)%Z as HUV by nia.
  assert (0 < A * M)%Z as HUpos by nia.
  assert (Z.of_nat d < 2 ^ 20)%Z as Hd by (unfold d; lia).
  assert (scaled x ^ Z.of_nat d < scaled y ^ Z.of_nat d)%Z as Hpow.
  { unfold c in *. change (2 ^ 40)%Z with 1099511627776%Z in *.
    change (2 ^ 20)%Z with 1048576%Z in *. nia. }
  apply ltb_scaled; [done|].
  apply (Zpow_lt_inv _ _ (Z.of_nat d)); [lia..| |done]. unfold d. lia.
Qed.

End LogSpaced.

(** ** The reference implementation meets the contract *)

Lemma iroot_bits_spec (d t : Z) (i : nat) (r : Z) :
  (0 < d)%Z -> (0 <= r)%Z ->
  (r ^ d <= t < (r + 2 ^ Z.of_nat i) ^ d)%Z ->
  let r' := iroot_bits d t i r in
  (0 <= r')%Z /\ (r' ^ d <= t < (r' + 1) ^ d)%Z.
Proof.
  intros Hd. revert r. induction i as [|i IH]; intros r Hr Hinv; cbn [iroot_bits].
  - by change (2 ^ Z.of_nat 0)%Z with 1%Z in Hinv.
  - assert (2 ^ Z.of_nat (S i) = 2 ^ Z.of_nat i + 2 ^ Z.of_nat i)%Z as Hpow.
    { rewrite Nat2Z.inj_succ, Z.pow_succ_r by lia. lia. }
    assert (0 < 2 ^ Z.of_nat i)%Z by (apply Z.pow_pos_nonneg; lia).
    destruct (Z.leb_spec ((r + 2 ^ Z.of_nat i) ^ d) t) as [Hle|Hgt].
    + apply IH; [lia|]. split; [done|].
      replace (r + 2 ^ Z.of_nat i + 2 ^ Z.of_nat i)%Z
        with (r + 2 ^ Z.of_nat (S i))%Z by lia.
      apply Hinv.
    + apply IH; [lia|]. split; [apply Hinv|done].
Qed.

Lemma iroot_spec (d t : Z) :
  (0 < d)%Z -> (0 <= t)%Z ->
  (0 <= iroot d t)%Z /\ (iroot d t ^ d <= t < (iroot d t + 1) ^ d)%Z.
Proof.
  intros Hd Ht. unfold iroot. apply iroot_bits_spec; [done..|].
  rewrite Z.pow_0_l by lia. split; [done|].
  rewrite Z.add_0_l, Z2Nat.id by (pose proof (Z.log2_nonneg t); lia).
  set (p := (2 ^ (Z.log2 t + 1))%Z).
  assert (t < p)%Z as Htp.
  { unfold p. destruct (decide (t = 0%Z)) as [->|Hne]; [done|].
    apply Z.log2_spec. lia. }
  assert (p <= p ^ d)%Z; [|lia].
  rewrite (Zpow_pred p d) by done.
  assert (1 <= p ^ (d - 1))%Z; [|nia].
  assert (0 < p ^ (d - 1))%Z; [|lia].
  apply Z.pow_pos_nonneg; lia.
Qed.

Lemma pow_step_bound (m c : Z) (d : nat) :
  (c <= m)%Z -> (Z.of_nat d < c)%Z ->
  ((m + 1) ^ Z.of_nat d * (c - Z.of_nat d) <= m ^ Z.of_nat d * c)%Z.
Proof.
  intros Hm. induction d as [|d IH]; intros Hd.
  - change (Z.of_nat 0) with 0%Z. rewrite !Z.pow_0_r. lia.
  - rewrite Nat2Z.inj_succ in *. rewrite !Z.pow_succ_r by lia.
    specialize (IH ltac:(lia)).
    set (D := Z.of_nat d) in *.
    assert (0 <= (m + 1) ^ D)%Z by (apply Z.pow_nonneg; lia).
    assert ((m + 1) * (c - Z.succ D) <= m * (c - D))%Z as Hstep by nia.
    assert ((m + 1) ^ D * ((m + 1) * (c - Z.succ D)) <= (m + 1) ^ D * (m * (c - D)))%Z
      by (apply Z.mul_le_mono_nonneg_l; lia).
    assert (m * ((m + 1) ^ D * (c - D)) <= m * (m ^ D * c))%Z
      by (apply Z.mul_le_mono_nonneg_l; lia).
    lia.
Qed.

(** A mantissa of 53 bits with an exponent in range is a binary64 value. *)
Lemma valid_binary_normal (s : bool) (m : positive) (e : Z) :
  (2 ^ 52 <= Z.pos m < 2 ^ 53)%Z -> (-1074 <= e <= 971)%Z ->
  valid_binary (S754_finite s m e) = true.
Proof.
  intros [Hlo Hhi] He. cbn [SpecFloat.valid_binary].
  unfold bounded, canonical_mantissa, fexp, emin.
  change emax with 1024%Z. change prec with 53%Z.
  pose proof (digits2_pos_bounds m) as [Hdlo Hdhi].
  set (dg := Z.pos (digits2_pos m)) in *.
  assert (dg = 53%Z) as ->.
  { destruct (Z.lt_trichotomy dg 53) as [Hlt|[->|Hgt]]; [|done|]; exfalso.
    - assert (2 ^ dg <= 2 ^ 52)%Z by (apply Z.pow_le_mono_r; lia). lia.
    - assert (2 ^ 53 <= 2 ^ (dg - 1))%Z by (apply Z.pow_le_mono_r; lia). lia. }
  apply andb_true_intro. split; [apply Z.eqb_eq|apply Z.leb_le]; lia.
Qed.

(** A value in range is normal. *)
Lemma in_range_inv (x : float) :
  in_range x ->
  exists m e,
    Prim2SF x = S754_finite false m e /\
    scaled x = (Z.pos m * 2 ^ (e + 1074))%Z /\
    (-1074 <= e <= 971)%Z /\ (2 ^ 52 <= Z.pos m < 2 ^ 53)%Z.
Proof.
  intros [Hlo Hhi].
  assert (0 < 2 ^ 74)%Z by done.
  destruct (scaled_pos_inv x ltac:(lia)) as (m & e & E & S & He & Hm & Hsub).
  exists m, e. split_and!; [done|done|lia..| |done].
  destruct (Z_lt_le_dec (Z.pos m) (2 ^ 52)) as [Hlt|]; [exfalso|done].
  rewrite S, (Hsub Hlt) in Hlo. change (2 ^ (-1074 + 1074))%Z with 1%Z in Hlo.
  assert (2 ^ 52 < 2 ^ 74)%Z by done. lia.
Qed.

Lemma Zpow_split (z d k : Z) :
  (0 <= k <= d)%Z -> (z ^ d = z ^ (d - k) * z ^ k)%Z.
Proof. intros Hk. rewrite <- Z.pow_add_r by lia. f_equal. lia. Qed.

Lemma geometric_sample_spec (a b : float) (d k : nat) :
  in_range a -> in_range b -> (0 < Z.of_nat d < 2 ^ 20)%Z -> k <= d ->
  let x := geometric_sample a b d k in
  let target := (scaled a ^ Z.of_nat (d - k) * scaled b ^ Z.of_nat k)%Z in
  (0 < scaled x)%Z /\
  (target * (2 ^ 40 - Z.of_nat d) <= scaled x ^ Z.of_nat d * 2 ^ 40
   <= target * (2 ^ 40 + Z.of_nat d))%Z.
Proof.
  intros Ha Hb Hd Hk.
  destruct (in_range_inv a Ha) as (ma & ea & Ea & Sa & Hea & Hma).
  destruct (in_range_inv b Hb) as (mb & eb & Eb & Sb & Heb & Hmb).
  unfold geometric_sample. rewrite Ea, Eb. cbv zeta.
  replace (Z.of_nat (d - k)) with (Z.of_nat d - Z.of_nat k)%Z by lia.
  set (D := Z.of_nat d) in *. set (K := Z.of_nat k).
  assert (0 <= K <= D)%Z as HK by (unfold K, D; lia).
  set (e0 := Z.min ea eb). set (emx := Z.max ea eb).
  assert (-1074 <= e0 /\ e0 <= ea <= emx /\ e0 <= eb <= emx /\ emx <= 971)%Z
    as (He0 & Hea0 & Heb0 & Hemx) by (unfold e0, emx; lia).
  clearbody e0 emx.
  set (ia := (Z.pos ma * 2 ^ (ea - e0))%Z).
  set (ib := (Z.pos mb * 2 ^ (eb - e0))%Z).
  set (Q := (ia ^ (D - K) * ib ^ K)%Z).
  set (G := (2 ^ 64)%Z).
  set (t := (Q * G ^ D)%Z).
  set (r := iroot D t).
  set (s := (Z.log2 r - 52)%Z).
  set (m := (r / 2 ^ s)%Z).
  set (P := (2 ^ (e0 + 1074))%Z).
  set (J := (2 ^ (emx - e0))%Z).
  set (C := (2 ^ 40)%Z).
  assert (0 < P)%Z as HP by (apply Z.pow_pos_nonneg; lia).
  assert (0 < G)%Z as HG by done.
  assert (0 < J)%Z as HJ by (apply Z.pow_pos_nonneg; lia).
  (* the two ends as multiples of P *)
  assert (scaled a = ia * P)%Z as HaP.
  { rewrite Sa. unfold ia, P. rewrite <- Z.mul_assoc, <- Z.pow_add_r by lia.
    do 2 f_equal. lia. }
  assert (scaled b = ib * P)%Z as HbP.
  { rewrite Sb. unfold ib, P. rewrite <- Z.mul_assoc, <- Z.pow_add_r by lia.
    do 2 f_equal. lia. }
  assert (forall mz ez, (2 ^ 52 <= mz < 2 ^ 53)%Z -> (e0 <= ez <= emx)%Z ->
            (2 ^ 52 <= mz * 2 ^ (ez - e0) <= 2 ^ 53 * J - 1)%Z) as Hbound.
  { intros mz ez Hmz Hez.
    assert (1 <= 2 ^ (ez - e0))%Z
      by (assert (0 < 2 ^ (ez - e0))%Z by (apply Z.pow_pos_nonneg; lia); lia).
    assert (2 ^ (ez - e0) <= J)%Z by (apply Z.pow_le_mono_r; lia).
    set (p := (2 ^ (ez - e0))%Z) in *.
    assert (mz * 1 <= mz * p)%Z by (apply Z.mul_le_mono_nonneg_l; lia).
    assert (mz * p <= (2 ^ 53 - 1) * p)%Z by (apply Z.mul_le_mono_nonneg_r; lia).
    assert ((2 ^ 53 - 1) * p <= (2 ^ 53 - 1) * J)%Z
      by (apply Z.mul_le_mono_nonneg_l; lia).
    lia. }
  assert (2 ^ 52 <= ia <= 2 ^ 53 * J - 1)%Z as Hia by (apply Hbound; lia).
  assert (2 ^ 52 <= ib <= 2 ^ 53 * J - 1)%Z as Hib by (apply Hbound; lia).
  clear Hbound.
  set (W := (2 ^ 53 * J - 1)%Z) in *.
  assert (0 < 2 ^ 52)%Z as H52 by done.
  (* bounds on the product and on its root *)
  assert ((2 ^ 52) ^ D <= Q <= W ^ D)%Z as HQ.
  { rewrite (Zpow_split (2 ^ 52) D K), (Zpow_split W D K) by done. unfold Q.
    split; apply Z.mul_le_mono_nonneg;
      try (apply Z.pow_nonneg; lia); apply Z.pow_le_mono_l; lia. }
  assert (0 < G ^ D)%Z as HGD by (apply Z.pow_pos_nonneg; lia).
  assert ((2 ^ 52 * G) ^ D <= t <= (W * G) ^ D)%Z as Ht.
  { rewrite !Z.pow_mul_l. unfold t.
    split; apply Z.mul_le_mono_nonneg_r; lia. }
  assert (0 <= t)%Z as Ht0.
  { assert (0 <= (2 ^ 52 * G) ^ D)%Z by (apply Z.pow_nonneg; lia). lia. }
  destruct (iroot_spec D t ltac:(lia) Ht0) as (Hr0 & Hrlo & Hrhi). fold r in Hr0, Hrlo, Hrhi.
  assert (2 ^ 116 <= r)%Z as Hr116.
  { assert (2 ^ 52 * G < r + 1)%Z; [|change (2 ^ 52 * G)%Z with (2 ^ 116)%Z in *; lia].
    apply (Zpow_lt_inv _ _ D); lia. }
  assert (r < 2 ^ (117 + (emx - e0)))%Z as HrW.
  { assert (0 <= W)%Z as HW0 by lia.
    assert (r <= W * G)%Z as Hle.
    { apply (Zpow_le_inv _ _ D); [lia| |lia|lia]. apply Z.mul_nonneg_nonneg; lia. }
    rewrite Z.pow_add_r by lia. fold J.
    change (2 ^ 117)%Z with (2 ^ 53 * G)%Z.
    replace (W * G)%Z with (2 ^ 53 * G * J - G)%Z in Hle by (unfold W; ring).
    lia. }
  (* the 53 leading bits of the root *)
  assert (0 < r)%Z as Hrpos by (assert (0 < 2 ^ 116)%Z by done; lia).
  pose proof (Z.log2_spec r Hrpos) as [HLlo HLhi].
  assert (116 <= Z.log2 r)%Z as HL116.
  { change 116%Z with (Z.log2 (2 ^ 116)). by apply Z.log2_le_mono. }
  assert (Z.log2 r < 117 + (emx - e0))%Z as HLW
    by (apply Z.log2_lt_pow2; [done|done]).
  assert (64 <= s)%Z as Hs by (unfold s; lia).
  assert (0 < 2 ^ s)%Z as H2s by (apply Z.pow_pos_nonneg; lia).
  assert (2 ^ Z.log2 r = 2 ^ 52 * 2 ^ s)%Z as HL52.
  { rewrite <- Z.pow_add_r by lia. f_equal. unfold s. lia. }
  assert (2 ^ Z.succ (Z.log2 r) = 2 ^ 53 * 2 ^ s)%Z as HL53.
  { rewrite <- Z.pow_add_r by lia. f_equal. unfold s. lia. }
  rewrite HL52 in HLlo. rewrite HL53 in HLhi.
  assert (2 ^ 52 <= m < 2 ^ 53)%Z as Hm.
  { unfold m. split.
    - apply Z.div_le_lower_bound; lia.
    - apply Z.div_lt_upper_bound; lia. }
  assert (m * 2 ^ s <= r < (m + 1) * 2 ^ s)%Z as Hmr.
  { unfold m. split.
    - rewrite Z.mul_comm. apply Z.mul_div_le. lia.
    - rewrite Z.mul_comm. apply (Z.mul_succ_div_gt r (2 ^ s)). lia. }
  (* the sample is a binary64 value *)
  assert (0 < m)%Z as Hmpos by lia.
  set (e := (s + e0 - 64)%Z).
  assert (-1074 <= e <= 971)%Z as He by (unfold e, s; lia).
  assert (valid_binary (S754_finite false (Z.to_pos m) e) = true) as Hvalid.
  { apply valid_binary_normal; [|done]. by rewrite Z2Pos.id. }
  set (Y := (2 ^ (e + 1074))%Z).
  assert (scaled (SF2Prim (S754_finite false (Z.to_pos m) e)) = (m * Y)%Z) as ->.
  { unfold scaled. by rewrite (Prim2SF_SF2Prim _ Hvalid), Z2Pos.id. }
  assert (0 < Y)%Z as HY by (apply Z.pow_pos_nonneg; lia).
  assert (Y * G = 2 ^ s * P)%Z as HYG.
  { unfold Y, G, P. rewrite <- !Z.pow_add_r by lia.
    f_equal. unfold e. lia. }
  split; [lia|].
  (* both sides, multiplied by G^D *)
  rewrite HaP, HbP, !Z.pow_mul_l.
  assert (0 < P ^ D)%Z as HPD by (apply Z.pow_pos_nonneg; lia).
  assert (ia ^ (D - K) * P ^ (D - K) * (ib ^ K * P ^ K) = Q * P ^ D)%Z as ->.
  { rewrite (Zpow_split P D K) by done. unfold Q. lia. }
  assert (m ^ D * Y ^ D * G ^ D = (m * 2 ^ s) ^ D * P ^ D)%Z as HXG.
  { rewrite <- !Z.pow_mul_l. f_equal. lia. }
  assert (0 <= (m * 2 ^ s) ^ D)%Z as Hms0 by (apply Z.pow_nonneg; lia).
  assert ((m * 2 ^ s) ^ D <= r ^ D)%Z as Hmsr by (apply Z.pow_le_mono_l; lia).
  assert (t * (C - D) <= (m * 2 ^ s) ^ D * C)%Z as Hlow.
  { assert ((r + 1) ^ D <= ((m + 1) * 2 ^ s) ^ D)%Z as Hup
      by (apply Z.pow_le_mono_l; lia).
    rewrite Z.pow_mul_l in Hup.
    pose proof (pow_step_bound m C d ltac:(unfold C; lia)
                  ltac:(unfold C; change (2 ^ 40)%Z with 1099511627776%Z;
                        change (2 ^ 20)%Z with 1048576%Z in Hd; lia)) as Hstep.
    fold D in Hstep. rewrite Z.pow_mul_l.
    assert (0 < (2 ^ s) ^ D)%Z by (apply Z.pow_pos_nonneg; lia).
    assert (0 < C - D)%Z
      by (unfold C; change (2 ^ 40)%Z with 1099511627776%Z;
          change (2 ^ 20)%Z with 1048576%Z in Hd; lia).
    assert (t * (C - D) <= (m + 1) ^ D * (2 ^ s) ^ D * (C - D))%Z
      by (apply Z.mul_le_mono_nonneg_r; lia).
    assert ((m + 1) ^ D * (C - D) * (2 ^ s) ^ D <= m ^ D * C * (2 ^ s) ^ D)%Z
      by (apply Z.mul_le_mono_nonneg_r; lia).
    lia. }
  assert (0 < C)%Z as HC by done.
  assert (0 <= D)%Z as HD0 by lia.
  assert (0 <= Q)%Z as HQ0.
  { assert (0 <= (2 ^ 52) ^ D)%Z by (apply Z.pow_nonneg; lia). lia. }
  assert (t = Q * G ^ D)%Z as Ht_eq by reflexivity.
  clearbody t m Y P Q G C.
  split.
  - (* Q P^D (C - D) <= X C, through the factor G^D *)
    apply (Z.mul_le_mono_pos_r _ _ (G ^ D)); [done|].
    replace (Q * P ^ D * (C - D) * G ^ D)%Z with (t * (C - D) * P ^ D)%Z
      by (rewrite Ht_eq; ring).
    replace (m ^ D * Y ^ D * C * G ^ D)%Z with (m ^ D * Y ^ D * G ^ D * C)%Z by ring.
    rewrite HXG.
    replace ((m * 2 ^ s) ^ D * P ^ D * C)%Z with ((m * 2 ^ s) ^ D * C * P ^ D)%Z
      by ring.
    apply Z.mul_le_mono_nonneg_r; lia.
  - apply (Z.mul_le_mono_pos_r _ _ (G ^ D)); [done|].
    replace (m ^ D * Y ^ D * C * G ^ D)%Z with (m ^ D * Y ^ D * G ^ D * C)%Z by ring.
    rewrite HXG.
    replace (Q * P ^ D * (C + D) * G ^ D)%Z with (t * P ^ D * (C + D))%Z
      by (rewrite Ht_eq; ring).
    assert ((m * 2 ^ s) ^ D * P ^ D <= t * P ^ D)%Z as Hle
      by (apply Z.mul_le_mono_nonneg_r; lia).
    assert (0 <= t * P ^ D)%Z by (apply Z.mul_nonneg_nonneg; lia).
    assert ((m * 2 ^ s) ^ D * P ^ D * C <= t * P ^ D * C)%Z
      by (apply Z.mul_le_mono_nonneg_r; lia).
    assert (t * P ^ D * C <= t * P ^ D * (C + D))%Z
      by (apply Z.mul_le_mono_nonneg_l; lia).
    lia.
Qed.

#[global] Instance reference_numlib_logspace : LogspaceSpec (H := reference_numlib).
Proof.
  constructor. intros a b n Ha Hb Hn.
  change (log_spaced a b n (geometric_space a b n)).
  unfold geometric_space. split; [by rewrite length_map, length_seq|].
  intros k x Hx. rewrite list_lookup_fmap in Hx.
  destruct (seq 0 n !! k) as [k'|] eqn:Ek; [|done].
  apply lookup_seq in Ek as [-> Hk]. cbn in Hx. injection Hx as <-.
  apply geometric_sample_spec; [done..|lia|lia].
Qed.

Lemma in_range_ends : in_range 0.08%float /\ in_range 0.5%float.
Proof. unfold in_range. vm_compute. repeat split; discriminate. Qed.

Lemma ends_apart : (2 * scaled 0.08%float <= scaled 0.5%float)%Z.
Proof. vm_compute. discriminate. Qed.

(** ** The nutrient quality of a setup *)

(** C8: with numpy's [logspace] and [log10] as documented
    ([LogspaceSpec]), the nutrient qualities [par_xs] are six samples
    spaced evenly on a log scale from 0.08 to 0.5: the first is 0.08 and
    the last 0.5 up to a relative error of 5 * 2^-40, and each sample is
    strictly below the next.  When the loader returns, the setup emitted
    for the retained row of index [i] has entry [i / 5] of them as its
    nutrient quality: the rows of one block of five consecutive indices
    share it, the block of the worst quality first. *)
Theorem setup_nutrient_quality_by_block `{NumLib} `{!LogspaceSpec} (dataset : table)
    (setups meas : ndarray) :
  load_experimental_data dataset = Ok (setups, meas) ->
  log_spaced 0.08%float 0.5%float 6 par_xs /\
  (exists lo hi,
     par_xs !! 0 = Some lo /\ par_xs !! 5 = Some hi /\
     close_to 5 lo 0.08%float /\ close_to 5 hi 0.5%float) /\
  (forall k x y, par_xs !! k = Some x -> par_xs !! S k = Some y ->
     PrimFloat.ltb x y = true) /\
  exists ss, setups = jnp_array ss /\
    Forall2 (fun i s =>
               5 * (i / 5) <= i < 5 * (i / 5) + 5 /\ i / 5 < 6 /\
               exists q, par_xs !! (i / 5) = Some q /\ s !! 0 = Some q)
      (retained_rows dataset) ss.
Proof.
  intros Hrun. destruct in_range_ends as [Ha Hb].
  assert (log_spaced 0.08%float 0.5%float 6 par_xs) as Hspaced
    by (by apply np_logspace_log10).
  assert (0 < scaled 0.08%float /\ 0 < scaled 0.5%float)%Z as [Hpa Hpb].
  { destruct Ha, Hb. assert (0 < 2 ^ 74)%Z by done. lia. }
  pose proof Hspaced as [Hlen _].
  split_and!; [done| | |].
  - destruct (lookup_lt_is_Some_2 par_xs 0) as [lo Hlo]; [lia|].
    destruct (lookup_lt_is_Some_2 par_xs 5) as [hi Hhi]; [lia|].
    exists lo, hi. split_and!; [done..| |].
    + by apply (log_spaced_first _ _ 6 par_xs Hspaced).
    + by apply (log_spaced_last _ _ 6 par_xs Hspaced).
  - intros k x y. apply (log_spaced_ascending _ _ 6 par_xs Hspaced); [done..|].
    apply ends_apart.
  - apply load_experimental_data_ok in Hrun as (r & Hr & -> & _).
    exists (read_setups r). split; [done|].
    pose proof Hr as [Hs _]%load_rows_spec.
    eapply Forall2_impl; [exact Hs|]. intros i s (px & d3 & Hpx & _ & ->).
    unfold block_of_row in Hpx.
    pose proof (lookup_lt_Some _ _ _ Hpx) as Hlt. rewrite Hlen in Hlt.
    pose proof (Nat.div_mod_eq i 5). pose proof (Nat.mod_upper_bound i 5).
    split_and!; [lia..|]. by exists px.
Qed.

Lemma setup_nutrient_quality_by_block_witness :
  exists setups meas,
    load_experimental_data (H := reference_numlib) block_dataset = Ok (setups, meas) /\
    par_xs (H := reference_numlib)
    = [0.08; 0.11541599247257708; 0.16651064148037462; 0.24022488679628623;
       0.34657242157757318; 0.5]%float /\
    retained_rows block_dataset = [0; 1; 2; 3; 4; 5; 7; 8; 9] /\
    nd_cell setups 4 0 = Ok 0.08%float /\
    nd_cell setups 5 0 = Ok 0.11541599247257708%float /\
    nd_cell setups 8 0 = Ok 0.11541599247257708%float /\
    log_spaced 0.08%float 0.5%float 6 (par_xs (H := reference_numlib)) /\
    (exists lo hi,
       par_xs (H := reference_numlib) !! 0 = Some lo /\
       par_xs (H := reference_numlib) !! 5 = Some hi /\
       close_to 5 lo 0.08%float /\ close_to 5 hi 0.5%float) /\
    (forall k x y, par_xs (H := reference_numlib) !! k = Some x ->
       par_xs (H := reference_numlib) !! S k = Some y ->
       PrimFloat.ltb x y = true) /\
    exists ss, setups = jnp_array ss /\
      Forall2 (fun i s =>
                 5 * (i / 5) <= i < 5 * (i / 5) + 5 /\ i / 5 < 6 /\
                 exists q, par_xs (H := reference_numlib) !! (i / 5) = Some q /\
                           s !! 0 = Some q)
        (retained_rows block_dataset) ss.
Proof.
  eexists _, _. split; [vm_compute; reflexivity|].
  split; [vm_compute; reflexivity|].
  split; [vm_compute; reflexivity|].
  split; [vm_compute; reflexivity|].
  split; [vm_compute; reflexivity|].
  split; [vm_compute; reflexivity|].
  eapply (setup_nutrient_quality_by_block (H := reference_numlib) block_dataset).
  vm_compute; reflexivity.
Defined.

(** ** The measurement errors *)

Lemma zip_with_replicate_both {A B C} (f : A -> B -> C) n x y :
  zip_with f (replicate n x) (replicate n y) = replicate n (f x y).
Proof. induction n as [|n IH]; simpl; [done|]. by rewrite IH. Qed.

Lemma stretch_replicate {A} n (x : A) :
  stretch n (replicate n x) = replicate n x.
Proof. by destruct n as [|[|n]]. Qed.

(** A table of ones times a single row: that row, once per row. *)
Lemma jnp_multiply_ones_row n a b :
  n <> 0 ->
  jnp_multiply (np_ones (Sh2 n 2)) (Arr2 2 [[a; b]])
  = Ok (Arr2 2 (replicate n [a; b])).
Proof.
  intros Hn. unfold jnp_multiply, np_ones, np_full, as_rows.
  rewrite length_replicate. cbn [length].
  assert (bdim n 1 = Ok n) as ->.
  { unfold bdim. repeat case_decide; (done || by subst). }
  assert (bdim 2 2 = Ok 2) as -> by done.
  cbn [mbind result_bind].
  rewrite stretch_replicate. cbn [stretch].
  rewrite zip_with_replicate_both. cbn [zip_with stretch replicate].
  by rewrite !float_mul_1_l.
Qed.

Lemma jnp_multiply_ones_empty a b :
  jnp_multiply (np_ones (Sh1 0)) (Arr2 2 [[a; b]]) = Raise ShapeError.
Proof. reflexivity. Qed.

Section ErrorLoop.
Context (dataset error_dataset : table).

Lemma for_each_load_error_rows xs st st' :
  for_each xs (load_error_row dataset error_dataset) st = Ok st' ->
  exists us,
    read_unscaled_errors st' = read_unscaled_errors st ++ us /\
    length us = length (filter (fun i => retained dataset i = true) xs) /\
    Forall (fun u => length u = 2) us.
Proof.
  revert st; induction xs as [|i xs IH]; intros st; simpl.
  - intros [= <-]. exists []. by rewrite app_nil_r.
  - intros Hrun. apply bind_ok in Hrun as (st1 & E1 & Hrest).
    destruct (IH _ Hrest) as (us & Eu & Hlen & Hall).
    rewrite filter_cons. revert E1. unfold load_error_row, retained.
    destruct (cell dataset i 0) as [d0|]; simpl; [|done].
    destruct (above_cutoff d0); simpl.
    + destruct (cell error_dataset i 0) as [e0|]; simpl; [|done].
      destruct (cell error_dataset i 2) as [e2|]; simpl; [|done].
      destruct (cell error_dataset i 4) as [r4|]; simpl; [|done].
      destruct (cell error_dataset i 5) as [r5|]; simpl; [|done].
      intros [= <-]. simpl in Eu. exists ([e0; e2] :: us).
      rewrite Eu, <- app_assoc. simpl. rewrite Hlen.
      split_and!; [done..|]. by constructor.
    + intros [= <-]. by exists us.
Qed.

End ErrorLoop.

Lemma load_error_rows_spec dataset error_dataset r :
  load_error_rows dataset error_dataset = Ok r ->
  length (read_unscaled_errors r) = length (retained_rows dataset) /\
  Forall (fun u => length u = 2) (read_unscaled_errors r).
Proof.
  intros (us & -> & Hlen & Hall)%for_each_load_error_rows. done.
Qed.

(** C4: when the error scales are built, every retained row has the
    same pair, the mean of column 0 and the mean of column 2 of the
    whole raw error table; no per-row error and no replicate number
    enters it. *)
Theorem exp_errors_constant_across_setups `{NumLib} (dataset error_dataset : table)
    (exp_errors : ndarray) :
  load_exp_errors dataset error_dataset = Ok exp_errors ->
  exists col0 col2,
    column error_dataset 0 = Ok col0 /\ column error_dataset 2 = Ok col2 /\
    exp_errors = Arr2 2 (replicate (length (retained_rows dataset))
                           [np_mean col0; np_mean col2]).
Proof.
  unfold load_exp_errors. intros Hrun.
  apply bind_ok in Hrun as (r & Hr & Hrun).
  apply bind_ok in Hrun as (col0 & Hc0 & Hrun).
  apply bind_ok in Hrun as (col2 & Hc2 & Hrun).
  exists col0, col2. split_and!; [done..|].
  apply load_error_rows_spec in Hr as [Hlen Hall]. rewrite <- Hlen.
  destruct (read_unscaled_errors r) as [|u us]; cbn [jnp_array shape_of] in Hrun.
  - by rewrite jnp_multiply_ones_empty in Hrun.
  - apply Forall_cons_1 in Hall as [Hu _]. rewrite Hu in Hrun.
    rewrite jnp_multiply_ones_row in Hrun by done. by injection Hrun as <-.
Qed.

Lemma exp_errors_constant_across_setups_witness :
  load_exp_errors (H := sample_numlib) sample_dataset sample_error_dataset
  = Ok (Arr2 2 [[0.25; 0.25]; [0.25; 0.25]]%float) /\
  exists col0 col2,
    column sample_error_dataset 0 = Ok col0 /\
    column sample_error_dataset 2 = Ok col2 /\
    Arr2 2 [[0.25; 0.25]; [0.25; 0.25]]%float
    = Arr2 2 (replicate (length (retained_rows sample_dataset))
                [np_mean (NumLib := sample_numlib) col0;
                 np_mean (NumLib := sample_numlib) col2]).
Proof.
  split; [vm_compute; reflexivity|].
  apply (exp_errors_constant_across_setups (H := sample_numlib)
           sample_dataset sample_error_dataset).
  vm_compute; reflexivity.
Defined.

(** ** The state vector constructor *)

Lemma prog_bind_ok {A B} (m : prog A) (f : A -> prog B) h b h' :
  (m ≫= f) h = Ok (b, h') ->
  exists a h1, m h = Ok (a, h1) /\ f a h1 = Ok (b, h').
Proof.
  unfold mbind, prog_bind. destruct (m h) as [[a h1]|e]; [eauto|done].
Qed.

Lemma prog_ret_ok {A} (a b : A) (h h' : heap) :
  (mret a : prog A) h = Ok (b, h') -> b = a /\ h' = h.
Proof. by intros [= <- <-]. Qed.

Lemma lift_ok {A} (r : result A) h a h' :
  lift r h = Ok (a, h') -> r = Ok a /\ h' = h.
Proof. unfold lift. destruct r; [by intros [= <- <-]|done]. Qed.

(** Allocation leaves every live object as it was. *)
Lemma new_ok a h l h' :
  new a h = Ok (l, h') -> h !! l = None /\ h ⊆ h' /\ h' !! l = Some a.
Proof.
  unfold new. intros [= <- <-].
  assert (h !! fresh (dom h) = None) as Hfresh.
  { apply not_elem_of_dom, is_fresh. }
  split_and!; [done| |].
  - by apply insert_subseteq.
  - apply lookup_insert_eq.
Qed.

Lemma get_ok l h a h' :
  get l h = Ok (a, h') -> h !! l = Some a /\ h' = h.
Proof. unfold get. destruct (h !! l); [by intros [= <- <-]|done]. Qed.

(** One step of a program: split a bind that returned, and name what
    each primitive did. *)
Ltac step_prog H :=
  let a := fresh "a" in let h1 := fresh "h" in let H1 := fresh "Hstep" in
  apply prog_bind_ok in H as (a & h1 & H1 & H).

Lemma obj_shape0_ok l h n h' :
  obj_shape0 l h = Ok (n, h') -> exists a, h !! l = Some a /\ n = shape0 a /\ h' = h.
Proof.
  unfold obj_shape0. intros Hrun. step_prog Hrun.
  apply get_ok in Hstep as [Ha ->]. apply prog_ret_ok in Hrun as [-> ->]. eauto.
Qed.

Lemma obj_multiply_ok la lb h l h' :
  obj_multiply la lb h = Ok (l, h') ->
  exists a b r, h !! la = Some a /\ h !! lb = Some b /\ jnp_multiply a b = Ok r /\
    h !! l = None /\ h ⊆ h' /\ h' !! l = Some r.
Proof.
  unfold obj_multiply. intros Hrun.
  step_prog Hrun. apply get_ok in Hstep as [Ha ->].
  step_prog Hrun. apply get_ok in Hstep as [Hb ->].
  step_prog Hrun. apply lift_ok in Hstep as [Hr ->].
  apply new_ok in Hrun. eauto 10.
Qed.

Lemma obj_slice_col_ok la j h l h' :
  obj_slice_col la j h = Ok (l, h') ->
  exists a v, h !! la = Some a /\ slice_col a j = Ok v /\
    h !! l = None /\ h ⊆ h' /\ h' !! l = Some (Arr1 v).
Proof.
  unfold obj_slice_col. intros Hrun.
  step_prog Hrun. apply get_ok in Hstep as [Ha ->].
  step_prog Hrun. apply lift_ok in Hstep as [Hr ->].
  apply new_ok in Hrun. eauto 10.
Qed.

Lemma obj_at_col_set_ok la j lv h l h' :
  obj_at_col_set la j lv h = Ok (l, h') ->
  exists a v r, h !! la = Some a /\ h !! lv = Some (Arr1 v) /\
    at_col_set a j v = Ok r /\ h !! l = None /\ h ⊆ h' /\ h' !! l = Some r.
Proof.
  unfold obj_at_col_set. intros Hrun.
  step_prog Hrun. apply get_ok in Hstep as [Ha ->].
  step_prog Hrun. apply get_ok in Hstep as [Hv ->].
  destruct a0 as [v|]; [|by apply lift_ok in Hrun as [? _]].
  step_prog Hrun. apply lift_ok in Hstep as [Hr ->].
  apply new_ok in Hrun. eauto 10.
Qed.

(** The array operations of the constructor, on values. *)

Lemma zip_with_mul_ones (d : list float) :
  zip_with PrimFloat.mul (replicate (length d) 1%float) d = d.
Proof.
  induction d as [|x d IH]; simpl; [done|]. by rewrite float_mul_1_l, IH.
Qed.

Lemma stretch_length {A} (xs : list A) : stretch (length xs) xs = xs.
Proof. by destruct xs as [|x [|y xs]]. Qed.

Lemma bdim_1_r n : bdim n 1 = Ok n.
Proof. unfold bdim. repeat case_decide; (done || by subst). Qed.

Lemma bdim_diag n : bdim n n = Ok n.
Proof. unfold bdim. by rewrite decide_True. Qed.

(** [np.ones((n, len(d))) * d]: [n] copies of [d]. *)
Lemma jnp_multiply_ones_vector n (d : list float) :
  jnp_multiply (np_ones (Sh2 n (length d))) (Arr1 d)
  = Ok (Arr2 (length d) (replicate n d)).
Proof.
  unfold jnp_multiply, np_ones, np_full, as_rows.
  rewrite length_replicate, bdim_1_r, bdim_diag.
  cbn [mbind result_bind]. rewrite stretch_replicate. cbn [stretch].
  rewrite zip_with_replicate_both, stretch_replicate, stretch_length.
  by rewrite zip_with_mul_ones.
Qed.

Lemma column_length (t : table) j v : column t j = Ok v -> length v = length t.
Proof.
  unfold column. destruct (mapM _ t) as [k|] eqn:E; simpl; [|done].
  intros [= <-]. apply mapM_Some in E. symmetry. by eapply Forall2_length.
Qed.

Lemma column_lookup (t : table) j v :
  column t j = Ok v -> Forall2 (fun row x => row !! j = Some x) t v.
Proof.
  unfold column. destruct (mapM _ t) as [k|] eqn:E; simpl; [|done].
  intros [= <-]. by apply mapM_Some in E.
Qed.

(** [a.at[:, j].set(v)] with one value for each row. *)
Lemma at_col_set_rows c rows j v :
  0 < c ->
  length v = length rows ->
  at_col_set (Arr2 c rows) j v
  = Ok (Arr2 c (zip_with (fun row x => <[j := x]> row) rows v)).
Proof.
  intros Hc Hlen. unfold at_col_set. rewrite decide_False by lia.
  rewrite <- Hlen, bdim_diag.
  cbn [mbind result_bind]. rewrite decide_True by done.
  by rewrite stretch_length.
Qed.

(** The rows built by lines 163-165, from the two columns of the setups. *)
Lemma x0s_rows (srows : table) (j1 : nat) (col0 col1 d : list float) :
  Forall2 (fun srow x => srow !! 0 = Some x) srows col0 ->
  Forall2 (fun srow x => srow !! j1 = Some x) srows col1 ->
  Forall2 (fun srow row => exists s hh,
             srow !! 0 = Some s /\ srow !! j1 = Some hh /\
             row = <[8 := hh]> (<[7 := s]> d))
    srows
    (zip_with (fun row x => <[8 := x]> row)
       (zip_with (fun row x => <[7 := x]> row) (replicate (length srows) d) col0)
       col1).
Proof.
  intros H0. revert col1. induction H0 as [|srow s srows col0 Hs _ IH];
    intros col1 H1; inversion H1 as [|? hh ? col1' Hh H1']; subst; simpl.
  - constructor.
  - constructor; [by exists s, hh|]. by apply IH.
Qed.

Lemma slice_col_ok a j v :
  slice_col a j = Ok v ->
  exists c rows, a = Arr2 c rows /\ 0 < c /\ column rows (j `min` (c - 1)) = Ok v.
Proof.
  destruct a as [xs|c rows]; cbn [slice_col]; [done|].
  case_decide; [done|]. intros Hcol. exists c, rows. split_and!; [done|lia|done].
Qed.

(** C3: run on a store holding the setups and the default state vector
    (of more than 8 entries), the constructor leaves every object of the
    store as it was, the default vector among them, and returns a new
    array with one row for each setup: the default vector except that
    entry 7 is the setup's nutrient quality (column 0) and entry 8 its
    inducer concentration (column 1; were there a single column, JAX
    would read that one again). *)
Theorem construct_x0s_overwrites_reserved_only (ls ld lx : loc) (h h' : heap)
    (setups : ndarray) (x0_default : list float) :
  h !! ls = Some setups ->
  h !! ld = Some (Arr1 x0_default) ->
  8 < length x0_default ->
  construct_x0s ls ld h = Ok (lx, h') ->
  h' !! ld = Some (Arr1 x0_default) /\
  (forall l a, h !! l = Some a -> h' !! l = Some a) /\
  h !! lx = None /\
  exists c srows rows,
    setups = Arr2 c srows /\ 0 < c /\
    h' !! lx = Some (Arr2 (length x0_default) rows) /\
    Forall2 (fun setup row => exists s hh,
               setup !! 0 = Some s /\ setup !! (1 `min` (c - 1)) = Some hh /\
               length row = length x0_default /\
               row !! 7 = Some s /\ row !! 8 = Some hh /\
               forall j, j <> 7 -> j <> 8 -> row !! j = x0_default !! j)
      srows rows.
Proof.
  intros Hls Hld Hlen Hrun. unfold construct_x0s in Hrun.
  apply prog_bind_ok in Hrun as (n & ha & Hstep & Hrun).
  apply obj_shape0_ok in Hstep as (? & Hs & -> & ->).
  rewrite Hls in Hs. apply (inj Some) in Hs as <-.
  apply prog_bind_ok in Hrun as (k & hb & Hstep & Hrun).
  apply obj_shape0_ok in Hstep as (? & Hd & -> & ->).
  rewrite Hld in Hd. apply (inj Some) in Hd as <-.
  apply prog_bind_ok in Hrun as (l1 & h1 & Hstep & Hrun).
  apply new_ok in Hstep as (Hn1 & Hsub1 & Hones).
  apply prog_bind_ok in Hrun as (l2 & h2 & Hstep & Hrun).
  apply obj_multiply_ok in Hstep as (? & ? & r1 & Ha & Hb & Hr1 & Hn2 & Hsub2 & Hl2).
  rewrite Hones in Ha. apply (inj Some) in Ha as <-.
  rewrite (lookup_weaken _ _ _ _ Hld Hsub1) in Hb. apply (inj Some) in Hb as <-.
  change (shape0 (Arr1 x0_default)) with (length x0_default) in Hr1.
  rewrite jnp_multiply_ones_vector in Hr1. injection Hr1 as <-.
  assert (h ⊆ h2) as Hsub02 by (by etrans).
  apply prog_bind_ok in Hrun as (l3 & h3 & Hstep & Hrun).
  apply obj_slice_col_ok in Hstep as (? & col0 & Ha & Hc0 & Hn3 & Hsub3 & Hl3).
  rewrite (lookup_weaken _ _ _ _ Hls Hsub02) in Ha. apply (inj Some) in Ha as <-.
  apply slice_col_ok in Hc0 as (c & srows & -> & Hc & Hc0).
  change (0 `min` (c - 1)) with 0 in Hc0.
  assert (h ⊆ h3) as Hsub03 by (by etrans).
  apply prog_bind_ok in Hrun as (l4 & h4 & Hstep & Hrun).
  apply obj_at_col_set_ok in Hstep as (? & ? & r2 & Ha & Hv & Hr2 & Hn4 & Hsub4 & Hl4).
  rewrite (lookup_weaken _ _ _ _ Hl2 Hsub3) in Ha. apply (inj Some) in Ha as <-.
  rewrite Hl3 in Hv. injection Hv as <-.
  change (shape0 (Arr2 c srows)) with (length srows) in Hr2.
  rewrite at_col_set_rows in Hr2
    by (lia || by rewrite length_replicate, (column_length _ _ _ Hc0)).
  injection Hr2 as <-.
  assert (h ⊆ h4) as Hsub04 by (by etrans).
  apply prog_bind_ok in Hrun as (l5 & h5 & Hstep & Hrun).
  apply obj_slice_col_ok in Hstep as (? & col1 & Ha & Hc1 & Hn5 & Hsub5 & Hl5).
  rewrite (lookup_weaken _ _ _ _ Hls Hsub04) in Ha. apply (inj Some) in Ha as <-.
  cbn [slice_col] in Hc1. rewrite decide_False in Hc1 by lia.
  assert (h ⊆ h5) as Hsub05 by (by etrans).
  apply obj_at_col_set_ok in Hrun as (? & ? & r3 & Ha & Hv & Hr3 & Hn6 & Hsub6 & Hl6).
  rewrite (lookup_weaken _ _ _ _ Hl4 Hsub5) in Ha. apply (inj Some) in Ha as <-.
  rewrite Hl5 in Hv. injection Hv as <-.
  rewrite at_col_set_rows in Hr3; [|lia|].
  2:{ rewrite length_zip_with, length_replicate,
        (column_length _ _ _ Hc0), (column_length _ _ _ Hc1). lia. }
  injection Hr3 as <-.
  assert (h ⊆ h') as Hsub by (by etrans).
  split_and!.
  - by eapply lookup_weaken.
  - intros l a Hl. by eapply lookup_weaken.
  - destruct (h !! lx) eqn:E; [|done].
    by rewrite (lookup_weaken _ _ _ _ E Hsub05) in Hn6.
  - exists c, srows. eexists. split_and!; [done..|].
    eapply Forall2_impl;
      [apply x0s_rows; eauto using column_lookup|].
    intros setup row (s & hh & Hs & Hh & ->). exists s, hh.
    rewrite !length_insert.
    split_and!; [done..| | |].
    + rewrite list_lookup_insert_ne by done.
      apply list_lookup_insert_eq. lia.
    + apply list_lookup_insert_eq. rewrite length_insert. lia.
    + intros j H7 H8. by rewrite !list_lookup_insert_ne.
Qed.
Lemma construct_x0s_overwrites_reserved_only_witness :
  exists lx h',
    construct_x0s 1%positive 2%positive sample_heap = Ok (lx, h') /\
    h' !! lx = Some (Arr2 10
      [ [10; 11; 12; 13; 14; 15; 16; 0.25; 2000; 19];
        [10; 11; 12; 13; 14; 15; 16; 0.5; 0; 19] ]%float) /\
    h' !! 2%positive = Some (Arr1 sample_x0_default) /\
    (forall l a, sample_heap !! l = Some a -> h' !! l = Some a) /\
    sample_heap !! lx = None /\
    exists c srows rows,
      sample_setups = Arr2 c srows /\ 0 < c /\
      h' !! lx = Some (Arr2 (length sample_x0_default) rows) /\
      Forall2 (fun setup row => exists s hh,
                 setup !! 0 = Some s /\ setup !! (1 `min` (c - 1)) = Some hh /\
                 length row = length sample_x0_default /\
                 row !! 7 = Some s /\ row !! 8 = Some hh /\
                 forall j, j <> 7 -> j <> 8 -> row !! j = sample_x0_default !! j)
        srows rows.
Proof.
  eexists _, _. split; [vm_compute; reflexivity|].
  split; [vm_compute; reflexivity|].
  apply (construct_x0s_overwrites_reserved_only 1%positive 2%positive _
           sample_heap _ sample_setups sample_x0_default).
  - vm_compute; reflexivity.
  - vm_compute; reflexivity.
  - simpl; lia.
  - vm_compute; reflexivity.
Defined.

(** ** The grid sweep driver *)

Lemma nd_cell_set_eq c rows i j x rows' :
  set_cell rows i j x = Ok rows' -> j < c ->
  nd_cell (Arr2 c rows') i j = Ok x.
Proof.
  unfold set_cell, nd_cell, cell. intros Hset Hj.
  destruct (rows !! i) as [row|] eqn:Ei; simpl in Hset; [|done].
  case_decide as Hlt; [|done]. injection Hset as <-.
  rewrite decide_True by done.
  rewrite list_lookup_insert_eq by (by eapply lookup_lt_Some). simpl.
  by rewrite list_lookup_insert_eq.
Qed.

Lemma nd_cell_set_ne c rows i j x rows' a b :
  set_cell rows i j x = Ok rows' -> (a, b) <> (i, j) ->
  nd_cell (Arr2 c rows') a b = nd_cell (Arr2 c rows) a b.
Proof.
  unfold set_cell, nd_cell, cell. intros Hset Hne.
  destruct (rows !! i) as [row|] eqn:Ei; simpl in Hset; [|done].
  case_decide as Hlt; [|done]. injection Hset as <-.
  case_decide; [|done].
  destruct (decide (a = i)) as [->|Hai].
  - rewrite list_lookup_insert_eq by (by eapply lookup_lt_Some).
    rewrite Ei. simpl. rewrite list_lookup_insert_ne; [done|congruence].
  - by rewrite list_lookup_insert_ne.
Qed.

Lemma set_cell_shape rows i j x rows' n m :
  set_cell rows i j x = Ok rows' ->
  length rows = n -> Forall (fun row => length row = m) rows ->
  length rows' = n /\ Forall (fun row => length row = m) rows'.
Proof.
  unfold set_cell. intros Hset Hn Hm.
  destruct (rows !! i) as [row|] eqn:Ei; simpl in Hset; [|done].
  case_decide; [|done]. injection Hset as <-.
  rewrite length_insert. split; [done|].
  apply Forall_insert; [done|]. rewrite length_insert.
  by eapply (Forall_lookup_1 _ _ _ _ Hm).
Qed.

Lemma set_cell_is_ok rows i j x n m :
  length rows = n -> Forall (fun row => length row = m) rows ->
  i < n -> j < m -> is_ok (set_cell rows i j x) = true.
Proof.
  intros Hn Hm Hi Hj. unfold set_cell.
  destruct (lookup_lt_is_Some_2 rows i) as [row Hrow]; [lia|].
  rewrite Hrow. simpl. rewrite decide_True; [done|].
  by rewrite (Forall_lookup_1 _ _ _ _ Hm Hrow).
Qed.

Section SweepProps.
Context (minus_sos : list float -> result float).
Context (pv Kr kr : list float).

Lemma sweep_cell_spec i j st st' :
  surface_shaped Kr kr st ->
  sweep_cell minus_sos pv Kr kr i j st = Ok st' ->
  surface_shaped Kr kr st' /\
  cell_filled minus_sos pv Kr kr st' i j /\
  (forall a b, cell_filled minus_sos pv Kr kr st a b ->
               cell_filled minus_sos pv Kr kr st' a b) /\
  stdout st' = stdout st ++ [(i, j)].
Proof.
  intros (rows & Hll & Hn & Hm) Hrun. unfold sweep_cell, item in Hrun.
  destruct (Kr !! i) as [K|] eqn:EK; simpl in Hrun; [|done].
  destruct (kr !! j) as [k|] eqn:Ek; simpl in Hrun; [|done].
  destruct (minus_sos (grid_parvec pv K k)) as [v|] eqn:Ev; simpl in Hrun; [|done].
  rewrite Hll in Hrun. cbn [nd_set_cell] in Hrun.
  case_decide as Hj; [|done].
  destruct (set_cell rows i j v) as [rows'|] eqn:Eset; simpl in Hrun; [|done].
  injection Hrun as <-. cbn [loglikes stdout].
  destruct (set_cell_shape _ _ _ _ _ _ _ Eset Hn Hm) as [Hn' Hm'].
  split_and!; [by exists rows'| |  |done].
  - exists K, k, v. split_and!; [done..|]. by eapply nd_cell_set_eq.
  - intros a b (K' & k' & v' & HK' & Hk' & Hv' & Hc). rewrite Hll in Hc.
    cbn [loglikes]. exists K', k', v'. split_and!; [done..|].
    destruct (decide ((a, b) = (i, j))) as [[= -> ->]|Hne].
    + rewrite EK in HK'. rewrite Ek in Hk'.
      injection HK' as <-. injection Hk' as <-.
      rewrite Ev in Hv'. injection Hv' as <-. cbn [loglikes].
      by eapply nd_cell_set_eq.
    + cbn [loglikes]. by rewrite (nd_cell_set_ne _ _ _ _ _ _ _ _ Eset Hne).
Qed.

(** The inner loop, line 220, over any list of column indices. *)
Lemma sweep_row_spec i js st st' :
  surface_shaped Kr kr st ->
  for_each js (sweep_cell minus_sos pv Kr kr i) st = Ok st' ->
  surface_shaped Kr kr st' /\
  (forall j, j ∈ js -> cell_filled minus_sos pv Kr kr st' i j) /\
  (forall a b, cell_filled minus_sos pv Kr kr st a b ->
               cell_filled minus_sos pv Kr kr st' a b) /\
  stdout st' = stdout st ++ map (fun j => (i, j)) js.
Proof.
  revert st. induction js as [|j js IH]; intros st Hsh; simpl.
  - intros [= <-]. rewrite app_nil_r. split_and!; [done| |done..].
    intros j Hj. by apply elem_of_nil in Hj.
  - intros Hrun. apply bind_ok in Hrun as (st1 & H1 & Hrest).
    destruct (sweep_cell_spec _ _ _ _ Hsh H1) as (Hsh1 & Hij & Hkeep1 & Hout1).
    destruct (IH _ Hsh1 Hrest) as (Hsh' & Hrow & Hkeep & Hout).
    split_and!; [done| |by auto|].
    + intros j' [->|Hj']%elem_of_cons; auto.
    + by rewrite Hout, Hout1, <- app_assoc.
Qed.

(** The outer loop, line 219, over any list of row indices. *)
Lemma sweep_rows_spec ixs st st' :
  surface_shaped Kr kr st ->
  for_each ixs (fun i => for_range (length kr) (sweep_cell minus_sos pv Kr kr i)) st
  = Ok st' ->
  surface_shaped Kr kr st' /\
  (forall i j, i ∈ ixs -> j < length kr -> cell_filled minus_sos pv Kr kr st' i j) /\
  (forall a b, cell_filled minus_sos pv Kr kr st a b ->
               cell_filled minus_sos pv Kr kr st' a b) /\
  stdout st' = stdout st ++ flat_map (fun i => map (fun j => (i, j)) (seq 0 (length kr))) ixs.
Proof.
  revert st. induction ixs as [|i ixs IH]; intros st Hsh; simpl.
  - intros [= <-]. rewrite app_nil_r. split_and!; [done| |done..].
    intros i j Hi. by apply elem_of_nil in Hi.
  - intros Hrun. apply bind_ok in Hrun as (st1 & H1 & Hrest).
    destruct (sweep_row_spec _ _ _ _ Hsh H1) as (Hsh1 & Hrow1 & Hkeep1 & Hout1).
    destruct (IH _ Hsh1 Hrest) as (Hsh' & Hrows & Hkeep & Hout).
    split_and!; [done| |by auto|].
    + intros i' j [->|Hi']%elem_of_cons Hj; [|by auto].
      apply Hkeep, Hrow1, elem_of_seq. lia.
    + by rewrite Hout, Hout1, <- app_assoc.
Qed.

Lemma surface_shaped_zeros :
  surface_shaped Kr kr
    {| loglikes := np_zeros (Sh2 (length Kr) (length kr)); stdout := [] |}.
Proof.
  eexists. split; [reflexivity|]. rewrite length_replicate. split; [done|].
  apply Forall_replicate. by rewrite length_replicate.
Qed.

Lemma grid_sweep_spec st :
  grid_sweep minus_sos pv Kr kr = Ok st ->
  shape_of (loglikes st) = Sh2 (length Kr) (length kr) /\
  (forall i j, i < length Kr -> j < length kr ->
     cell_filled minus_sos pv Kr kr st i j) /\
  stdout st = flat_map (fun i => map (fun j => (i, j)) (seq 0 (length kr)))
                (seq 0 (length Kr)).
Proof.
  intros Hrun. apply sweep_rows_spec in Hrun as (Hsh & Hall & _ & Hout);
    [|apply surface_shaped_zeros].
  destruct Hsh as (rows & Hll & Hn & _). rewrite Hll. cbn [shape_of].
  rewrite Hn. split_and!; [done| |done].
  intros i j Hi Hj. apply Hall; [|done]. apply elem_of_seq. lia.
Qed.

(** The sweep returns when the objective does at every grid point. *)
Lemma sweep_cell_is_ok i j st :
  surface_shaped Kr kr st -> i < length Kr -> j < length kr ->
  (forall p, is_ok (minus_sos p) = true) ->
  is_ok (sweep_cell minus_sos pv Kr kr i j st) = true.
Proof.
  intros (rows & Hll & Hn & Hm) Hi Hj Htot. unfold sweep_cell, item.
  destruct (lookup_lt_is_Some_2 Kr i Hi) as [K ->].
  destruct (lookup_lt_is_Some_2 kr j Hj) as [k ->]. simpl.
  specialize (Htot (grid_parvec pv K k)).
  destruct (minus_sos (grid_parvec pv K k)) as [v|]; [|done]. simpl.
  rewrite Hll. cbn [nd_set_cell]. rewrite decide_True by done.
  pose proof (set_cell_is_ok rows i j v _ _ Hn Hm Hi Hj) as Hok.
  by destruct (set_cell rows i j v).
Qed.

Lemma for_each_is_ok {S} (P : S -> Prop) (xs : list nat)
    (body : nat -> S -> result S) st :
  P st ->
  (forall i s, i ∈ xs -> P s -> exists s', body i s = Ok s' /\ P s') ->
  exists st', for_each xs body st = Ok st' /\ P st'.
Proof.
  revert st. induction xs as [|i xs IH]; intros st HP Hbody; simpl; [eauto|].
  destruct (Hbody i st) as (s1 & -> & HP1); [by left|done|]. simpl.
  apply IH; [done|]. intros j s Hj. apply Hbody. by right.
Qed.

Lemma grid_sweep_returns :
  (forall p, is_ok (minus_sos p) = true) ->
  is_ok (grid_sweep minus_sos pv Kr kr) = true.
Proof.
  intros Htot. unfold grid_sweep, for_range.
  destruct (for_each_is_ok (surface_shaped Kr kr) (seq 0 (length Kr))
              (fun i st => for_each (seq 0 (length kr)) (sweep_cell minus_sos pv Kr kr i) st)
              {| loglikes := np_zeros (Sh2 (length Kr) (length kr)); stdout := [] |})
    as (st' & -> & _); [apply surface_shaped_zeros| |done].
  intros i s Hi%elem_of_seq Hs.
  apply (for_each_is_ok (surface_shaped Kr kr)); [done|].
  intros j s' Hj%elem_of_seq Hs'.
  pose proof (sweep_cell_is_ok i j s' Hs' ltac:(lia) ltac:(lia) Htot) as Hok.
  destruct (sweep_cell minus_sos pv Kr kr i j s') as [s''|] eqn:E; [|done].
  exists s''. split; [done|]. by eapply sweep_cell_spec.
Qed.

End SweepProps.

Lemma parvec_default_length `{NumLib} par pv :
  parvec_default par = Ok pv -> exists p0 p1 p2 p3, pv = [p0; p1; p2; p3].
Proof.
  unfold parvec_default. intros Hrun.
  repeat (apply bind_ok in Hrun as (? & _ & Hrun)).
  injection Hrun as <-. simpl. eauto.
Qed.

Lemma log_range_length `{NumLib} `{!NumLibSpec} centre :
  length (log_range centre) = 51.
Proof. unfold log_range. by rewrite length_map, jnp_linspace_length. Qed.

(** C1: when the sweep returns, the result surface has shape (51, 51),
    the lengths of the two axes, and its cell (i, j) holds the value of
    the objective at the baseline candidate vector with entry 1 replaced
    by the i-th axis-1 value and entry 3 by the j-th axis-2 value. *)
Theorem grid_sweep_fills_result_surface `{NumLib} `{!NumLibSpec}
    (minus_sos : list float -> result float) (par : gmap string float)
    (pv Kr kr : list float) (st : sweep_state) :
  parvec_default par = Ok pv ->
  K_range par = Ok Kr ->
  kcm_range par = Ok kr ->
  grid_sweep minus_sos pv Kr kr = Ok st ->
  length Kr = 51 /\ length kr = 51 /\
  shape_of (loglikes st) = Sh2 (length Kr) (length kr) /\
  shape_of (loglikes st) = Sh2 51 51 /\
  exists p0 p1 p2 p3, pv = [p0; p1; p2; p3] /\
    forall i j, i < length Kr -> j < length kr ->
      exists K k v,
        Kr !! i = Some K /\ kr !! j = Some k /\
        minus_sos [p0; K; p2; k] = Ok v /\
        nd_cell (loglikes st) i j = Ok v.
Proof.
  intros Hpv HK Hk Hrun.
  apply bind_ok in HK as (K_e & _ & [= <-]).
  apply bind_ok in Hk as (kcm & _ & [= <-]).
  apply grid_sweep_spec in Hrun as (Hshape & Hcells & _).
  rewrite !log_range_length in *.
  split_and!; [done..|].
  destruct (parvec_default_length _ _ Hpv) as (p0 & p1 & p2 & p3 & ->).
  exists p0, p1, p2, p3. split; [done|].
  intros i j Hi Hj. destruct (Hcells i j Hi Hj) as (K & k & v & ? & ? & ? & ?).
  by exists K, k, v.
Qed.

Lemma grid_sweep_fills_result_surface_witness :
  exists pv Kr kr st,
    parvec_default (H := sample_numlib) sample_par = Ok pv /\
    K_range (H := sample_numlib) sample_par = Ok Kr /\
    kcm_range (H := sample_numlib) sample_par = Ok kr /\
    grid_sweep sample_minus_sos pv Kr kr = Ok st /\
    length Kr = 51 /\ length kr = 51 /\
    shape_of (loglikes st) = Sh2 (length Kr) (length kr) /\
    shape_of (loglikes st) = Sh2 51 51 /\
    exists p0 p1 p2 p3, pv = [p0; p1; p2; p3] /\
      forall i j, i < length Kr -> j < length kr ->
        exists K k v,
          Kr !! i = Some K /\ kr !! j = Some k /\
          sample_minus_sos [p0; K; p2; k] = Ok v /\
          nd_cell (loglikes st) i j = Ok v.
Proof.
  eexists _, _, _, _.
  split; [vm_compute; reflexivity|].
  split; [vm_compute; reflexivity|].
  split; [vm_compute; reflexivity|].
  split; [vm_compute; reflexivity|].
  eapply (grid_sweep_fills_result_surface (H := sample_numlib)
            sample_minus_sos sample_par);
    vm_compute; reflexivity.
Defined.

Lemma grid_sweep_shaped minus_sos pv Kr kr st :
  grid_sweep minus_sos pv Kr kr = Ok st -> surface_shaped Kr kr st.
Proof.
  intros Hrun. by apply sweep_rows_spec in Hrun as (Hsh & _);
    [|apply surface_shaped_zeros].
Qed.

(** ** The batch steady-state integrator *)

(** C9: the integrator is called with the explicit Runge-Kutta solver of
    order 5, an adaptive step size controller with relative and absolute
    tolerance 1e-6, the horizon from 0 to 48 with first step 0.1, no
    bound on the number of steps, and a steady-state event of relative
    and absolute tolerance 0.001 that ends the integration early. *)
Theorem integrator_configuration :
  call_solver diffeqsolve_forx0 = Dopri5 /\
  solver_explicit (call_solver diffeqsolve_forx0) = true /\
  solver_order (call_solver diffeqsolve_forx0) = 5 /\
  adaptive (call_stepsize_controller diffeqsolve_forx0) = true /\
  call_stepsize_controller diffeqsolve_forx0 = PIDController 1e-6%float 1e-6%float /\
  (call_t0 diffeqsolve_forx0, call_t1 diffeqsolve_forx0) = (0, 48)%Z /\
  call_dt0 diffeqsolve_forx0 = 0.1%float /\
  call_max_steps diffeqsolve_forx0 = None /\
  call_discrete_terminating_event diffeqsolve_forx0
  = Some (SteadyStateEvent 0.001%float 0.001%float).
Proof.
  unfold diffeqsolve_forx0, solver, stepsize_controller, steady_state_stop,
    rtol, atol, tf.
  cbn [call_solver call_stepsize_controller call_t0 call_t1 call_dt0
       call_max_steps call_discrete_terminating_event fst snd
       solver_explicit solver_order adaptive].
  repeat split.
Qed.

(** ** Persistence of the result surface *)

(** *** Binary64 bit patterns *)

Lemma bits_fields (s : bool) (E F : Z) :
  (0 <= E < 2048)%Z -> (0 <= F < 2 ^ 52)%Z ->
  let z := (sign_bit s + E * 2 ^ 52 + F)%Z in
  (2 ^ 63 <=? z)%Z = s /\ ((z / 2 ^ 52) mod 2048)%Z = E /\ (z mod 2 ^ 52)%Z = F.
Proof.
  intros HE HF z. unfold z, sign_bit.
  change (2 ^ 52)%Z with 4503599627370496%Z in *.
  change (2 ^ 63)%Z with (2048 * 4503599627370496)%Z.
  destruct s; split_and!.
  - apply Z.leb_le. nia.
  - symmetry. apply (Z.mod_unique _ _ 1); [lia|].
    symmetry. apply (Z.div_unique _ _ _ F); lia.
  - symmetry. apply (Z.mod_unique _ _ (2048 + E)); lia.
  - apply Z.leb_gt. nia.
  - symmetry. apply (Z.mod_unique _ _ 0); [lia|].
    symmetry. apply (Z.div_unique _ _ _ F); lia.
  - symmetry. apply (Z.mod_unique _ _ E); lia.
Qed.

Lemma SF_of_bits_of_SF (x : spec_float) :
  valid_binary x = true -> SF_of_bits (bits_of_SF x) = x.
Proof.
  destruct x as [s|s| |s m e]; intros Hv.
  - destruct (bits_fields s 0 0) as (Hs & HE & HF); [done..|].
    unfold SF_of_bits, bits_of_SF.
    replace (sign_bit s) with (sign_bit s + 0 * 2 ^ 52 + 0)%Z by lia.
    by rewrite Hs, HE, HF.
  - destruct (bits_fields s 2047 0) as (Hs & HE & HF); [done..|].
    unfold SF_of_bits, bits_of_SF.
    replace (sign_bit s + 2047 * 2 ^ 52)%Z
      with (sign_bit s + 2047 * 2 ^ 52 + 0)%Z by lia.
    by rewrite Hs, HE, HF.
  - reflexivity.
  - apply valid_binary_finite in Hv as (He & Hm & Hsub).
    unfold bits_of_SF. destruct (Z.leb_spec (2 ^ 52) (Z.pos m)) as [Hn|Hn].
    + destruct (bits_fields s (e + 1075) (Z.pos m - 2 ^ 52)) as (Hs & HE & HF);
        [lia|lia|].
      unfold SF_of_bits.
      replace (sign_bit s + ((e + 1075) * 2 ^ 52 + (Z.pos m - 2 ^ 52)))%Z
        with (sign_bit s + (e + 1075) * 2 ^ 52 + (Z.pos m - 2 ^ 52))%Z by lia.
      cbv zeta in Hs, HE, HF. rewrite Hs, HE, HF.
      destruct (Z.eqb_spec (e + 1075) 0) as [?|_]; [lia|].
      destruct (Z.eqb_spec (e + 1075) 2047) as [?|_]; [lia|].
      f_equal; [|lia].
      replace (Z.pos m - 2 ^ 52 + 2 ^ 52)%Z with (Z.pos m) by lia. done.
    + destruct (bits_fields s 0 (Z.pos m)) as (Hs & HE & HF); [lia|lia|].
      unfold SF_of_bits.
      replace (sign_bit s + Z.pos m)%Z
        with (sign_bit s + 0 * 2 ^ 52 + Z.pos m)%Z by lia.
      cbv zeta in Hs, HE, HF. rewrite Hs, HE, HF.
      change (0 =? 0)%Z with true. cbv iota.
      destruct (Z.eqb_spec (Z.pos m) 0) as [?|_]; [lia|].
      f_equal. by rewrite Hsub.
Qed.

(** No bit is lost: the bit pattern determines the value. *)
Lemma float_of_bits_float_bits (x : float) : float_of_bits (float_bits x) = x.
Proof.
  unfold float_of_bits, float_bits.
  rewrite SF_of_bits_of_SF by apply Prim2SF_valid. apply SF2Prim_Prim2SF.
Qed.

Lemma float_bits_range (x : float) : (0 <= float_bits x < 2 ^ 64)%Z.
Proof.
  unfold float_bits. pose proof (Prim2SF_valid x) as Hv.
  assert (forall s, 0 <= sign_bit s <= 2 ^ 63)%Z as Hs by (by intros []).
  destruct (Prim2SF x) as [s|s| |s m e]; cbn [bits_of_SF];
    try (specialize (Hs s); lia); [lia|].
  apply valid_binary_finite in Hv as (He & Hm & Hsub). specialize (Hs s).
  change (2 ^ 64)%Z with (2 ^ 63 + 2048 * 2 ^ 52)%Z.
  destruct (Z.leb_spec (2 ^ 52) (Z.pos m)); nia.
Qed.

(** *** Bytes *)

Lemma Z_of_byte_of_Z (z : Z) : (0 <= z < 256)%Z -> Z_of_byte (byte_of_Z z) = z.
Proof.
  intros Hz. unfold Z_of_byte, byte_of_Z.
  destruct (Byte.of_N (Z.to_N z)) as [b|] eqn:E.
  - apply Byte.to_of_N in E. rewrite E. lia.
  - apply Byte.of_N_None_iff in E. lia.
Qed.

Lemma length_le_bytes n z : length (le_bytes n z) = n.
Proof. revert z; induction n as [|n IH]; intros z; simpl; [done|]. by rewrite IH. Qed.

Lemma le_value_le_bytes n z :
  (0 <= z < 256 ^ Z.of_nat n)%Z -> le_value (le_bytes n z) = z.
Proof.
  revert z; induction n as [|n IH]; intros z Hz.
  - simpl in *. lia.
  - cbn [le_bytes le_value].
    rewrite Nat2Z.inj_succ, Z.pow_succ_r in Hz by lia.
    rewrite Z_of_byte_of_Z by (apply Z.mod_pos_bound; lia).
    rewrite IH.
    + pose proof (Z.div_mod z 256). lia.
    + split; [apply Z.div_pos; lia|]. apply Z.div_lt_upper_bound; lia.
Qed.

Lemma take_le_bytes_app n z (bs : list Byte.byte) :
  take n (le_bytes n z ++ bs) = le_bytes n z.
Proof. by rewrite take_app_length' by (by rewrite length_le_bytes). Qed.

Lemma drop_le_bytes_app n z (bs : list Byte.byte) :
  drop n (le_bytes n z ++ bs) = bs.
Proof. by rewrite drop_app_length' by (by rewrite length_le_bytes). Qed.

Lemma decode_encode_floats (xs : list float) :
  decode_floats (length xs) (encode_floats xs) = Some xs.
Proof.
  induction xs as [|x xs IH]; [done|].
  unfold encode_floats in *. cbn [length map concat decode_floats].
  rewrite decide_True by (rewrite length_app, length_le_bytes; lia).
  rewrite drop_le_bytes_app, IH, take_le_bytes_app. cbn [mbind option_bind].
  rewrite le_value_le_bytes by apply float_bits_range.
  by rewrite float_of_bits_float_bits.
Qed.

Lemma reshape_concat c (rows : list (list float)) :
  Forall (fun row => length row = c) rows ->
  reshape (length rows) c (concat rows) = rows.
Proof.
  induction 1 as [|row rows Hrow _ IH]; [done|].
  cbn [length concat reshape].
  by rewrite take_app_length', drop_app_length', IH.
Qed.

Lemma length_concat_rows c (rows : list (list float)) :
  Forall (fun row => length row = c) rows ->
  length (concat rows) = length rows * c.
Proof.
  induction 1 as [|row rows Hrow _ IH]; [done|].
  cbn [length concat]. rewrite length_app, IH, Hrow. lia.
Qed.

(** The serializer meets pickle's contract. *)
Lemma codec_round_trip : pickle_round_trip codec_dumps codec_loads.
Proof.
  intros [xs|c rows] Hrep; cbn [representable] in Hrep;
    cbn [codec_dumps codec_loads].
  - rewrite take_le_bytes_app, drop_le_bytes_app.
    rewrite le_value_le_bytes by (change (256 ^ Z.of_nat 8)%Z with (2 ^ 64)%Z; lia).
    rewrite Nat2Z.id, decode_encode_floats. done.
  - destruct Hrep as (Hn & Hc & Hrows).
    rewrite take_le_bytes_app.
    change 16 with (8 + 8). rewrite <- !drop_drop, !drop_le_bytes_app.
    rewrite take_le_bytes_app.
    rewrite !le_value_le_bytes
      by (change (256 ^ Z.of_nat 8)%Z with (2 ^ 64)%Z; lia).
    rewrite !Nat2Z.id, <- (length_concat_rows _ _ Hrows), decode_encode_floats.
    cbn [of_option mbind result_bind].
    by rewrite reshape_concat.
Qed.

(** * Part III: further properties of the script *)

(** ** The loader: what it emits, when it returns *)

Lemma nd_cell_jnp_array (rows : table) k j :
  Forall (fun r => length r = 2) rows -> j < 2 ->
  nd_cell (jnp_array rows) k j = cell rows k j.
Proof.
  intros Hrows Hj. destruct rows as [|r rows]; [done|].
  apply Forall_cons_1 in Hrows as [Hr _].
  cbn [jnp_array nd_cell]. rewrite Hr. by rewrite decide_True.
Qed.

Lemma setup_of_length dataset pxs i s : setup_of dataset pxs i s -> length s = 2.
Proof. by intros (? & ? & _ & _ & ->). Qed.

Lemma measurement_of_length dataset i m : measurement_of dataset i m -> length m = 2.
Proof. by intros (? & ? & _ & _ & ->). Qed.

Lemma filter_seq_increasing (P : nat -> Prop) `{!forall i, Decision (P i)}
    a n k k' i i' :
  filter P (seq a n) !! k = Some i -> filter P (seq a n) !! k' = Some i' ->
  k < k' -> i < i'.
Proof.
  revert a k k'. induction n as [|n IH]; intros a k k'; [done|].
  cbn [seq]. rewrite filter_cons. case_decide; [|by apply IH].
  destruct k as [|k], k' as [|k']; try lia.
  - intros [= <-] Hi' _. cbn in Hi'.
    apply list_elem_of_lookup_2, list_elem_of_filter in Hi' as [_ Hi'].
    apply elem_of_seq in Hi'. lia.
  - cbn. intros Hi Hi' Hlt. eapply IH; [done..|lia].
Qed.

(** X1: when the loader returns, row [k] of [setups] is the nutrient
    quality of its block and column 3 of the [k]-th retained dataset row
    times 1000, row [k] of [exp_measurements] is columns 0 and 2 of that
    dataset row, whose growth rate is above the cutoff; the rows follow
    the order of the dataset. *)
Theorem loader_emits_row_values `{NumLib} (dataset : table) (setups meas : ndarray) :
  load_experimental_data dataset = Ok (setups, meas) ->
  (forall k i, retained_rows dataset !! k = Some i ->
     exists px d0 d2 d3,
       cell dataset i 0 = Ok d0 /\ cell dataset i 2 = Ok d2 /\
       cell dataset i 3 = Ok d3 /\
       PrimFloat.ltb 0.3%float d0 = true /\
       par_xs !! (i / 5) = Some px /\
       nd_cell setups k 0 = Ok px /\
       nd_cell setups k 1 = Ok (d3 * 1000)%float /\
       nd_cell meas k 0 = Ok d0 /\
       nd_cell meas k 1 = Ok d2) /\
  (forall k k' i i', retained_rows dataset !! k = Some i ->
     retained_rows dataset !! k' = Some i' -> k < k' -> i < i').
Proof.
  intros Hrun. split; [|intros k k' i i'; apply filter_seq_increasing].
  apply load_experimental_data_ok in Hrun as (r & Hr & -> & ->).
  apply load_rows_spec in Hr as [Hs Hm].
  intros k i Hk.
  destruct (Forall2_lookup_l _ _ _ _ _ Hs Hk) as (s & Hsk & px & d3 & Hpx & Hd3 & ->).
  destruct (Forall2_lookup_l _ _ _ _ _ Hm Hk) as (m & Hmk & d0 & d2 & Hd0 & Hd2 & ->).
  assert (i ∈ retained_rows dataset) as Hi by (by eapply list_elem_of_lookup_2).
  apply elem_of_retained_rows in Hi as (d0' & Hd0' & Hcut).
  rewrite Hd0 in Hd0'. injection Hd0' as <-.
  exists px, d0, d2, d3.
  assert (Forall (fun r0 => length r0 = 2) (read_setups r)) as Hls.
  { apply Forall_forall. intros s' Hs'.
    apply list_elem_of_lookup in Hs' as [k' Hs'].
    destruct (Forall2_lookup_r _ _ _ _ _ Hs Hs') as (? & _ & Hso).
    by eapply setup_of_length. }
  assert (Forall (fun r0 => length r0 = 2) (read_measurements r)) as Hlm.
  { apply Forall_forall. intros m' Hm'.
    apply list_elem_of_lookup in Hm' as [k' Hm'].
    destruct (Forall2_lookup_r _ _ _ _ _ Hm Hm') as (? & _ & Hmo).
    by eapply measurement_of_length. }
  rewrite !nd_cell_jnp_array by (done || lia).
  unfold cell. rewrite Hsk, Hmk. cbn.
  split_and!; done.
Qed.

Lemma loader_emits_row_values_witness :
  exists setups meas,
    load_experimental_data (H := sample_numlib) sample_dataset = Ok (setups, meas) /\
    nd_cell setups 0 1 = Ok 2000%float /\
    nd_cell meas 1 1 = Ok 0.125%float /\
    (forall k i, retained_rows sample_dataset !! k = Some i ->
       exists px d0 d2 d3,
         cell sample_dataset i 0 = Ok d0 /\ cell sample_dataset i 2 = Ok d2 /\
         cell sample_dataset i 3 = Ok d3 /\
         PrimFloat.ltb 0.3%float d0 = true /\
         par_xs (H := sample_numlib) !! (i / 5) = Some px /\
         nd_cell setups k 0 = Ok px /\
         nd_cell setups k 1 = Ok (d3 * 1000)%float /\
         nd_cell meas k 0 = Ok d0 /\
         nd_cell meas k 1 = Ok d2) /\
    (forall k k' i i', retained_rows sample_dataset !! k = Some i ->
       retained_rows sample_dataset !! k' = Some i' -> k < k' -> i < i').
Proof.
  eexists _, _. split; [vm_compute; reflexivity|].
  split; [vm_compute; reflexivity|]. split; [vm_compute; reflexivity|].
  apply (loader_emits_row_values (H := sample_numlib) sample_dataset).
  vm_compute; reflexivity.
Defined.

(** The loop returned: every row it met had a growth rate to read. *)
Lemma for_each_load_rows_cells dataset pxs xs st st' :
  for_each xs (load_row dataset pxs) st = Ok st' ->
  forall i, i ∈ xs -> is_ok (cell dataset i 0) = true.
Proof.
  revert st. induction xs as [|i xs IH]; intros st Hrun j Hj.
  - by apply elem_of_nil in Hj.
  - cbn in Hrun. apply bind_ok in Hrun as (st1 & H1 & Hrest).
    apply elem_of_cons in Hj as [->|Hj]; [|by eapply IH].
    unfold load_row in H1. by destruct (cell dataset i 0).
Qed.

Lemma load_experimental_data_returns `{NumLib} (dataset : table) :
  (is_ok (load_experimental_data dataset) = true <->
   (forall i, i < length dataset -> is_ok (cell dataset i 0) = true) /\
   (forall i, i ∈ retained_rows dataset ->
      i / 5 < length par_xs /\
      is_ok (cell dataset i 2) = true /\ is_ok (cell dataset i 3) = true)) /\
  (is_ok (load_experimental_data dataset) = false ->
   load_experimental_data dataset = Raise IndexError).
Proof.
  split; [split|].
  - destruct (load_experimental_data dataset) as [[setups meas]|] eqn:E; [|done].
    intros _. apply load_experimental_data_ok in E as (r & Hr & _ & _). split.
    + intros i Hi. eapply for_each_load_rows_cells; [exact Hr|].
      apply elem_of_seq. lia.
    + intros i Hi. pose proof (load_rows_block_lt _ _ _ _ Hr Hi) as Hb.
      apply load_rows_spec in Hr as [Hs Hm].
      apply list_elem_of_lookup in Hi as [k Hk].
      destruct (Forall2_lookup_l _ _ _ _ _ Hs Hk) as (s & _ & px & d3 & _ & Hd3 & _).
      destruct (Forall2_lookup_l _ _ _ _ _ Hm Hk) as (m & _ & d0 & d2 & _ & Hd2 & _).
      by rewrite Hd2, Hd3.
  - intros [H0 Hk]. unfold load_experimental_data.
    assert (is_ok (load_rows dataset par_xs) = true) as Hok.
    { apply for_each_load_rows_ok.
      - intros i Hi%elem_of_seq. apply H0. lia.
      - intros i Hi%elem_of_seq Hr. apply Hk.
        unfold retained_rows. by rewrite list_elem_of_filter, elem_of_seq. }
    by destruct (load_rows dataset par_xs).
  - destruct (load_experimental_data dataset) as [|e] eqn:E; [done|].
    intros _. by rewrite (load_experimental_data_raise _ _ E).
Qed.

(** X2: the loader returns exactly when every row has a column 0 and
    every retained row has columns 2 and 3 and a block index inside the
    nutrient-quality sequence; whenever it fails, it is with an
    IndexError. *)
Theorem loader_returns_iff `{NumLib} (dataset : table) :
  (is_ok (load_experimental_data dataset) = true <->
   (forall i, i < length dataset -> is_ok (cell dataset i 0) = true) /\
   (forall i, i ∈ retained_rows dataset ->
      i / 5 < length par_xs /\
      is_ok (cell dataset i 2) = true /\ is_ok (cell dataset i 3) = true)) /\
  (is_ok (load_experimental_data dataset) = false ->
   load_experimental_data dataset = Raise IndexError).
Proof. apply load_experimental_data_returns. Qed.

(** X3: a dataset none of whose rows grows faster than the cutoff (the
    empty dataset among them) makes the loader return two empty arrays
    of shape (0,), not of shape (0, 2). *)
Theorem loader_nothing_retained `{NumLib} (dataset : table) :
  retained_rows dataset = [] ->
  (forall i, i < length dataset -> is_ok (cell dataset i 0) = true) ->
  load_experimental_data dataset = Ok (Arr1 [], Arr1 []) /\
  shape_of (Arr1 []) = Sh1 0.
Proof.
  intros Hnone H0. split; [|done].
  destruct (load_experimental_data_returns dataset) as [[_ Hok] _].
  destruct (load_experimental_data dataset) as [[setups meas]|] eqn:E.
  - apply load_experimental_data_ok in E as (r & Hr & -> & ->).
    apply load_rows_spec in Hr as [Hs Hm]. rewrite Hnone in Hs, Hm.
    apply Forall2_nil_inv_l in Hs, Hm. by rewrite Hs, Hm.
  - exfalso. assert (is_ok (Raise e : result (ndarray * ndarray)) = true); [|done].
    apply Hok. split; [done|]. rewrite Hnone. intros i Hi.
    by apply elem_of_nil in Hi.
Qed.

Lemma loader_nothing_retained_witness :
  load_experimental_data (H := sample_numlib)
    [ [0.125; 0; 0.5; 4]; [0.3; 0; 0.5; 8] ]%float
  = Ok (Arr1 [], Arr1 []) /\ shape_of (Arr1 []) = Sh1 0.
Proof.
  apply (loader_nothing_retained (H := sample_numlib)).
  - vm_compute; reflexivity.
  - intros [|[|i]] Hi; [reflexivity..|]. simpl in Hi. lia.
Defined.

(** ** The error scales and the initial states: edges and alignment *)

Lemma for_each_load_error_rows_none dataset error_dataset xs st :
  (forall i, i ∈ xs -> is_ok (cell dataset i 0) = true /\ retained dataset i <> true) ->
  for_each xs (load_error_row dataset error_dataset) st = Ok st.
Proof.
  induction xs as [|i xs IH]; intros Hxs; [done|].
  destruct (Hxs i) as [H0 Hk]; [by left|].
  assert (load_error_row dataset error_dataset i st = Ok st) as Hrow.
  { unfold load_error_row. unfold retained in Hk.
    destruct (cell dataset i 0) as [d0|]; [|done]. cbn [mbind result_bind].
    destruct (above_cutoff d0); [by destruct Hk|reflexivity]. }
  cbn [for_each]. rewrite Hrow. cbn [mbind result_bind].
  apply IH. intros j Hj. apply Hxs. by right.
Qed.

(** X4: when no row of the dataset is retained, line 158 raises: the
    empty error array has shape (0,), which does not broadcast against
    the (1, 2) row of means. *)
Theorem exp_errors_raise_when_nothing_retained `{NumLib}
    (dataset error_dataset : table) (col0 col2 : list float) :
  retained_rows dataset = [] ->
  (forall i, i < length dataset -> is_ok (cell dataset i 0) = true) ->
  column error_dataset 0 = Ok col0 ->
  column error_dataset 2 = Ok col2 ->
  load_exp_errors dataset error_dataset = Raise ShapeError.
Proof.
  intros Hnone H0 Hc0 Hc2. unfold load_exp_errors, load_error_rows, for_range.
  rewrite for_each_load_error_rows_none.
  - cbn. rewrite Hc0, Hc2. done.
  - intros i Hi. pose proof Hi as Hlt%elem_of_seq. split; [apply H0; lia|].
    intros Hr. assert (i ∈ retained_rows dataset) as Hin.
    { unfold retained_rows. by rewrite list_elem_of_filter. }
    rewrite Hnone in Hin. by apply elem_of_nil in Hin.
Qed.

Lemma exp_errors_raise_when_nothing_retained_witness :
  load_exp_errors (H := sample_numlib)
    [ [0.125; 0; 0.5; 4]; [0.3; 0; 0.5; 8] ]%float
    [ [0.5; 0; 0.25; 0; 3; 3]; [0.25; 0; 0.125; 0; 3; 2] ]%float
  = Raise ShapeError.
Proof.
  eapply (exp_errors_raise_when_nothing_retained (H := sample_numlib)).
  - vm_compute; reflexivity.
  - intros [|[|i]] Hi; [reflexivity..|]. simpl in Hi. lia.
  - vm_compute; reflexivity.
  - vm_compute; reflexivity.
Defined.

(** What the constructor returns, for a default vector of any length. *)
Lemma construct_x0s_result (ls ld lx : loc) (h h' : heap)
    (setups : ndarray) (d : list float) :
  h !! ls = Some setups ->
  h !! ld = Some (Arr1 d) ->
  construct_x0s ls ld h = Ok (lx, h') ->
  h ⊆ h' /\ h !! lx = None /\
  exists c srows rows,
    setups = Arr2 c srows /\ 0 < c /\ d <> [] /\
    h' !! lx = Some (Arr2 (length d) rows) /\
    Forall2 (fun setup row => exists s hh,
               setup !! 0 = Some s /\ setup !! (1 `min` (c - 1)) = Some hh /\
               row = <[8 := hh]> (<[7 := s]> d))
      srows rows.
Proof.
  intros Hls Hld Hrun. unfold construct_x0s in Hrun.
  apply prog_bind_ok in Hrun as (n & ha & Hstep & Hrun).
  apply obj_shape0_ok in Hstep as (? & Hs & -> & ->).
  rewrite Hls in Hs. apply (inj Some) in Hs as <-.
  apply prog_bind_ok in Hrun as (k & hb & Hstep & Hrun).
  apply obj_shape0_ok in Hstep as (? & Hd & -> & ->).
  rewrite Hld in Hd. apply (inj Some) in Hd as <-.
  apply prog_bind_ok in Hrun as (l1 & h1 & Hstep & Hrun).
  apply new_ok in Hstep as (Hn1 & Hsub1 & Hones).
  apply prog_bind_ok in Hrun as (l2 & h2 & Hstep & Hrun).
  apply obj_multiply_ok in Hstep as (? & ? & r1 & Ha & Hb & Hr1 & Hn2 & Hsub2 & Hl2).
  rewrite Hones in Ha. apply (inj Some) in Ha as <-.
  rewrite (lookup_weaken _ _ _ _ Hld Hsub1) in Hb. apply (inj Some) in Hb as <-.
  change (shape0 (Arr1 d)) with (length d) in Hr1.
  rewrite jnp_multiply_ones_vector in Hr1. injection Hr1 as <-.
  assert (h ⊆ h2) as Hsub02 by (by etrans).
  apply prog_bind_ok in Hrun as (l3 & h3 & Hstep & Hrun).
  apply obj_slice_col_ok in Hstep as (? & col0 & Ha & Hc0 & Hn3 & Hsub3 & Hl3).
  rewrite (lookup_weaken _ _ _ _ Hls Hsub02) in Ha. apply (inj Some) in Ha as <-.
  apply slice_col_ok in Hc0 as (c & srows & -> & Hc & Hc0).
  change (0 `min` (c - 1)) with 0 in Hc0.
  assert (h ⊆ h3) as Hsub03 by (by etrans).
  apply prog_bind_ok in Hrun as (l4 & h4 & Hstep & Hrun).
  apply obj_at_col_set_ok in Hstep as (? & ? & r2 & Ha & Hv & Hr2 & Hn4 & Hsub4 & Hl4).
  rewrite (lookup_weaken _ _ _ _ Hl2 Hsub3) in Ha. apply (inj Some) in Ha as <-.
  rewrite Hl3 in Hv. injection Hv as <-.
  change (shape0 (Arr2 c srows)) with (length srows) in Hr2.
  assert (0 < length d) as Hd.
  { destruct d; [|cbn; lia]. cbn [at_col_set length] in Hr2.
    by rewrite decide_True in Hr2. }
  rewrite at_col_set_rows in Hr2
    by (lia || by rewrite length_replicate, (column_length _ _ _ Hc0)).
  injection Hr2 as <-.
  assert (h ⊆ h4) as Hsub04 by (by etrans).
  apply prog_bind_ok in Hrun as (l5 & h5 & Hstep & Hrun).
  apply obj_slice_col_ok in Hstep as (? & col1 & Ha & Hc1 & Hn5 & Hsub5 & Hl5).
  rewrite (lookup_weaken _ _ _ _ Hls Hsub04) in Ha. apply (inj Some) in Ha as <-.
  cbn [slice_col] in Hc1. rewrite decide_False in Hc1 by lia.
  assert (h ⊆ h5) as Hsub05 by (by etrans).
  apply obj_at_col_set_ok in Hrun as (? & ? & r3 & Ha & Hv & Hr3 & Hn6 & Hsub6 & Hl6).
  rewrite (lookup_weaken _ _ _ _ Hl4 Hsub5) in Ha. apply (inj Some) in Ha as <-.
  rewrite Hl5 in Hv. injection Hv as <-.
  rewrite at_col_set_rows in Hr3; [|lia|].
  2:{ rewrite length_zip_with, length_replicate,
        (column_length _ _ _ Hc0), (column_length _ _ _ Hc1). lia. }
  injection Hr3 as <-.
  split_and!.
  - by etrans.
  - destruct (h !! lx) eqn:E; [|done].
    by rewrite (lookup_weaken _ _ _ _ E Hsub05) in Hn6.
  - exists c, srows. eexists. split_and!; [done|done| |done|].
    + intros ->. cbn in Hd. lia.
    + apply x0s_rows; eauto using column_lookup.
Qed.

(** X5: the four tables handed to the objective are aligned: when the
    loader, the error scales and the constructor all return, [setups],
    [exp_measurements] and [exp_errors] have shape (n, 2) and [x0s] has
    n rows of the length of the default vector, where n, at least 1, is
    the number of retained dataset rows. *)
Theorem fitting_tables_aligned `{NumLib} (dataset error_dataset : table)
    (setups meas errs : ndarray) (x0_default : list float)
    (ls ld lx : loc) (h h' : heap) :
  load_experimental_data dataset = Ok (setups, meas) ->
  load_exp_errors dataset error_dataset = Ok errs ->
  h !! ls = Some setups ->
  h !! ld = Some (Arr1 x0_default) ->
  construct_x0s ls ld h = Ok (lx, h') ->
  let n := length (retained_rows dataset) in
  0 < n /\
  shape_of setups = Sh2 n 2 /\
  shape_of meas = Sh2 n 2 /\
  shape_of errs = Sh2 n 2 /\
  exists x0s, h' !! lx = Some x0s /\ shape_of x0s = Sh2 n (length x0_default).
Proof.
  intros Hload Herr Hls Hld Hrun n.
  apply load_experimental_data_ok in Hload as (r & Hr & -> & ->).
  apply load_rows_spec in Hr as [Hs Hm].
  pose proof (Forall2_length _ _ _ Hs) as Hlen_s.
  pose proof (Forall2_length _ _ _ Hm) as Hlen_m.
  fold n in Hlen_s, Hlen_m.
  (* the error scales exist, so some row was retained *)
  assert (0 < n /\ shape_of errs = Sh2 n 2) as [Hn Herrs].
  { unfold load_exp_errors in Herr.
    apply bind_ok in Herr as (er & Her & Herr).
    apply bind_ok in Herr as (col0 & _ & Herr).
    apply bind_ok in Herr as (col2 & _ & Herr).
    apply load_error_rows_spec in Her as [Hlen Hall]. fold n in Hlen.
    destruct (read_unscaled_errors er) as [|u us];
      cbn [jnp_array shape_of] in Herr.
    - by rewrite jnp_multiply_ones_empty in Herr.
    - apply Forall_cons_1 in Hall as [Hu _]. rewrite Hu in Herr.
      rewrite jnp_multiply_ones_row in Herr by done.
      assert (errs = Arr2 2 (replicate (length (u :: us))
                               [np_mean col0; np_mean col2])) as ->
        by congruence.
      cbn [shape_of]. rewrite length_replicate, Hlen.
      split; [|done]. rewrite <- Hlen. cbn. lia. }
  assert (forall rows : table, length rows = n ->
            Forall (fun r0 => length r0 = 2) rows ->
            shape_of (jnp_array rows) = Sh2 n 2) as Hshape.
  { intros [|r0 rows] Hl Hall; [cbn in Hl; lia|].
    apply Forall_cons_1 in Hall as [Hr0 _]. cbn [jnp_array shape_of].
    by rewrite Hr0, Hl. }
  split_and!; [done| | |done|].
  - apply Hshape; [done|]. apply Forall_forall. intros s' Hs'.
    apply list_elem_of_lookup in Hs' as [k' Hs'].
    destruct (Forall2_lookup_r _ _ _ _ _ Hs Hs') as (? & _ & Hso).
    by eapply setup_of_length.
  - apply Hshape; [done|]. apply Forall_forall. intros m' Hm'.
    apply list_elem_of_lookup in Hm' as [k' Hm'].
    destruct (Forall2_lookup_r _ _ _ _ _ Hm Hm') as (? & _ & Hmo).
    by eapply measurement_of_length.
  - destruct (construct_x0s_result _ _ _ _ _ _ _ Hls Hld Hrun)
      as (_ & _ & c & srows & rows & Hsetups & _ & _ & Hlx & Hrows).
    eexists. split; [exact Hlx|]. cbn [shape_of].
    rewrite <- (Forall2_length _ _ _ Hrows).
    destruct (read_setups r) as [|s0 ss]; [cbn in Hlen_s; lia|].
    cbn [jnp_array] in Hsetups. injection Hsetups as _ <-. by rewrite <- Hlen_s.
Qed.

Lemma fitting_tables_aligned_witness :
  exists meas errs lx h',
    load_experimental_data (H := sample_numlib) sample_dataset
    = Ok (sample_loaded_setups, meas) /\
    load_exp_errors (H := sample_numlib) sample_dataset sample_error_dataset = Ok errs /\
    construct_x0s 1%positive 2%positive sample_loaded_heap = Ok (lx, h') /\
    let n := length (retained_rows sample_dataset) in
    0 < n /\
    shape_of sample_loaded_setups = Sh2 n 2 /\
    shape_of meas = Sh2 n 2 /\
    shape_of errs = Sh2 n 2 /\
    exists x0s, h' !! lx = Some x0s /\
      shape_of x0s = Sh2 n (length sample_x0_default).
Proof.
  eexists _, _, _, _.
  split; [vm_compute; reflexivity|].
  split; [vm_compute; reflexivity|].
  split; [vm_compute; reflexivity|].
  eapply (fitting_tables_aligned (H := sample_numlib) sample_dataset
            sample_error_dataset sample_loaded_setups _ _ sample_x0_default
            1%positive 2%positive _ sample_loaded_heap).
  - vm_compute; reflexivity.
  - vm_compute; reflexivity.
  - vm_compute; reflexivity.
  - vm_compute; reflexivity.
  - vm_compute; reflexivity.
Defined.

(** *** When the constructor returns *)

Lemma prog_bind_run {A B} (m : prog A) (f : A -> prog B) h a h1 :
  m h = Ok (a, h1) -> (m ≫= f) h = f a h1.
Proof. unfold mbind, prog_bind. by intros ->. Qed.

Lemma prog_bind_raise {A B} (m : prog A) (f : A -> prog B) h e :
  m h = Raise e -> (m ≫= f) h = Raise e.
Proof. unfold mbind, prog_bind. by intros ->. Qed.

Lemma get_run (h : heap) l a : h !! l = Some a -> get l h = Ok (a, h).
Proof. unfold get. by intros ->. Qed.

Lemma new_run a (h : heap) :
  exists l h', new a h = Ok (l, h') /\ h ⊆ h' /\ h' !! l = Some a.
Proof.
  eexists _, _. split; [reflexivity|].
  split; [|apply lookup_insert_eq].
  apply insert_subseteq, not_elem_of_dom, is_fresh.
Qed.

Lemma obj_shape0_run (h : heap) l a :
  h !! l = Some a -> obj_shape0 l h = Ok (shape0 a, h).
Proof.
  intros Hl. unfold obj_shape0. by rewrite (prog_bind_run _ _ _ _ _ (get_run _ _ _ Hl)).
Qed.

Lemma obj_multiply_run (h : heap) la lb a b r :
  h !! la = Some a -> h !! lb = Some b -> jnp_multiply a b = Ok r ->
  exists l h', obj_multiply la lb h = Ok (l, h') /\ h ⊆ h' /\ h' !! l = Some r.
Proof.
  intros Ha Hb Hr. unfold obj_multiply.
  rewrite (prog_bind_run _ _ _ _ _ (get_run _ _ _ Ha)).
  rewrite (prog_bind_run _ _ _ _ _ (get_run _ _ _ Hb)).
  rewrite Hr. apply new_run.
Qed.

Lemma obj_slice_col_run (h : heap) la j a :
  h !! la = Some a ->
  match slice_col a j with
  | Ok v => exists l h', obj_slice_col la j h = Ok (l, h') /\ h ⊆ h' /\
                         h' !! l = Some (Arr1 v)
  | Raise e => obj_slice_col la j h = Raise e
  end.
Proof.
  intros Ha. unfold obj_slice_col.
  rewrite (prog_bind_run _ _ _ _ _ (get_run _ _ _ Ha)).
  destruct (slice_col a j) as [v|e]; [apply new_run|done].
Qed.

Lemma obj_at_col_set_run (h : heap) la j lv a v r :
  h !! la = Some a -> h !! lv = Some (Arr1 v) -> at_col_set a j v = Ok r ->
  exists l h', obj_at_col_set la j lv h = Ok (l, h') /\ h ⊆ h' /\ h' !! l = Some r.
Proof.
  intros Ha Hv Hr. unfold obj_at_col_set.
  rewrite (prog_bind_run _ _ _ _ _ (get_run _ _ _ Ha)).
  rewrite (prog_bind_run _ _ _ _ _ (get_run _ _ _ Hv)).
  rewrite Hr. apply new_run.
Qed.

Lemma obj_at_col_set_raise (h : heap) la j lv a v e :
  h !! la = Some a -> h !! lv = Some (Arr1 v) -> at_col_set a j v = Raise e ->
  obj_at_col_set la j lv h = Raise e.
Proof.
  intros Ha Hv Hr. unfold obj_at_col_set.
  rewrite (prog_bind_run _ _ _ _ _ (get_run _ _ _ Ha)).
  rewrite (prog_bind_run _ _ _ _ _ (get_run _ _ _ Hv)).
  by rewrite Hr.
Qed.

Lemma column_is_ok (t : table) j :
  Forall (fun row => j < length row) t -> exists v, column t j = Ok v.
Proof.
  intros Hrows. unfold column.
  destruct (mapM_is_Some_2 (fun row : list float => row !! j) t) as [v ->]; [|eauto].
  eapply Forall_impl; [exact Hrows|]. intros row Hrow. by apply lookup_lt_is_Some_2.
Qed.

(** X6: on a well-shaped [setups] array, the constructor returns exactly
    when that array has two axes and at least one column and the default
    state vector is not empty; in particular it raises on the
    shape-(0,) array the loader emits when no row is retained, and it
    returns on setups of a single column, which JAX then reads for both
    reserved entries.  Its only exception is IndexError. *)
Theorem construct_x0s_returns_iff (ls ld : loc) (h : heap)
    (setups : ndarray) (x0_default : list float) :
  h !! ls = Some setups ->
  h !! ld = Some (Arr1 x0_default) ->
  well_shaped setups ->
  (is_ok (construct_x0s ls ld h) = true <->
   exists c srows, setups = Arr2 c srows /\ 0 < c /\ x0_default <> []) /\
  (is_ok (construct_x0s ls ld h) = false ->
   construct_x0s ls ld h = Raise IndexError).
Proof.
  intros Hls Hld Hwf.
  (* the steps that always succeed *)
  unfold construct_x0s.
  rewrite (prog_bind_run _ _ _ _ _ (obj_shape0_run _ _ _ Hls)).
  assert (obj_len ld h = Ok (length x0_default, h)) as Hlen
    by exact (obj_shape0_run _ _ _ Hld).
  rewrite (prog_bind_run _ _ _ _ _ Hlen).
  destruct (new_run (np_ones (Sh2 (shape0 setups) (length x0_default))) h)
    as (l1 & h1 & Hnew & Hsub1 & Hl1).
  unfold obj_ones. rewrite (prog_bind_run _ _ _ _ _ Hnew).
  pose proof (jnp_multiply_ones_vector (shape0 setups) x0_default) as Hmul.
  destruct (obj_multiply_run h1 l1 ld _ _ _ Hl1 (lookup_weaken _ _ _ _ Hld Hsub1) Hmul)
    as (l2 & h2 & Hrun2 & Hsub2 & Hl2).
  rewrite (prog_bind_run _ _ _ _ _ Hrun2).
  assert (h ⊆ h2) as Hsub02 by (by etrans).
  pose proof (obj_slice_col_run h2 ls 0 setups (lookup_weaken _ _ _ _ Hls Hsub02))
    as Hrun3.
  (* [setups[:, 0]] *)
  destruct setups as [xs|c srows].
  { cbn [slice_col] in Hrun3. rewrite (prog_bind_raise _ _ _ _ Hrun3). split; [|done].
    split; [done|]. by intros (? & ? & ? & _). }
  cbn [slice_col] in Hrun3. cbn [well_shaped] in Hwf.
  destruct (decide (c = 0)) as [Hc0|Hc0].
  { rewrite (prog_bind_raise _ _ _ _ Hrun3). split; [|done]. split; [done|].
    intros (? & ? & [= <- <-] & ? & _). lia. }
  destruct (column_is_ok srows 0) as [col0 Hcol0].
  { eapply Forall_impl; [exact Hwf|]. intros row ->. lia. }
  change (0 `min` (c - 1)) with 0 in Hrun3. rewrite Hcol0 in Hrun3.
  destruct Hrun3 as (l3 & h3 & Hrun3 & Hsub3 & Hl3).
  rewrite (prog_bind_run _ _ _ _ _ Hrun3).
  (* [x0s_unswapped.at[:, 7].set(...)] *)
  destruct x0_default as [|d0 d].
  { rewrite (prog_bind_raise _ _ _ IndexError).
    - split; [|done]. split; [done|]. by intros (? & ? & _ & _ & ?).
    - eapply obj_at_col_set_raise;
        [by eapply lookup_weaken|exact Hl3|reflexivity]. }
  set (x0_default := d0 :: d) in *.
  assert (0 < length x0_default) as Hd by (cbn; lia).
  assert (at_col_set (Arr2 (length x0_default) (replicate (shape0 (Arr2 c srows)) x0_default))
            7 col0 = Ok (Arr2 (length x0_default)
                           (zip_with (fun row x => <[7 := x]> row)
                              (replicate (length srows) x0_default) col0))) as Hset1.
  { apply at_col_set_rows; [done|].
    by rewrite length_replicate, (column_length _ _ _ Hcol0). }
  destruct (obj_at_col_set_run h3 l2 7 l3 _ _ _
              (lookup_weaken _ _ _ _ Hl2 Hsub3) Hl3 Hset1)
    as (l4 & h4 & Hrun4 & Hsub4 & Hl4).
  rewrite (prog_bind_run _ _ _ _ _ Hrun4).
  assert (h ⊆ h4) as Hsub04 by (by repeat (etrans; [eassumption|])).
  (* [setups[:, 1]], clamped to the last column *)
  pose proof (obj_slice_col_run h4 ls 1 _ (lookup_weaken _ _ _ _ Hls Hsub04))
    as Hrun5.
  cbn [slice_col] in Hrun5. rewrite decide_False in Hrun5 by done.
  destruct (column_is_ok srows (1 `min` (c - 1))) as [col1 Hcol1].
  { eapply Forall_impl; [exact Hwf|]. intros row ->. lia. }
  rewrite Hcol1 in Hrun5.
  destruct Hrun5 as (l5 & h5 & Hrun5 & Hsub5 & Hl5).
  rewrite (prog_bind_run _ _ _ _ _ Hrun5).
  edestruct (obj_at_col_set_run h5 l4 8 l5) as (l6 & h6 & Hrun6 & _);
    [by eapply lookup_weaken|exact Hl5| |].
  { apply at_col_set_rows; [done|].
    rewrite length_zip_with, length_replicate,
      (column_length _ _ _ Hcol0), (column_length _ _ _ Hcol1). lia. }
  rewrite Hrun6. split; [|done]. split; [|done].
  intros _. exists c, srows. split_and!; [done|lia|done].
Qed.

Lemma construct_x0s_returns_iff_witness :
  is_ok (construct_x0s 1%positive 2%positive sample_heap) = true /\
  construct_x0s 1%positive 2%positive
    (<[1%positive := Arr1 []]> (<[2%positive := Arr1 sample_x0_default]> ∅))
  = Raise IndexError /\
  construct_x0s 1%positive 2%positive
    (<[1%positive := sample_setups]> (<[2%positive := Arr1 []]> ∅))
  = Raise IndexError /\
  (exists lx h', construct_x0s 1%positive 2%positive
     (<[1%positive := Arr2 1 [[0.25]; [0.5]]%float]>
        (<[2%positive := Arr1 sample_x0_default]> ∅)) = Ok (lx, h') /\
     h' !! lx = Some (Arr2 10
       [ [10; 11; 12; 13; 14; 15; 16; 0.25; 0.25; 19];
         [10; 11; 12; 13; 14; 15; 16; 0.5; 0.5; 19] ]%float)).
Proof.
  pose proof (construct_x0s_returns_iff 1%positive 2%positive sample_heap
                sample_setups sample_x0_default) as [[_ Hok] _];
    [vm_compute; reflexivity..| |].
  { repeat constructor. }
  pose proof (construct_x0s_returns_iff 1%positive 2%positive
                (<[1%positive := Arr1 []]> (<[2%positive := Arr1 sample_x0_default]> ∅))
                (Arr1 []) sample_x0_default) as [_ Hfail];
    [vm_compute; reflexivity..|done|].
  pose proof (construct_x0s_returns_iff 1%positive 2%positive
                (<[1%positive := sample_setups]> (<[2%positive := Arr1 []]> ∅))
                sample_setups []) as [_ Hempty];
    [vm_compute; reflexivity..| |].
  { repeat constructor. }
  split_and!.
  - apply Hok. exists 2, [ [0.25; 2000]; [0.5; 0] ]%float.
    split_and!; [reflexivity|lia|done].
  - apply Hfail. vm_compute; reflexivity.
  - apply Hempty. vm_compute; reflexivity.
  - eexists _, _. split; vm_compute; reflexivity.
Defined.

(** ** The sweep: what it prints, when it returns *)

Lemma length_grid_pairs n m :
  length (flat_map (fun i => map (fun j => (i, j)) (seq 0 m)) (seq 0 n)) = n * m.
Proof.
  generalize 0 at 2. induction n as [|n IH]; intros a; [done|].
  cbn [seq flat_map]. rewrite length_app, length_map, length_seq, IH. lia.
Qed.

Lemma elem_of_grid_pairs a n m p :
  p ∈ flat_map (fun i => map (fun j => (i, j)) (seq 0 m)) (seq a n) ->
  a <= p.1 < a + n.
Proof.
  intros Hp%list_elem_of_In%in_flat_map. destruct Hp as (i & Hi%in_seq & Hp).
  apply in_map_iff in Hp as (j & <- & _). simpl. lia.
Qed.

Lemma NoDup_grid_pairs a n m :
  NoDup (flat_map (fun i => map (fun j => (i, j)) (seq 0 m)) (seq a n)).
Proof.
  revert a. induction n as [|n IH]; intros a; [constructor|].
  cbn [seq flat_map]. apply NoDup_app. split_and!.
  - change (NoDup (pair a <$> seq 0 m)). apply (NoDup_fmap_2 _), NoDup_seq.
  - intros p Hp%list_elem_of_In%in_map_iff Hp'%elem_of_grid_pairs.
    destruct Hp as (j & <- & _). simpl in Hp'. lia.
  - apply IH.
Qed.

(** X7: a sweep that returns has printed every index pair of the grid
    once, row after row; for the two 51-point axes, 2601 pairs. *)
Theorem sweep_prints_grid_row_major `{NumLib} `{!NumLibSpec}
    (minus_sos : list float -> result float) (par : gmap string float)
    (pv Kr kr : list float) (st : sweep_state) :
  K_range par = Ok Kr ->
  kcm_range par = Ok kr ->
  grid_sweep minus_sos pv Kr kr = Ok st ->
  stdout st = flat_map (fun i => map (fun j => (i, j)) (seq 0 51)) (seq 0 51) /\
  length (stdout st) = 2601 /\
  NoDup (stdout st).
Proof.
  intros HK Hk Hrun.
  apply bind_ok in HK as (K_e & _ & [= <-]).
  apply bind_ok in Hk as (kcm & _ & [= <-]).
  apply grid_sweep_spec in Hrun as (_ & _ & Hout).
  rewrite !log_range_length in Hout. rewrite Hout.
  split_and!; [done|by rewrite length_grid_pairs|].
  apply NoDup_grid_pairs.
Qed.

Lemma sweep_prints_grid_row_major_witness :
  exists Kr kr st,
    K_range (H := sample_numlib) sample_par = Ok Kr /\
    kcm_range (H := sample_numlib) sample_par = Ok kr /\
    grid_sweep sample_minus_sos [0; 0; 0; 0]%float Kr kr = Ok st /\
    stdout st = flat_map (fun i => map (fun j => (i, j)) (seq 0 51)) (seq 0 51) /\
    length (stdout st) = 2601 /\
    NoDup (stdout st).
Proof.
  eexists _, _, _.
  split; [vm_compute; reflexivity|].
  split; [vm_compute; reflexivity|].
  split; [vm_compute; reflexivity|].
  eapply (sweep_prints_grid_row_major (H := sample_numlib) sample_minus_sos
            sample_par [0; 0; 0; 0]%float); vm_compute; reflexivity.
Defined.

Lemma for_each_raise_inv {S} (P : S -> Prop) (xs : list nat)
    (body : nat -> S -> result S) st e :
  P st ->
  (forall i s s', i ∈ xs -> P s -> body i s = Ok s' -> P s') ->
  for_each xs body st = Raise e ->
  exists i s, i ∈ xs /\ P s /\ body i s = Raise e.
Proof.
  revert st. induction xs as [|i xs IH]; intros st HP Hstep; [done|].
  cbn [for_each]. destruct (body i st) as [s1|e1] eqn:E1; cbn.
  - intros Hrest. destruct (IH s1) as (j & s & Hj & Hs & Hbody); [| |done|].
    + eapply Hstep; [by left|done..].
    + intros j s s' Hj. apply Hstep. by right.
    + exists j, s. split_and!; [by right|done..].
  - intros [= <-]. exists i, st. split_and!; [by left|done..].
Qed.

Section SweepErrors.
Context (minus_sos : list float -> result float).
Context (pv Kr kr : list float).

(** Inside the grid and on a surface of the right shape, only the
    objective can make a cell fail. *)
Lemma sweep_cell_raise i j st e :
  surface_shaped Kr kr st -> i < length Kr -> j < length kr ->
  sweep_cell minus_sos pv Kr kr i j st = Raise e ->
  exists K k, Kr !! i = Some K /\ kr !! j = Some k /\
    minus_sos (grid_parvec pv K k) = Raise e.
Proof.
  intros (rows & Hll & Hn & Hm) Hi Hj. unfold sweep_cell, item.
  destruct (lookup_lt_is_Some_2 Kr i Hi) as [K HK].
  destruct (lookup_lt_is_Some_2 kr j Hj) as [k Hk].
  rewrite HK, Hk. cbn [of_option mbind result_bind].
  destruct (minus_sos (grid_parvec pv K k)) as [v|e'] eqn:Ev; cbn [mbind result_bind].
  - rewrite Hll. cbn [nd_set_cell]. rewrite decide_True by done.
    pose proof (set_cell_is_ok rows i j v _ _ Hn Hm Hi Hj) as Hok.
    by destruct (set_cell rows i j v).
  - intros [= <-]. eauto.
Qed.

Lemma grid_sweep_raise e :
  grid_sweep minus_sos pv Kr kr = Raise e ->
  exists i j K k, Kr !! i = Some K /\ kr !! j = Some k /\
    minus_sos (grid_parvec pv K k) = Raise e.
Proof.
  unfold grid_sweep, for_range. intros Hrun.
  apply (for_each_raise_inv (surface_shaped Kr kr)) in Hrun
    as (i & s & Hi%elem_of_seq & Hs & Hrow).
  - apply (for_each_raise_inv (surface_shaped Kr kr)) in Hrow
      as (j & s' & Hj%elem_of_seq & Hs' & Hcell); [|done|].
    + apply sweep_cell_raise in Hcell as (K & k & ? & ? & ?); [|done|lia..].
      by exists i, j, K, k.
    + intros j s1 s2 _ Hs1 Hcell. by eapply sweep_cell_spec.
  - apply surface_shaped_zeros.
  - intros i s s' _ Hs Hrow. by eapply sweep_row_spec.
Qed.

End SweepErrors.

Lemma grid_sweep_returns_inv (minus_sos : list float -> result float)
    (pv Kr kr : list float) :
  is_ok (grid_sweep minus_sos pv Kr kr) = true <->
  forall i j K k, Kr !! i = Some K -> kr !! j = Some k ->
    is_ok (minus_sos (grid_parvec pv K k)) = true.
Proof.
  split.
  - destruct (grid_sweep minus_sos pv Kr kr) as [st|] eqn:E; [|done].
    intros _ i j K k HK Hk.
    apply grid_sweep_spec in E as (_ & Hcells & _).
    destruct (Hcells i j) as (K' & k' & v & HK' & Hk' & Hv & _);
      [by eapply lookup_lt_Some..|].
    rewrite HK in HK'. rewrite Hk in Hk'.
    injection HK' as <-. injection Hk' as <-. by rewrite Hv.
  - intros Hall.
    destruct (grid_sweep minus_sos pv Kr kr) as [st|e] eqn:E; [done|].
    apply grid_sweep_raise in E as (i & j & K & k & HK & Hk & Hraise).
    specialize (Hall i j K k HK Hk). by rewrite Hraise in Hall.
Qed.

(** X8: the sweep returns exactly when the objective returns at every
    grid point, and an exception of the sweep is one the objective
    raised at a grid point: the indexing and the stores of the driver
    never fail. *)
Theorem grid_sweep_returns_iff (minus_sos : list float -> result float)
    (pv Kr kr : list float) :
  (is_ok (grid_sweep minus_sos pv Kr kr) = true <->
   forall i j K k, Kr !! i = Some K -> kr !! j = Some k ->
     is_ok (minus_sos (grid_parvec pv K k)) = true) /\
  (forall e, grid_sweep minus_sos pv Kr kr = Raise e ->
     exists i j K k, Kr !! i = Some K /\ kr !! j = Some k /\
       minus_sos (grid_parvec pv K k) = Raise e).
Proof.
  split; [apply grid_sweep_returns_inv|apply grid_sweep_raise].
Qed.

(** ** Writing and reading the result surface *)

Lemma surface_representable Kr kr st :
  surface_shaped Kr kr st -> length Kr = 51 -> length kr = 51 ->
  representable (loglikes st).
Proof.
  intros (rows & -> & Hn & Hrows) HK Hk. cbn [representable].
  rewrite Hn, HK, Hk. split_and!; [done..|]. by rewrite <- Hk.
Qed.

(** The baseline vector exists when the five parameters are there and
    [a_a] is not zero; the two axes then exist as well. *)
Lemma parvec_default_ok_inv `{NumLib} (par : gmap string float) pv :
  parvec_default par = Ok pv ->
  exists a_r a_a K_e nu_max kcm,
    par !! "a_r" = Some a_r /\ par !! "a_a" = Some a_a /\
    PrimFloat.eqb a_a 0 = false /\
    par !! "K_e" = Some K_e /\ par !! "nu_max" = Some nu_max /\
    par !! "kcm" = Some kcm /\
    K_range par = Ok (log_range K_e) /\ kcm_range par = Ok (log_range kcm).
Proof.
  unfold parvec_default, K_range, kcm_range, par_get, py_div. intros Hrun.
  destruct (par !! "a_r") as [a_r|]; [|done].
  destruct (par !! "a_a") as [a_a|]; [|done].
  cbn [of_option mbind result_bind] in Hrun.
  destruct (PrimFloat.eqb a_a 0) eqn:Ez; [done|].
  destruct (par !! "K_e") as [K_e|]; [|done].
  destruct (par !! "nu_max") as [nu_max|]; [|done].
  destruct (par !! "kcm") as [kcm|]; [|done].
  exists a_r, a_a, K_e, nu_max, kcm. by split_and!.
Qed.

(** What a sweeping run that returned has done. *)
Lemma obtain_loglikes_sweep_ok `{NumLib}
    (pickle_dumps : ndarray -> list Byte.byte)
    (pickle_loads : list Byte.byte -> result ndarray)
    (minus_sos : list float -> result float) (par : gmap string float)
    (fs fs' : file_system) (surface : ndarray) :
  obtain_loglikes pickle_dumps pickle_loads true minus_sos par fs
  = Ok (surface, fs') ->
  exists pv K_e kcm st,
    parvec_default par = Ok pv /\
    K_range par = Ok (log_range K_e) /\ kcm_range par = Ok (log_range kcm) /\
    grid_sweep minus_sos pv (log_range K_e) (log_range kcm) = Ok st /\
    surface = loglikes st /\
    pickle_dir ∈ dirs fs /\
    fs' = {| dirs := dirs fs;
             contents := <[pickle_file_name := pickle_dumps surface]> (contents fs) |}.
Proof.
  intros Hrun. unfold obtain_loglikes in Hrun.
  apply bind_ok in Hrun as (pv & Hpv & Hrun).
  destruct (parvec_default_ok_inv _ _ Hpv)
    as (a_r & a_a & K_e & nu_max & kcm & _ & _ & _ & _ & _ & _ & HK & Hk).
  rewrite HK, Hk in Hrun. cbn [mbind result_bind] in Hrun.
  apply bind_ok in Hrun as (st & Hst & Hrun).
  apply bind_ok in Hrun as (fs1 & Hdump & [= <- <-]).
  unfold dump_loglikes in Hdump. case_decide as Hdir; [|done].
  injection Hdump as <-. exists pv, K_e, kcm, st. by split_and!.
Qed.

(** The sweeping run returns when the baseline vector exists, the
    objective returns at every candidate vector and the output directory
    exists. *)
Lemma obtain_loglikes_sweep_returns `{NumLib}
    (pickle_dumps : ndarray -> list Byte.byte)
    (pickle_loads : list Byte.byte -> result ndarray)
    (minus_sos : list float -> result float) (par : gmap string float)
    (fs : file_system) :
  is_ok (parvec_default par) = true ->
  (forall p, is_ok (minus_sos p) = true) ->
  pickle_dir ∈ dirs fs ->
  exists surface fs',
    obtain_loglikes pickle_dumps pickle_loads true minus_sos par fs
    = Ok (surface, fs').
Proof.
  intros Hpar Hobj Hdir. unfold obtain_loglikes.
  destruct (parvec_default par) as [pv|] eqn:Epv; [|done].
  destruct (parvec_default_ok_inv _ _ Epv)
    as (a_r & a_a & K_e & nu_max & kcm & _ & _ & _ & _ & _ & _ & -> & ->).
  cbn [mbind result_bind].
  pose proof (grid_sweep_returns minus_sos pv (log_range K_e) (log_range kcm) Hobj)
    as Hok.
  destruct (grid_sweep minus_sos pv (log_range K_e) (log_range kcm)) as [st|];
    [|done].
  cbn [mbind result_bind]. unfold dump_loglikes. rewrite decide_True by done.
  cbn [mbind result_bind]. eauto.
Qed.

(** X9: a sweeping run that returned found the output directory, and
    changed nothing of the file system but the pickle file, which now
    holds the dumped surface.  The surface is a well-shaped 51 by 51
    array, so that a pickle that gives such arrays back hands a run that
    reads the file instead of sweeping the very same array. *)
Theorem result_surface_round_trip `{NumLib} `{!NumLibSpec}
    (pickle_dumps : ndarray -> list Byte.byte)
    (pickle_loads : list Byte.byte -> result ndarray)
    (minus_sos : list float -> result float) (par : gmap string float)
    (fs fs' : file_system) (surface : ndarray) :
  pickle_round_trip pickle_dumps pickle_loads ->
  obtain_loglikes pickle_dumps pickle_loads true minus_sos par fs
  = Ok (surface, fs') ->
  pickle_dir ∈ dirs fs /\
  dirs fs' = dirs fs /\
  contents fs' !! pickle_file_name = Some (pickle_dumps surface) /\
  (forall path, path <> pickle_file_name ->
     contents fs' !! path = contents fs !! path) /\
  shape_of surface = Sh2 51 51 /\ representable surface /\
  load_loglikes pickle_loads fs' = Ok surface /\
  obtain_loglikes pickle_dumps pickle_loads false minus_sos par fs'
  = Ok (surface, fs').
Proof.
  intros Hpickle Hrun.
  apply obtain_loglikes_sweep_ok in Hrun
    as (pv & K_e & kcm & st & Hpv & HK & Hk & Hst & -> & Hdir & ->).
  pose proof (grid_sweep_shaped _ _ _ _ _ Hst) as Hshaped.
  assert (representable (loglikes st)) as Hrep.
  { eapply surface_representable; [done|apply log_range_length..]. }
  assert (shape_of (loglikes st) = Sh2 51 51) as Hshape.
  { destruct Hshaped as (rows & -> & Hn & _). cbn [shape_of].
    by rewrite Hn, !log_range_length. }
  assert (load_loglikes pickle_loads
            {| dirs := dirs fs;
               contents := <[pickle_file_name := pickle_dumps (loglikes st)]>
                             (contents fs) |}
          = Ok (loglikes st)) as Hload.
  { unfold load_loglikes. cbn [dirs contents]. rewrite decide_True by done.
    rewrite lookup_insert_eq. cbn [of_option mbind result_bind].
    by apply Hpickle. }
  cbn [dirs contents]. split_and!; [done|done|apply lookup_insert_eq| |done..| ].
  - intros path Hpath. by apply lookup_insert_ne.
  - unfold obtain_loglikes. rewrite Hpv, HK, Hk. cbn [mbind result_bind].
    by rewrite Hload.
Qed.

Lemma result_surface_round_trip_witness :
  exists surface fs',
    obtain_loglikes (H := sample_numlib) codec_dumps codec_loads true
      sample_minus_sos sample_par sample_fs = Ok (surface, fs') /\
    pickle_dir ∈ dirs sample_fs /\
    dirs fs' = dirs sample_fs /\
    contents fs' !! pickle_file_name = Some (codec_dumps surface) /\
    (forall path, path <> pickle_file_name ->
       contents fs' !! path = contents sample_fs !! path) /\
    shape_of surface = Sh2 51 51 /\ representable surface /\
    load_loglikes codec_loads fs' = Ok surface /\
    obtain_loglikes (H := sample_numlib) codec_dumps codec_loads false
      sample_minus_sos sample_par fs' = Ok (surface, fs').
Proof.
  destruct (obtain_loglikes_sweep_returns (H := sample_numlib) codec_dumps
              codec_loads sample_minus_sos sample_par sample_fs)
    as (surface & fs' & Hrun); [vm_compute; reflexivity|done| |].
  { unfold sample_fs. cbn [dirs]. by apply elem_of_singleton. }
  exists surface, fs'. split; [exact Hrun|].
  apply (result_surface_round_trip (H := sample_numlib) codec_dumps codec_loads
           sample_minus_sos sample_par sample_fs fs' surface codec_round_trip Hrun).
Defined.

(** The serializer at work on a small array: 17 header bytes and 8
    bytes for each entry. *)
Lemma codec_sample :
  codec_loads (codec_dumps (Arr2 2 [ [0.5; -0]; [infinity; 1e-310] ]%float))
  = Ok (Arr2 2 [ [0.5; -0]; [infinity; 1e-310] ]%float) /\
  length (codec_dumps (Arr2 2 [ [0.5; -0]; [infinity; 1e-310] ]%float)) = 49.
Proof. split; vm_compute; reflexivity. Qed.




(** ** The heat map *)

Lemma foldl_pick_elem (pick : float -> float -> float) (x : float) (xs : list float) :
  (forall cur y, pick cur y = cur \/ pick cur y = y) ->
  foldl pick x xs ∈ x :: xs.
Proof.
  intros Hpick. revert x. induction xs as [|y xs IH]; intros x; [by left|].
  cbn [foldl]. destruct (Hpick x y) as [->| ->].
  - specialize (IH x). apply elem_of_cons in IH as [->|IH]; [by left|].
    by do 2 right.
  - right. apply IH.
Qed.

Lemma py_min_elem xs m : py_min xs = Ok m -> m ∈ xs.
Proof.
  destruct xs as [|x xs]; [done|]. intros [= <-].
  apply foldl_pick_elem. intros cur y. destruct (PrimFloat.ltb y cur); auto.
Qed.

Lemma py_max_elem xs m : py_max xs = Ok m -> m ∈ xs.
Proof.
  destruct xs as [|x xs]; [done|]. intros [= <-].
  apply foldl_pick_elem. intros cur y. destruct (PrimFloat.ltb cur y); auto.
Qed.

Lemma py_min_is_ok xs : is_ok (py_min xs) = true <-> xs <> [].
Proof. by destruct xs. Qed.

Lemma py_max_is_ok xs : is_ok (py_max xs) = true <-> xs <> [].
Proof. by destruct xs. Qed.

Lemma axis_ticks_ok r ticks :
  axis_ticks r = Ok ticks ->
  exists t0 tm tl,
    ticks = [t0; tm; tl] /\ r !! 0 = Some t0 /\
    r !! (length r / 2) = Some tm /\ r !! (length r - 1) = Some tl.
Proof.
  unfold axis_ticks, item, item_last. intros Hrun.
  apply bind_ok in Hrun as (t0 & H0 & Hrun).
  apply bind_ok in Hrun as (tm & Hm & Hrun).
  apply bind_ok in Hrun as (tl & Hl & [= <-]).
  exists t0, tm, tl.
  destruct (r !! 0) eqn:E0; [|done].
  destruct (r !! (length r / 2)) eqn:Em; [|done].
  destruct (last r) eqn:El; [|done].
  rewrite last_lookup in El.
  replace (length r - 1) with (pred (length r)) by lia.
  cbn in *. split_and!; congruence.
Qed.

Lemma axis_ticks_is_ok r : r <> [] -> is_ok (axis_ticks r) = true.
Proof.
  intros Hr. unfold axis_ticks, item, item_last.
  destruct r as [|x r]; [done|]. cbn [lookup list_lookup of_option mbind result_bind].
  destruct (lookup_lt_is_Some_2 (x :: r) (length (x :: r) / 2)) as [tm ->].
  { apply Nat.div_lt; cbn; lia. }
  cbn [of_option mbind result_bind].
  destruct (last (x :: r)) eqn:El; [done|].
  by apply last_None in El.
Qed.

Section PlotProps.
Context (np_exp : float -> float).

Lemma plot_heatmap_returns (loglikes : ndarray) (par_names : list string)
    (par_x par_y : list float) :
  is_ok (plot_heatmap np_exp loglikes par_names par_x par_y) = true <->
  1 < length par_names /\ par_x <> [] /\ par_y <> [] /\ ravel loglikes <> [].
Proof.
  assert (forall a, ravel (negate a) = [] <-> ravel a = []) as Hravel.
  { intros [xs|c rows]; cbn [ravel negate].
    - by destruct xs.
    - induction rows as [|[|x row] rows IH]; cbn; [done|exact IH|done]. }
  split.
  - unfold plot_heatmap. intros Hok.
    destruct (par_names !! 0) as [n0|] eqn:E0; [|done].
    destruct (par_names !! 1) as [n1|] eqn:E1; [|done].
    cbn [of_option mbind result_bind] in Hok.
    destruct par_x as [|x par_x]; [done|].
    destruct par_y as [|y par_y]; [done|].
    cbn [map py_min py_max mbind result_bind] in Hok.
    destruct (ravel (negate loglikes)) as [|z zs] eqn:Ez; [done|].
    apply lookup_lt_Some in E1.
    split_and!; [lia|done..|].
    intros Hnil. apply (proj2 (Hravel _)) in Hnil. by rewrite Hnil in Ez.
  - intros (Hnames & Hx & Hy & Hz). unfold plot_heatmap.
    destruct (lookup_lt_is_Some_2 par_names 0) as [n0 ->]; [lia|].
    destruct (lookup_lt_is_Some_2 par_names 1) as [n1 ->]; [lia|].
    cbn [of_option mbind result_bind].
    pose proof (axis_ticks_is_ok (map np_exp par_x)) as Htx.
    pose proof (axis_ticks_is_ok (map np_exp par_y)) as Hty.
    destruct par_x as [|x par_x]; [done|].
    destruct par_y as [|y par_y]; [done|].
    cbn [map py_min py_max mbind result_bind].
    destruct (ravel (negate loglikes)) as [|z zs] eqn:Ez.
    { apply (proj1 (Hravel _)) in Ez. by destruct Hz. }
    cbn [py_min py_max mbind result_bind].
    specialize (Htx ltac:(done)). specialize (Hty ltac:(done)).
    cbn [map] in Htx, Hty.
    destruct (axis_ticks (np_exp x :: map np_exp par_x)); [|done].
    cbn [mbind result_bind].
    by destruct (axis_ticks (np_exp y :: map np_exp par_y)).
Qed.

Lemma plot_heatmap_fields (loglikes : ndarray) (par_names : list string)
    (par_x par_y : list float) fig :
  plot_heatmap np_exp loglikes par_names par_x par_y = Ok fig ->
  image fig = negate loglikes /\
  (par_names !! 0 = Some (x_axis_label fig) /\
   par_names !! 1 = Some (y_axis_label fig)) /\
  fst (x_range fig) ∈ map np_exp par_x /\ snd (x_range fig) ∈ map np_exp par_x /\
  fst (y_range fig) ∈ map np_exp par_y /\ snd (y_range fig) ∈ map np_exp par_y /\
  colour_low fig ∈ ravel (negate loglikes) /\
  colour_high fig ∈ ravel (negate loglikes) /\
  (image_x fig, image_y fig) = (fst (x_range fig), fst (y_range fig)) /\
  (exists t0 tm tl, x_ticks fig = [t0; tm; tl] /\
     map np_exp par_x !! 0 = Some t0 /\
     map np_exp par_x !! (length par_x / 2) = Some tm /\
     map np_exp par_x !! (length par_x - 1) = Some tl) /\
  (exists t0 tm tl, y_ticks fig = [t0; tm; tl] /\
     map np_exp par_y !! 0 = Some t0 /\
     map np_exp par_y !! (length par_y / 2) = Some tm /\
     map np_exp par_y !! (length par_y - 1) = Some tl).
Proof.
  intros Hrun. unfold plot_heatmap in Hrun.
    apply bind_ok in Hrun as (n0 & Hn0 & Hrun).
    apply bind_ok in Hrun as (n1 & Hn1 & Hrun).
    apply bind_ok in Hrun as (xmin & Hxmin%py_min_elem & Hrun).
    apply bind_ok in Hrun as (xmax & Hxmax%py_max_elem & Hrun).
    apply bind_ok in Hrun as (ymin & Hymin%py_min_elem & Hrun).
    apply bind_ok in Hrun as (ymax & Hymax%py_max_elem & Hrun).
    apply bind_ok in Hrun as (low & Hlow%py_min_elem & Hrun).
    apply bind_ok in Hrun as (high & Hhigh%py_max_elem & Hrun).
    apply bind_ok in Hrun as (xt & Hxt%axis_ticks_ok & Hrun).
    apply bind_ok in Hrun as (yt & Hyt%axis_ticks_ok & [= <-]).
    rewrite !length_map in Hxt, Hyt.
    cbn [image x_range y_range colour_low colour_high image_x image_y
         x_ticks y_ticks fst snd x_axis_label y_axis_label].
    destruct (par_names !! 0); [|done]. destruct (par_names !! 1); [|done].
    cbn in Hn0, Hn1. split_and!; (done || congruence).
Qed.

(** X12: [plot_heatmap] returns exactly when it is given two axis names,
    two non-empty axes and a non-empty surface.  The figure then shows
    the negated surface, its axis and colour bounds are entries of the
    exponentiated axes and of the negated surface, and each axis has
    three ticks: its first entry, the entry at half its length and its
    last entry. *)
Theorem plot_heatmap_figure (loglikes : ndarray) (par_names : list string)
    (par_x par_y : list float) :
  (is_ok (plot_heatmap np_exp loglikes par_names par_x par_y) = true <->
   1 < length par_names /\ par_x <> [] /\ par_y <> [] /\ ravel loglikes <> []) /\
  (forall fig, plot_heatmap np_exp loglikes par_names par_x par_y = Ok fig ->
     image fig = negate loglikes /\
     fst (x_range fig) ∈ map np_exp par_x /\ snd (x_range fig) ∈ map np_exp par_x /\
     fst (y_range fig) ∈ map np_exp par_y /\ snd (y_range fig) ∈ map np_exp par_y /\
     colour_low fig ∈ ravel (negate loglikes) /\
     colour_high fig ∈ ravel (negate loglikes) /\
     (image_x fig, image_y fig) = (fst (x_range fig), fst (y_range fig)) /\
     (exists t0 tm tl, x_ticks fig = [t0; tm; tl] /\
        map np_exp par_x !! 0 = Some t0 /\
        map np_exp par_x !! (length par_x / 2) = Some tm /\
        map np_exp par_x !! (length par_x - 1) = Some tl) /\
     (exists t0 tm tl, y_ticks fig = [t0; tm; tl] /\
        map np_exp par_y !! 0 = Some t0 /\
        map np_exp par_y !! (length par_y / 2) = Some tm /\
        map np_exp par_y !! (length par_y - 1) = Some tl)).
Proof.
  split; [apply plot_heatmap_returns|].
  intros fig Hrun. apply plot_heatmap_fields in Hrun. tauto.
Qed.

End PlotProps.

Lemma nd_cell_negate a i j v :
  nd_cell a i j = Ok v -> nd_cell (negate a) i j = Ok (- v)%float.
Proof.
  destruct a as [xs|c rows]; [done|]. cbn [negate nd_cell].
  case_decide; [|done]. unfold cell.
  rewrite list_lookup_fmap.
  destruct (rows !! i) as [row|]; [|done]. cbn.
  rewrite list_lookup_fmap. by destruct (row !! j) as [x|]; [intros [= <-]|].
Qed.

Lemma ravel_surface_nonempty Kr kr st :
  surface_shaped Kr kr st -> Kr <> [] -> kr <> [] -> ravel (loglikes st) <> [].
Proof.
  intros (rows & -> & Hn & Hrows) HK Hk. cbn [ravel].
  destruct rows as [|row rows]; [by destruct Kr|].
  apply Forall_cons_1 in Hrows as [Hrow _].
  destruct row as [|x row]; [by destruct kr|]. done.
Qed.

(** X13: the call of [plot_heatmap] at line 235 returns on what a sweep
    returned: none of its indexing, [min] or [max] raises.  The figure
    it builds is labelled with the two parameter names, shows the
    negated surface cell by cell, and its axes are ticked at the
    exponentials of entries 0, 25 and 50 of the two 51-point axes.
    Line 236, which writes the figure to its file, is not part of the
    statement. *)
Theorem plot_after_sweep `{NumLib} `{!NumLibSpec} (np_exp : float -> float)
    (minus_sos : list float -> result float) (par : gmap string float)
    (pv Kr kr : list float) (st : sweep_state) :
  K_range par = Ok Kr ->
  kcm_range par = Ok kr ->
  grid_sweep minus_sos pv Kr kr = Ok st ->
  exists fig,
    plot_surface np_exp (loglikes st) Kr kr = Ok fig /\
    x_axis_label fig = "K_e=K_nu" /\ y_axis_label fig = "kcm" /\
    (forall i j v, nd_cell (loglikes st) i j = Ok v ->
       nd_cell (image fig) i j = Ok (- v)%float) /\
    (exists K0 K25 K50,
       Kr !! 0 = Some K0 /\ Kr !! 25 = Some K25 /\ Kr !! 50 = Some K50 /\
       x_ticks fig = [np_exp K0; np_exp K25; np_exp K50]) /\
    (exists k0 k25 k50,
       kr !! 0 = Some k0 /\ kr !! 25 = Some k25 /\ kr !! 50 = Some k50 /\
       y_ticks fig = [np_exp k0; np_exp k25; np_exp k50]).
Proof.
  intros HK Hk Hrun.
  apply bind_ok in HK as (K_e & _ & [= <-]).
  apply bind_ok in Hk as (kcm & _ & [= <-]).
  pose proof (log_range_length K_e) as HlK.
  pose proof (log_range_length kcm) as Hlk.
  set (Kr := log_range K_e) in *. set (kr := log_range kcm) in *.
  assert (Kr <> [] /\ kr <> []) as [HKne Hkne].
  { split; intros Hnil; rewrite Hnil in *; done. }
  pose proof (grid_sweep_shaped _ _ _ _ _ Hrun) as Hshaped.
  unfold plot_surface.
  destruct (plot_heatmap np_exp (loglikes st) ["K_e=K_nu"; "kcm"] Kr kr)
    as [fig|e] eqn:Efig.
  2:{ exfalso. assert (is_ok (Raise e : result heatmap) = true); [|done].
      rewrite <- Efig. apply plot_heatmap_returns.
      split_and!; [cbn; lia|done..|by eapply ravel_surface_nonempty]. }
  exists fig. split; [done|].
  apply plot_heatmap_fields in Efig
    as (Himg & [Hx Hy] & _ & _ & _ & _ & _ & _ & _ & Htx & Hty).
  cbn in Hx, Hy. injection Hx as <-. injection Hy as <-.
  split_and!; [done..| | |].
  - intros i j v Hv. rewrite Himg. by apply nd_cell_negate.
  - destruct Htx as (t0 & tm & tl & -> & Ht0 & Hm & Hl).
    rewrite HlK in Hm, Hl. change (51 / 2) with 25 in Hm. change (51 - 1) with 50 in Hl.
    rewrite list_lookup_fmap in Ht0, Hm, Hl.
    destruct (Kr !! 0) as [K0|]; [|done].
    destruct (Kr !! 25) as [K25|]; [|done].
    destruct (Kr !! 50) as [K50|]; [|done].
    cbn in Ht0, Hm, Hl. exists K0, K25, K50. split_and!; congruence.
  - destruct Hty as (t0 & tm & tl & -> & Ht0 & Hm & Hl).
    rewrite Hlk in Hm, Hl. change (51 / 2) with 25 in Hm. change (51 - 1) with 50 in Hl.
    rewrite list_lookup_fmap in Ht0, Hm, Hl.
    destruct (kr !! 0) as [k0|]; [|done].
    destruct (kr !! 25) as [k25|]; [|done].
    destruct (kr !! 50) as [k50|]; [|done].
    cbn in Ht0, Hm, Hl. exists k0, k25, k50. split_and!; congruence.
Qed.

Lemma plot_after_sweep_witness :
  exists Kr kr st,
    K_range (H := sample_numlib) sample_par = Ok Kr /\
    kcm_range (H := sample_numlib) sample_par = Ok kr /\
    grid_sweep sample_minus_sos [0; 0; 0; 0]%float Kr kr = Ok st /\
    exists fig,
      plot_surface (fun x => x) (loglikes st) Kr kr = Ok fig /\
      x_axis_label fig = "K_e=K_nu" /\ y_axis_label fig = "kcm" /\
      (forall i j v, nd_cell (loglikes st) i j = Ok v ->
         nd_cell (image fig) i j = Ok (- v)%float) /\
      (exists K0 K25 K50,
         Kr !! 0 = Some K0 /\ Kr !! 25 = Some K25 /\ Kr !! 50 = Some K50 /\
         x_ticks fig = [K0; K25; K50]) /\
      (exists k0 k25 k50,
         kr !! 0 = Some k0 /\ kr !! 25 = Some k25 /\ kr !! 50 = Some k50 /\
         y_ticks fig = [k0; k25; k50]).
Proof.
  eexists _, _, _.
  split; [vm_compute; reflexivity|].
  split; [vm_compute; reflexivity|].
  split; [vm_compute; reflexivity|].
  eapply (plot_after_sweep (H := sample_numlib) (fun x => x) sample_minus_sos
            sample_par [0; 0; 0; 0]%float); vm_compute; reflexivity.
Defined.

(** ** The order of binary64 values, and Python's min and max *)

Lemma SFltb_irrefl (x : spec_float) : SFltb x x = false.
Proof.
  unfold SFltb. destruct x as [[]|[]| |[] m e]; cbn; try done;
    rewrite Z.compare_refl, Pos.compare_cont_refl; done.
Qed.

Lemma SFltb_trans (x y z : spec_float) :
  SFltb x y = true -> SFltb y z = true -> SFltb x z = true.
Proof.
  unfold SFltb.
  destruct x as [sx|sx| |sx mx ex], y as [sy|sy| |sy my ey], z as [sz|sz| |sz mz ez];
    cbn; try done;
    try (by destruct sx, sy, sz).
  change (Pos.compare_cont Eq) with Pos.compare.
  destruct sx, sy, sz; try done;
    destruct (Z.compare_spec ex ey), (Z.compare_spec ey ez), (Z.compare_spec ex ez);
    try done; try lia;
    destruct (Pos.compare_spec mx my), (Pos.compare_spec my mz),
      (Pos.compare_spec mx mz); cbn; try done; lia.
Qed.

Lemma float_ltb_irrefl (x : float) : PrimFloat.ltb x x = false.
Proof. rewrite ltb_spec. apply SFltb_irrefl. Qed.

Lemma float_ltb_trans (x y z : float) :
  PrimFloat.ltb x y = true -> PrimFloat.ltb y z = true -> PrimFloat.ltb x z = true.
Proof. rewrite !ltb_spec. apply SFltb_trans. Qed.

(** A left fold that keeps the current entry unless the next one is
    strictly below it in a strict order ends on an entry that nothing
    seen is strictly below. *)
Lemma foldl_least (lt : float -> float -> bool) (cur : float) (xs : list float)
    (seen : float -> Prop) :
  (forall x, lt x x = false) ->
  (forall x y z, lt x y = true -> lt y z = true -> lt x z = true) ->
  (forall s, seen s -> lt s cur = false) ->
  forall s, seen s \/ s = cur \/ s ∈ xs ->
    lt s (foldl (fun cur y => if lt y cur then y else cur) cur xs) = false.
Proof.
  intros Hirr Htrans.
  revert cur seen. induction xs as [|y xs IH]; intros cur seen Hseen s Hs.
  - cbn. destruct Hs as [Hs | [-> | Hs]]; [auto|apply Hirr|].
    by apply elem_of_nil in Hs.
  - cbn [foldl].
    apply (IH _ (fun s => seen s \/ s = cur \/ s = y)).
    + intros s' Hs'. destruct (lt y cur) eqn:Ey.
      * destruct (lt s' y) eqn:Es'; [|done].
        pose proof (Htrans _ _ _ Es' Ey) as Hlt.
        destruct Hs' as [Hs' | [-> | ->]].
        -- by rewrite (Hseen _ Hs') in Hlt.
        -- by rewrite Hirr in Hlt.
        -- by rewrite Hirr in Es'.
      * destruct Hs' as [Hs' | [-> | ->]]; [auto|apply Hirr|done].
    + destruct Hs as [Hs | [-> | Hs]]; [auto|auto|].
      apply elem_of_cons in Hs as [-> | Hs]; [auto|].
      right. destruct (lt y cur); auto.
Qed.

Lemma py_min_lower xs m x :
  py_min xs = Ok m -> x ∈ xs -> PrimFloat.ltb x m = false.
Proof.
  destruct xs as [|x0 xs]; [done|]. intros [= <-] Hx.
  apply (foldl_least PrimFloat.ltb x0 xs (fun _ => False));
    [apply float_ltb_irrefl|apply float_ltb_trans|done|].
  apply elem_of_cons in Hx as [-> | Hx]; auto.
Qed.

Lemma py_max_upper xs m x :
  py_max xs = Ok m -> x ∈ xs -> PrimFloat.ltb m x = false.
Proof.
  destruct xs as [|x0 xs]; [done|]. intros [= <-] Hx.
  apply (foldl_least (fun a b => PrimFloat.ltb b a) x0 xs (fun _ => False));
    [apply float_ltb_irrefl| |done|].
  - intros a b c Hab Hbc. by apply (float_ltb_trans c b a).
  - apply elem_of_cons in Hx as [-> | Hx]; auto.
Qed.

(** X14: the bounds that [plot_heatmap] hands to the figure enclose what
    is plotted: no entry of an exponentiated axis compares strictly
    below the low end of that axis' range or strictly above its high
    end, and no cell of the negated surface compares strictly below the
    low end of the colour scale or strictly above its high end. *)
Theorem plot_heatmap_bounds_enclose (np_exp : float -> float) (loglikes : ndarray)
    (par_names : list string) (par_x par_y : list float) (fig : heatmap) :
  plot_heatmap np_exp loglikes par_names par_x par_y = Ok fig ->
  (forall x, x ∈ map np_exp par_x ->
     PrimFloat.ltb x (fst (x_range fig)) = false /\
     PrimFloat.ltb (snd (x_range fig)) x = false) /\
  (forall y, y ∈ map np_exp par_y ->
     PrimFloat.ltb y (fst (y_range fig)) = false /\
     PrimFloat.ltb (snd (y_range fig)) y = false) /\
  (forall z, z ∈ ravel (image fig) ->
     PrimFloat.ltb z (colour_low fig) = false /\
     PrimFloat.ltb (colour_high fig) z = false).
Proof.
  intros Hrun. unfold plot_heatmap in Hrun.
  apply bind_ok in Hrun as (n0 & _ & Hrun).
  apply bind_ok in Hrun as (n1 & _ & Hrun).
  apply bind_ok in Hrun as (xmin & Hxmin & Hrun).
  apply bind_ok in Hrun as (xmax & Hxmax & Hrun).
  apply bind_ok in Hrun as (ymin & Hymin & Hrun).
  apply bind_ok in Hrun as (ymax & Hymax & Hrun).
  apply bind_ok in Hrun as (low & Hlow & Hrun).
  apply bind_ok in Hrun as (high & Hhigh & Hrun).
  apply bind_ok in Hrun as (xt & _ & Hrun).
  apply bind_ok in Hrun as (yt & _ & [= <-]).
  cbn [image x_range y_range colour_low colour_high fst snd].
  split_and!; intros v Hv; split;
    eauto using py_min_lower, py_max_upper.
Qed.

Lemma plot_heatmap_bounds_enclose_witness :
  plot_heatmap (fun x => x) (Arr2 2 [[1; 2]; [4; 3]]%float) ["a"; "b"]
      [1; 2]%float [3; 4]%float
    = Ok {| x_axis_label := "a"; y_axis_label := "b";
            x_range := (1, 2)%float; y_range := (3, 4)%float;
            colour_low := (-4)%float; colour_high := (-1)%float;
            image := Arr2 2 [[-1; -2]; [-4; -3]]%float;
            image_x := 1%float; image_y := 3%float;
            image_dw := 1%float; image_dh := 1%float;
            x_ticks := [1; 2; 2]%float; y_ticks := [3; 4; 4]%float |} /\
  forall z, z ∈ [-1; -2; -4; -3]%float ->
    PrimFloat.ltb z (-4)%float = false /\ PrimFloat.ltb (-1)%float z = false.
Proof.
  assert (plot_heatmap (fun x => x) (Arr2 2 [[1; 2]; [4; 3]]%float) ["a"; "b"]
            [1; 2]%float [3; 4]%float
          = Ok {| x_axis_label := "a"; y_axis_label := "b";
                  x_range := (1, 2)%float; y_range := (3, 4)%float;
                  colour_low := (-4)%float; colour_high := (-1)%float;
                  image := Arr2 2 [[-1; -2]; [-4; -3]]%float;
                  image_x := 1%float; image_y := 3%float;
                  image_dw := 1%float; image_dh := 1%float;
                  x_ticks := [1; 2; 2]%float; y_ticks := [3; 4; 4]%float |})
    as Hrun by (vm_compute; reflexivity).
  split; [exact Hrun|].
  exact (proj2 (proj2 (plot_heatmap_bounds_enclose _ _ _ _ _ _ Hrun))).
Defined.
